(** * lfs.manage.js: the management interface's view binder

    A shallow embedding of [lfs/static/js/lfs.manage.js].  The script is a
    flat list of jQuery bindings; the embedding keeps one definition per
    source function or handler, named after the function or after the
    selector the handler is bound to.

    The browser and jQuery are not part of the repository.  They are
    represented by a small document model: an element tree with the
    properties the script reads and writes, the jQuery traversals the
    script calls, a cookie jar, a timer queue and logs of what the script
    asks of its collaborators (notifications, requests, widget calls). *)

From Stdlib Require Import ZArith Ascii String List Lia Bool DecimalString DecimalNat.
From stdpp Require Import base list strings gmap.

Open Scope string_scope.
Open Scope list_scope.

(** ** The document *)

(** The properties of an element that the script touches.  [height] is the
    height in pixels that [.height()] reports and [.height(h)] sets, each
    element having its own; [hidden] is [display: none] as set by [.hide()]
    and cleared by [.show()]. *)
Record props := Props {
  tag : string;
  ident : string;
  classes : list string;
  attrs : list (string * string);
  checked : bool;
  value : string;
  height : Z;
  hidden : bool;
}.

#[warnings="-register-all"]
Inductive node :=
| Text (s : string)
| Elem (e : props) (kids : list node).

(** Markup is kept as the forest the browser's parser builds from it. *)
Definition markup := list node.

(** An element is addressed by the child indices leading to it from the
    document's root element. *)
Definition path := list nat.

Definition set_checked (b : bool) (e : props) : props :=
  Props (tag e) (ident e) (classes e) (attrs e) b (value e) (height e) (hidden e).
Definition set_value (v : string) (e : props) : props :=
  Props (tag e) (ident e) (classes e) (attrs e) (checked e) v (height e) (hidden e).
Definition set_height (h : Z) (e : props) : props :=
  Props (tag e) (ident e) (classes e) (attrs e) (checked e) (value e) h (hidden e).
Definition set_hidden (b : bool) (e : props) : props :=
  Props (tag e) (ident e) (classes e) (attrs e) (checked e) (value e) (height e) b.
Definition set_classes (cs : list string) (e : props) : props :=
  Props (tag e) (ident e) cs (attrs e) (checked e) (value e) (height e) (hidden e).

Definition hasClass (c : string) (e : props) : bool :=
  existsb (String.eqb c) (classes e).
Definition addClass (c : string) (e : props) : props :=
  if hasClass c e then e else set_classes (classes e ++ [c]) e.
Definition removeClass (c : string) (e : props) : props :=
  set_classes (List.filter (fun x => negb (String.eqb c x)) (classes e)) e.

(** [attr(name)]: [None] is JavaScript's [undefined]. *)
Fixpoint assoc (k : string) (l : list (string * string)) : option string :=
  match l with
  | [] => None
  | (k', v) :: l' => if String.eqb k k' then Some v else assoc k l'
  end.
Definition attr (name : string) (e : props) : option string := assoc name (attrs e).

(** *** Selectors

    The selectors of the script that decide on the element alone:
    ["#id"], [".class"], ["tag"] and ["tag.class"].  Every selector the
    script writes out has one of these forms where the model reads it;
    [simple] below recognises them, and what [sel] makes of any other
    string is not what jQuery makes of it.  An id is taken to name one
    element, as the ids of a document do. *)
Inductive selector :=
| ById (i : string)
| ByClass (c : string)
| ByTag (t : string)
| ByTagClass (t c : string).

Definition sel (s : string) : selector :=
  match s with
  | String ("#"%char) r => ById r
  | String ("."%char) r => ByClass r
  | _ =>
      match index 0 "." s with
      | Some n => ByTagClass (substring 0 n s) (substring (S n) (String.length s - S n) s)
      | None => ByTag s
      end
  end.

Definition matches (s : selector) (e : props) : bool :=
  match s with
  | ById i => String.eqb (ident e) i
  | ByClass c => hasClass c e
  | ByTag t => String.eqb (tag e) t
  | ByTagClass t c => String.eqb (tag e) t && hasClass c e
  end.

(** *** jQuery traversals *)

(** [$(s).each(function() { <update this> })]: every matching element, also
    one nested in another match, gets its properties updated. *)
Fixpoint each_set (s : selector) (f : props -> props) (n : node) : node :=
  match n with
  | Text t => Text t
  | Elem e ks => Elem (if matches s e then f e else e) (map (each_set s f) ks)
  end.

(** A map over a list that threads an accumulator from left to right. *)
Fixpoint map_acc {S A B : Type} (g : S -> A -> S * B) (st : S) (l : list A) : S * list B :=
  match l with
  | [] => (st, [])
  | k :: l' =>
      let '(sa, k') := g st k in
      let '(sb, l'') := map_acc g sa l' in
      (sb, k' :: l'')
  end.

(** [$(s).each(...)] where the callback also updates a variable of the
    enclosing function: the variable is threaded in document order. *)
Fixpoint each_acc {S : Type} (s : selector) (f : S -> props -> S * props)
    (st : S) (n : node) : S * node :=
  match n with
  | Text t => (st, Text t)
  | Elem e ks =>
      let '(st1, e1) := if matches s e then f st e else (st, e) in
      let '(st2, ks') := map_acc (each_acc s f) st1 ks in
      (st2, Elem e1 ks')
  end.

(** [$(s)]: the matched elements in document order. *)
Fixpoint select (s : selector) (n : node) : list props :=
  match n with
  | Text _ => []
  | Elem e ks => (if matches s e then [e] else []) ++ flat_map (select s) ks
  end.

(** [$(s).html(m)]: the contents of every matching element are replaced by
    [m].  A match inside another match leaves the document together with
    the outer one's old contents. *)
Fixpoint html (s : selector) (m : markup) (n : node) : node :=
  match n with
  | Text t => Text t
  | Elem e ks => if matches s e then Elem e m else Elem e (map (html s m) ks)
  end.

(** A change to the children, or to the properties, of one element. *)
Definition on_kids (f : list node -> list node) (n : node) : node :=
  match n with
  | Text t => Text t
  | Elem e ks => Elem e (f ks)
  end.
Definition on_props (f : props -> props) (n : node) : node :=
  match n with
  | Text t => Text t
  | Elem e ks => Elem (f e) ks
  end.

(** The node at a place, and a change to the node at a place. *)
Fixpoint node_at (p : path) (n : node) : option node :=
  match p with
  | [] => Some n
  | i :: p' =>
      match n with
      | Elem _ ks => match ks !! i with Some k => node_at p' k | None => None end
      | Text _ => None
      end
  end.

Definition props_at (p : path) (n : node) : option props :=
  match node_at p n with
  | Some (Elem e _) => Some e
  | _ => None
  end.

Fixpoint alter_at (f : node -> node) (p : path) (n : node) : node :=
  match p with
  | [] => f n
  | i :: p' => on_kids (alter (alter_at f p') i) n
  end.

(** [x.parent()] and [x.parents()], nearest first. *)
Definition parent (p : path) : path := removelast p.
Fixpoint proper_prefixes (p : path) : list path :=
  match p with
  | [] => []
  | i :: p' => [] :: map (cons i) (proper_prefixes p')
  end.
Definition parents (p : path) : list path := rev (proper_prefixes p).

Definition matches_at (s : selector) (root : node) (p : path) : bool :=
  match props_at p root with
  | Some e => matches s e
  | None => false
  end.

(** [x.parents(s)]: the ancestors matching [s], nearest first. *)
Definition parents_sel (s : selector) (p : path) (root : node) : list path :=
  List.filter (matches_at s root) (parents p).

(** [x.parents("s:first")]: the nearest ancestor matching [s]. *)
Definition parents_first (s : selector) (p : path) (root : node) : option path :=
  head (parents_sel s p root).

(** [x.replaceWith(m)] for an element [x] that has a parent. *)
Definition splice (i : nat) (m : markup) (ks : list node) : list node :=
  match ks !! i with
  | Some _ => take i ks ++ m ++ drop (S i) ks
  | None => ks
  end.
Definition replaceWith (p : path) (m : markup) (root : node) : node :=
  match last p with
  | Some i => alter_at (on_kids (splice i m)) (parent p) root
  | None => root
  end.

(** Numbers turned into strings, as [val(n)] and [$.cookie(k, n)] do. *)
Definition string_of_nat (n : nat) : string := NilZero.string_of_uint (Nat.to_uint n).

(** ** Layout helpers *)

(** [$(s).height()]: the height of the first match, [null] when there is
    none; [Math.max] reads [null] as 0. *)
Definition height_of (s : selector) (root : node) : option Z :=
  height <$> head (select s root).
Definition num (h : option Z) : Z := default 0%Z h.

(** [align_buttons(id)] *)
Definition align_buttons (id : string) (root : node) : node :=
  let hl := height_of (sel (id ++ "-left")%string) root in
  let hr := height_of (sel (id ++ "-right")%string) root in
  let h := Z.max (num hl) (num hr) in
  let root := each_set (sel (id ++ "-left")%string) (set_height h) root in
  each_set (sel (id ++ "-right")%string) (set_height h) root.

(** [align_related_products_buttons()] *)
Definition align_related_products_buttons (root : node) : node :=
  let hl := height_of (sel "#related-products-left") root in
  let hr := height_of (sel "#related-products-right") root in
  let h := Z.max (num hl) (num hr) in
  let root := each_set (sel "#related-products-left") (set_height h) root in
  each_set (sel "#related-products-right") (set_height h) root.

(** [align_accessories_buttons()] *)
Definition align_accessories_buttons (root : node) : node :=
  let hl := height_of (sel "#accessories-left") root in
  let hr := height_of (sel "#accessories-right") root in
  let h := Z.max (num hl) (num hr) in
  let root := each_set (sel "#accessories-left") (set_height h) root in
  each_set (sel "#accessories-right") (set_height h) root.

(** [align_topsellers_buttons()] *)
Definition align_topsellers_buttons (root : node) : node :=
  let hl := height_of (sel "#topseller-left") root in
  let hr := height_of (sel "#topseller-right") root in
  let h := Z.max (num hl) (num hr) in
  let root := each_set (sel "#topseller-left") (set_height h) root in
  each_set (sel "#topseller-right") (set_height h) root.

(** [update_positions()] *)
Definition update_positions (root : node) : node :=
  snd (each_acc (sel ".position")
         (fun position e =>
            let position := (position + 10)%nat in
            (position, set_value (string_of_nat position) e))
         0%nat root).

(** ** The page *)

(** What a request's success callback is; the callbacks themselves are the
    definitions of the same name further down. *)
Inductive callback :=
| fill (container : string)       (* function(data) { $(container).html(data) },
                                     also the option [target: container] *)
| fill_accessories                (* the same for "#accessories-inline", then
                                     align_accessories_buttons() *)
| product_name_filter_received    (* the envelope callback of "#product-name-filter" *)
| export_category_posted (input : path)
| export_product_posted (input : path)
| category_state_received.

Record request := Request {
  method : string;
  url : option string;                 (* [None]: the page's own address *)
  params : list (string * string);
  success : callback;
}.

(** A pending [setTimeout]: the scheduled function submits [form]. *)
Record timer := Timer {
  timer_id : nat;
  due : Z;
  form : option path;
}.

(** The element the confirmation prompt remembers, and whether it is out of
    the document (it is once the prompt has replaced it). *)
Record saved := Saved {
  element : node;
  detached : bool;
}.

Record page := Page {
  doc : node;
  cookies : gmap string string;
  growls : list (option string);       (* arguments of [$.jGrowl], oldest first *)
  calls : list string;                 (* calls into third-party widgets *)
  tabs : list (string * option Z);     (* [tabs('select', index)] calls *)
  now : Z;                             (* milliseconds *)
  timers : list timer;                 (* ordered by [due] *)
  next_timer : nat;
  timeout : option nat;                (* the global [timeout]; [None] while undeclared *)
  requests : list (Z * request);       (* requests sent, with the time of sending *)
  confirmation : option saved;         (* [var confirmation] *)
  location : option string;            (* set when the browser navigates *)
}.

Definition with_doc (f : node -> node) (pg : page) : page :=
  Page (f (doc pg)) (cookies pg) (growls pg) (calls pg) (tabs pg) (now pg) (timers pg)
       (next_timer pg) (timeout pg) (requests pg) (confirmation pg) (location pg).
Definition with_cookies (f : gmap string string -> gmap string string) (pg : page) : page :=
  Page (doc pg) (f (cookies pg)) (growls pg) (calls pg) (tabs pg) (now pg) (timers pg)
       (next_timer pg) (timeout pg) (requests pg) (confirmation pg) (location pg).
Definition with_growls (f : list (option string) -> list (option string)) (pg : page) : page :=
  Page (doc pg) (cookies pg) (f (growls pg)) (calls pg) (tabs pg) (now pg) (timers pg)
       (next_timer pg) (timeout pg) (requests pg) (confirmation pg) (location pg).
Definition with_calls (f : list string -> list string) (pg : page) : page :=
  Page (doc pg) (cookies pg) (growls pg) (f (calls pg)) (tabs pg) (now pg) (timers pg)
       (next_timer pg) (timeout pg) (requests pg) (confirmation pg) (location pg).
Definition with_tabs (f : list (string * option Z) -> list (string * option Z)) (pg : page) : page :=
  Page (doc pg) (cookies pg) (growls pg) (calls pg) (f (tabs pg)) (now pg) (timers pg)
       (next_timer pg) (timeout pg) (requests pg) (confirmation pg) (location pg).
Definition with_now (t : Z) (pg : page) : page :=
  Page (doc pg) (cookies pg) (growls pg) (calls pg) (tabs pg) t (timers pg)
       (next_timer pg) (timeout pg) (requests pg) (confirmation pg) (location pg).
Definition with_timers (f : list timer -> list timer) (pg : page) : page :=
  Page (doc pg) (cookies pg) (growls pg) (calls pg) (tabs pg) (now pg) (f (timers pg))
       (next_timer pg) (timeout pg) (requests pg) (confirmation pg) (location pg).
Definition with_next_timer (n : nat) (pg : page) : page :=
  Page (doc pg) (cookies pg) (growls pg) (calls pg) (tabs pg) (now pg) (timers pg)
       n (timeout pg) (requests pg) (confirmation pg) (location pg).
Definition with_timeout (v : option nat) (pg : page) : page :=
  Page (doc pg) (cookies pg) (growls pg) (calls pg) (tabs pg) (now pg) (timers pg)
       (next_timer pg) v (requests pg) (confirmation pg) (location pg).
Definition with_requests (f : list (Z * request) -> list (Z * request)) (pg : page) : page :=
  Page (doc pg) (cookies pg) (growls pg) (calls pg) (tabs pg) (now pg) (timers pg)
       (next_timer pg) (timeout pg) (f (requests pg)) (confirmation pg) (location pg).
Definition with_confirmation (c : option saved) (pg : page) : page :=
  Page (doc pg) (cookies pg) (growls pg) (calls pg) (tabs pg) (now pg) (timers pg)
       (next_timer pg) (timeout pg) (requests pg) c (location pg).
Definition with_location (l : option string) (pg : page) : page :=
  Page (doc pg) (cookies pg) (growls pg) (calls pg) (tabs pg) (now pg) (timers pg)
       (next_timer pg) (timeout pg) (requests pg) (confirmation pg) l.

(** A freshly loaded page showing [root]. *)
Definition load (root : node) (jar : gmap string string) : page :=
  Page root jar [] [] [] 0 [] 0 None [] None None.

(** *** What the script calls *)

(** [$.jGrowl(m)]: one notification is put up per call. *)
Definition jGrowl (m : option string) : page -> page :=
  with_growls (fun l => l ++ [m]).

(** [$(s).html(m)]; with [m] undefined the call only reads. *)
Definition jq_html (s : string) (m : option markup) : page -> page :=
  match m with
  | Some m => with_doc (html (sel s) m)
  | None => fun pg => pg
  end.

Definition jq_show (s : string) : page -> page := with_doc (each_set (sel s) (set_hidden false)).
Definition jq_hide (s : string) : page -> page := with_doc (each_set (sel s) (set_hidden true)).

(** A call into a third-party widget, recorded by name. *)
Definition widget (name : string) : page -> page := with_calls (fun l => l ++ [name]).

(** [$.post], [$.get] and [ajaxSubmit] put a request on the wire. *)
Definition send (r : request) (pg : page) : page :=
  with_requests (fun l => l ++ [(now pg, r)]) pg.

(** [$.cookie(k)] and [$.cookie(k, v)]. *)
Definition cookie_get (k : string) (pg : page) : option string := cookies pg !! k.
Definition cookie_set (k v : string) : page -> page := with_cookies (insert k v).

Definition hide_ajax_loading : page -> page := jq_hide ".ajax-loading".
Definition show_ajax_loading : page -> page := jq_show ".ajax-loading".

(** ** Responses *)

(** A parsed JSON envelope whose [html] is a list of (selector, markup)
    pairs; [message] is [None] when the envelope has no such field. *)
Record envelope := Envelope {
  html_pairs : list (string * markup);
  message : option string;
}.

(** A parsed JSON envelope with feature-named markup fields; a field that
    is missing reads as undefined. *)
Record named := Named {
  field : string -> option markup;
  named_message : option string;
}.

(** The answer of the category-state endpoint. *)
Record category_state := CategoryState {
  state_html : string * markup;
  state_checkbox : string * bool;
}.

(** [if (m)]: undefined and the empty string are false. *)
Definition truthy (m : option string) : bool :=
  match m with
  | Some s => negb (String.eqb s "")
  | None => false
  end.

(** [for (var html in data["html"]) $(data["html"][html][0]).html(data["html"][html][1])] *)
Definition patch (l : list (string * markup)) (pg : page) : page :=
  fold_left (fun pg pr => jq_html (fst pr) (Some (snd pr)) pg) l pg.

(** ** Success callbacks of the bindings that parse a JSON envelope

    Each definition is the [success] function of the binding it is named
    after, applied to the envelope [$.parseJSON] returned. *)

(** [$("#product-name-filter").live("keyup", ...)] *)
Definition product_name_filter (data : envelope) (pg : page) : page :=
  let pg := patch (html_pairs data) pg in
  if truthy (message data) then jGrowl (message data) pg else pg.

(** [$(".ajax-save-button").live("click", ...)] *)
Definition ajax_save_button (data : envelope) (pg : page) : page :=
  let pg := patch (html_pairs data) pg in
  jGrowl (message data) pg.

(** [$(".ajax-save-button-2").live("click", ...)] *)
Definition ajax_save_button_2 (data : envelope) (pg : page) : page :=
  let pg := patch (html_pairs data) pg in
  let pg := hide_ajax_loading pg in
  if truthy (message data) then jGrowl (message data) pg else pg.

(** [$(".ajax-link").live("click", ...)] *)
Definition ajax_link (data : envelope) (pg : page) : page :=
  let pg := patch (html_pairs data) pg in
  if truthy (message data) then jGrowl (message data) pg else pg.

(** [$(".category-ajax-link").live("click", ...)], the collapsed branch *)
Definition category_ajax_link (data : envelope) (pg : page) : page :=
  patch (html_pairs data) pg.

Definition criterion_save_button (data : named) (pg : page) : page :=
  let pg := jq_html "#criteria" (field data "criteria") pg in
  jGrowl (named_message data) pg.

Definition price_criterion_save_button (data : named) (pg : page) : page :=
  let pg := jq_html "#prices" (field data "prices") pg in
  let pg := jq_html "#price-criteria" (field data "criteria") pg in
  jGrowl (named_message data) pg.

Definition category_products_add_button (data : named) (pg : page) : page :=
  let pg := jq_html "#products-inline" (field data "products") pg in
  jGrowl (named_message data) pg.

Definition category_seo_button (data : named) (pg : page) : page :=
  let pg := jq_html "#seo" (field data "seo") pg in
  jGrowl (named_message data) pg.

Definition product_images_update_button (data : named) (pg : page) : page :=
  let pg := jq_html "#images" (field data "images") pg in
  jGrowl (named_message data) pg.

Definition product_data_save_button (data : named) (pg : page) : page :=
  let pg := jq_html "#data" (field data "form") pg in
  let pg := jq_html "#selectable-products" (field data "selectable_products") pg in
  jGrowl (named_message data) pg.

Definition product_categories_save_button (data : named) (pg : page) : page :=
  jGrowl (named_message data) pg.

Definition variants_add_button (data : named) (pg : page) : page :=
  let pg := jq_html "#variants" (field data "properties") pg in
  jq_html "#selectable-products" (field data "selectable_products") pg.

Definition variants_update_button (data : named) (pg : page) : page :=
  let pg := jq_html "#variants" (field data "properties") pg in
  jq_html "#selectable-products" (field data "selectable_products") pg.

Definition add_accessories_button (data : named) (pg : page) : page :=
  let pg := jq_html "#accessories-inline" (field data "html") pg in
  let pg := jGrowl (named_message data) pg in
  let pg := with_doc align_accessories_buttons pg in
  hide_ajax_loading pg.

Definition accessories_update_button (data : named) (pg : page) : page :=
  let pg := jq_html "#accessories-inline" (field data "html") pg in
  let pg := jGrowl (named_message data) pg in
  let pg := with_doc align_accessories_buttons pg in
  hide_ajax_loading pg.

Definition add_related_products_button (data : named) (pg : page) : page :=
  let pg := jq_html "#related-products-inline" (field data "html") pg in
  let pg := jGrowl (named_message data) pg in
  with_doc align_related_products_buttons pg.

Definition remove_related_products_button (data : named) (pg : page) : page :=
  let pg := jq_html "#related-products-inline" (field data "html") pg in
  let pg := jGrowl (named_message data) pg in
  with_doc align_related_products_buttons pg.

Definition related_products_update_button (data : named) (pg : page) : page :=
  let pg := jq_html "#related-products-inline" (field data "html") pg in
  jGrowl (named_message data) pg.

Definition seo_save_button (data : named) (pg : page) : page :=
  let pg := jq_html "#seo-inline" (field data "seo_inline") pg in
  jGrowl (named_message data) pg.

Definition price_button (data : named) (pg : page) : page :=
  let pg := jq_html "#prices" (field data "prices") pg in
  jGrowl (named_message data) pg.

Definition product_stock_button (data : named) (pg : page) : page :=
  let pg := jq_html "#stock" (field data "html") pg in
  let pg := widget "DateTimeShortcuts.init" pg in
  jGrowl (named_message data) pg.

Definition add_property_button (data : named) (pg : page) : page :=
  let pg := jq_html "#properties" (field data "html") pg in
  jGrowl (named_message data) pg.

Definition property_group_update_button (data : named) (pg : page) : page :=
  let pg := jq_html "#properties" (field data "html") pg in
  jGrowl (named_message data) pg.

Definition add_products_button (data : named) (pg : page) : page :=
  let pg := jq_html "#products-inline" (field data "products_inline") pg in
  let pg := jq_html "#product-values" (field data "product_values_inline") pg in
  jGrowl (named_message data) pg.

Definition products_update_button (data : named) (pg : page) : page :=
  let pg := jq_html "#products-inline" (field data "html") pg in
  jGrowl (named_message data) pg.

Definition update_product_values_button (data : named) (pg : page) : page :=
  let pg := jq_html "#product-values" (field data "html") pg in
  jGrowl (named_message data) pg.

Definition shop_property_add_option_button (data : named) (pg : page) : page :=
  let pg := jq_html "#options" (field data "options") pg in
  jGrowl (named_message data) pg.

Definition shop_property_add_step_button (data : named) (pg : page) : page :=
  let pg := jq_html "#steps" (field data "steps") pg in
  jGrowl (named_message data) pg.

Definition shop_property_save_step_button (data : named) (pg : page) : page :=
  let pg := jq_html "#steps" (field data "steps") pg in
  jGrowl (named_message data) pg.

Definition shop_property_save_step_type_button (data : named) (pg : page) : page :=
  let pg := jq_html "#steps" (field data "steps") pg in
  jGrowl (named_message data) pg.

Definition ajax_portlet_save_button (data : named) (pg : page) : page :=
  let pg := widget "dialog.close" pg in
  let pg := jq_html "#portlets" (field data "html") pg in
  jGrowl (named_message data) pg.

Definition add_topseller_button (data : named) (pg : page) : page :=
  let pg := jq_html "#topseller-inline" (field data "html") pg in
  jGrowl (named_message data) pg.

Definition topseller_update_button (data : named) (pg : page) : page :=
  let pg := jq_html "#topseller-inline" (field data "html") pg in
  jGrowl (named_message data) pg.

Definition add_featured_button (data : named) (pg : page) : page :=
  let pg := jq_html "#featured-inline" (field data "html") pg in
  jGrowl (named_message data) pg.

Definition featured_update_button (data : named) (pg : page) : page :=
  let pg := jq_html "#featured-inline" (field data "html") pg in
  jGrowl (named_message data) pg.

Definition shop_default_values_button (data : named) (pg : page) : page :=
  let pg := jq_html "#default-values" (field data "html") pg in
  jGrowl (named_message data) pg.

(** [$(".category-products-remove-button").live("click", ...)]: the
    response is markup, not an envelope. *)
Definition category_products_remove_button (data : markup) (pg : page) : page :=
  let pg := jq_html "#products-inline" (Some data) pg in
  jGrowl (Some "Produkte wurden von Kategorie entfernt.") pg.

(** The bindings by the way they treat the envelope's [message]. *)
Definition guarded_bindings : list (envelope -> page -> page) :=
  [product_name_filter; ajax_save_button_2; ajax_link].

Definition reporting_pair_bindings : list (envelope -> page -> page) :=
  [ajax_save_button].

Definition reporting_named_bindings : list (named -> page -> page) :=
  [criterion_save_button; price_criterion_save_button; category_products_add_button;
   category_seo_button; product_images_update_button; product_data_save_button;
   product_categories_save_button; add_accessories_button; accessories_update_button;
   add_related_products_button; remove_related_products_button;
   related_products_update_button; seo_save_button; price_button; product_stock_button;
   add_property_button; property_group_update_button; add_products_button;
   products_update_button; update_product_values_button; shop_property_add_option_button;
   shop_property_add_step_button; shop_property_save_step_button;
   shop_property_save_step_type_button; ajax_portlet_save_button; add_topseller_button;
   topseller_update_button; add_featured_button; featured_update_button;
   shop_default_values_button].

Definition silent_pair_bindings : list (envelope -> page -> page) :=
  [category_ajax_link].

Definition silent_named_bindings : list (named -> page -> page) :=
  [variants_add_button; variants_update_button].

(** The notifications the specification expects for a message field. *)
Definition expected_growls (m : option string) : list (option string) :=
  match m with
  | Some s => [Some s]
  | None => []
  end.

(** ** Remembered tabs and the property edit mode *)

(** [parseInt(s)] as ECMAScript 5 has it: leading white space, a sign, a
    [0x] prefix for base 16, then the longest run of digits; [None] is
    [NaN]. *)
Definition is_space (c : ascii) : bool :=
  let n := nat_of_ascii c in
  (n =? 32)%nat || ((9 <=? n)%nat && (n <=? 13)%nat).

Definition digit_value (c : ascii) : option Z :=
  let n := Z.of_nat (nat_of_ascii c) in
  if (48 <=? n)%Z && (n <=? 57)%Z then Some (n - 48)%Z
  else if (97 <=? n)%Z && (n <=? 122)%Z then Some (n - 87)%Z
  else if (65 <=? n)%Z && (n <=? 90)%Z then Some (n - 55)%Z
  else None.

Fixpoint skip_spaces (s : string) : string :=
  match s with
  | String c r => if is_space c then skip_spaces r else s
  | EmptyString => s
  end.

Fixpoint digits (radix : Z) (s : string) (acc : option Z) : option Z :=
  match s with
  | EmptyString => acc
  | String c r =>
      match digit_value c with
      | Some d =>
          if (d <? radix)%Z then digits radix r (Some (default 0 acc * radix + d))%Z
          else acc
      | None => acc
      end
  end.

Definition parseInt (s : string) : option Z :=
  let s := skip_spaces s in
  let '(sign, s) :=
    match s with
    | String "-" r => ((-1)%Z, r)
    | String "+" r => (1%Z, r)
    | _ => (1%Z, s)
    end in
  let '(radix, s) :=
    match s with
    | String "0" (String "x" r) => (16%Z, r)
    | String "0" (String "X" r) => (16%Z, r)
    | _ => (10%Z, s)
    end in
  Z.mul sign <$> digits radix s None.

(** [$('#product-tabs').bind('tabsshow', function(event, ui) {...})] *)
Definition product_tabs_show (index : nat) : page -> page :=
  cookie_set "product_tab" (string_of_nat index).

(** [$('#category-tabs').bind('tabsshow', function(event, ui) {...})] *)
Definition category_tabs_show (index : nat) : page -> page :=
  cookie_set "category_tab" (string_of_nat index).

(** The product tab chosen when the page loads. *)
Definition select_product_tab (pg : page) : page :=
  let product_tab_cookie := cookie_get "product_tab" pg in
  let index :=
    match product_tab_cookie with
    | Some c => parseInt c
    | None => Some 0%Z
    end in
  with_tabs (fun l => l ++ [("#product-tabs", index)]) pg.

(** The category tab chosen when the page loads. *)
Definition select_category_tab (pg : page) : page :=
  let category_tab_cookie := cookie_get "category_tab" pg in
  let index :=
    match category_tab_cookie with
    | Some c => parseInt c
    | None => Some 0%Z
    end in
  with_tabs (fun l => l ++ [("#category-tabs", index)]) pg.

(** [$(".property-edit-mode").live("click", ...)] *)
Definition property_edit_mode (pg : page) : page :=
  let em := cookie_get "property-edit-mode" pg in
  if bool_decide (em = Some "true") then
    let pg := jq_hide ".property-edit-field" pg in
    cookie_set "property-edit-mode" "false" pg
  else
    let pg := jq_show ".property-edit-field" pg in
    cookie_set "property-edit-mode" "true" pg.

(** ** Forms, timers and the filter fields *)

(** The fields a form submits: named controls that are not disabled,
    check boxes and radio buttons only when checked, no buttons. *)
Definition is_one_of (l : list string) (s : option string) : bool :=
  match s with
  | Some x => existsb (String.eqb x) l
  | None => false
  end.

Definition successful (e : props) : list (string * string) :=
  match attr "name" e with
  | Some n =>
      if negb (is_one_of ["input"; "select"; "textarea"] (Some (tag e))) then []
      else if bool_decide (attr "disabled" e <> None) then []
      else if is_one_of ["reset"; "button"; "submit"; "image"] (attr "type" e) then []
      else if is_one_of ["checkbox"; "radio"] (attr "type" e) && negb (checked e) then []
      else [(n, value e)]
  | None => []
  end.

Fixpoint serialize (n : node) : list (string * string) :=
  match n with
  | Text _ => []
  | Elem e ks => successful e ++ flat_map serialize ks
  end.

(** The places of the elements matching [s], in document order. *)
Fixpoint flat_imap {A B : Type} (g : nat -> A -> list B) (i : nat) (l : list A) : list B :=
  match l with
  | [] => []
  | k :: l' => g i k ++ flat_imap g (S i) l'
  end.

Fixpoint select_paths (s : selector) (n : node) : list path :=
  match n with
  | Text _ => []
  | Elem e ks =>
      (if matches s e then [[]] else []) ++
      flat_imap (fun i k => map (cons i) (select_paths s k)) 0%nat ks
  end.

(** [f.ajaxSubmit({type: type, success: cb})]: the form's fields go to the
    form's [action] by its [method] unless [type] says otherwise; nothing
    is sent when [f] selects no element. *)
Definition ajaxSubmit (f : option path) (type : option string) (cb : callback)
    (pg : page) : page :=
  match f with
  | Some p =>
      match node_at p (doc pg) with
      | Some (Elem e ks) =>
          let m := from_option Some (attr "method" e) type in
          send (Request (default "GET" m) (attr "action" e) (serialize (Elem e ks)) cb) pg
      | _ => pg
      end
  | None => pg
  end.

(** [$(s)] for submitting: the first element matching [s]. *)
Definition first_of (s : string) (pg : page) : option path :=
  head (select_paths (sel s) (doc pg)).

(** [setTimeout(function() { form.ajaxSubmit(...) }, delay)] *)
Fixpoint enqueue (tm : timer) (l : list timer) : list timer :=
  match l with
  | [] => [tm]
  | x :: l' => if (due x <=? due tm)%Z then x :: enqueue tm l' else tm :: l
  end.

Definition setTimeout (f : option path) (delay : Z) (pg : page) : nat * page :=
  let id := next_timer pg in
  (id, with_next_timer (S id)
         (with_timers (enqueue (Timer id (now pg + delay) f)) pg)).

Definition clearTimeout (id : nat) : page -> page :=
  with_timers (List.filter (fun tm => negb (timer_id tm =? id)%nat)).

(** A timer comes due: its function runs. *)
Definition fire (tm : timer) (pg : page) : page :=
  ajaxSubmit (form tm) None (fill "#products-inline")
             (with_now (Z.max (now pg) (due tm)) pg).

Fixpoint run_due (t : Z) (l : list timer) (pg : page) : page * list timer :=
  match l with
  | [] => (pg, [])
  | tm :: l' => if (due tm <=? t)%Z then run_due t l' (fire tm pg) else (pg, l)
  end.

(** Time passes until [t]. *)
Definition run_until (t : Z) (pg : page) : page :=
  let '(pg', rest) := run_due t (timers pg) pg in
  with_now (Z.max (now pg') t) (with_timers (fun _ => rest) pg').

(** The [keyup] bindings, each named after its selector. *)

(** [$("#product-name-filter").live("keyup", ...)] *)
Definition product_name_filter_keyup (this : path) (pg : page) : page :=
  ajaxSubmit (parents_first (sel "form") this (doc pg)) None product_name_filter_received pg.

(** [$(".category-products-filter-input").live("keyup", ...)] *)
Definition category_products_filter_input (this : path) (pg : page) : page :=
  ajaxSubmit (first_of "#category-products-filter-form" pg) None (fill "#products-inline") pg.

(** [$(".category-selected-products-filter-input").live("keyup", ...)] *)
Definition category_selected_products_filter_input (this : path) (pg : page) : page :=
  ajaxSubmit (first_of "#category-selected-products-filter-form" pg) None
             (fill "#selected-products") pg.

(** [$(".products-name-filter").live("keyup", ...)] *)
Definition products_name_filter (this : path) (pg : page) : page :=
  let form := parents_first (sel "form") this (doc pg) in
  let pg :=
    match timeout pg with
    | Some id => clearTimeout id pg
    | None => pg                       (* ReferenceError, caught *)
    end in
  let '(id, pg) := setTimeout form 500 pg in
  with_timeout (Some id) pg.

(** [$("#selectable-products-filter-input").live("keyup", ...)] *)
Definition selectable_products_filter_input (this : path) (pg : page) : page :=
  ajaxSubmit (first_of "#selectable-products-filter-form" pg) None
             (fill "#selectable-products") pg.

(** [$(".filter-accessories-input").live("keyup", ...)] *)
Definition filter_accessories_input (this : path) (pg : page) : page :=
  ajaxSubmit (first_of "#filter-accessories-form" pg) (Some "post") fill_accessories pg.

(** [$(".filter-related-products-input").live("keyup", ...)] *)
Definition filter_related_products_input (this : path) (pg : page) : page :=
  ajaxSubmit (first_of "#filter-related-products-form" pg) None
             (fill "#related-products-inline") pg.

(** [$(".filter-products-input").live("keyup", ...)] *)
Definition filter_products_input (this : path) (pg : page) : page :=
  ajaxSubmit (first_of "#filter-products-form" pg) (Some "post") (fill "#products-inline") pg.

(** [$(".filter-topseller-input").live("keyup", ...)] *)
Definition filter_topseller_input (this : path) (pg : page) : page :=
  ajaxSubmit (first_of "#filter-topseller-form" pg) None (fill "#topseller-inline") pg.

(** [$(".filter-featured-input").live("keyup", ...)] *)
Definition filter_featured_input (this : path) (pg : page) : page :=
  ajaxSubmit (first_of "#filter-featured-form" pg) None (fill "#featured-inline") pg.

(** The bindings in the order in which the script binds them: those that
    submit at once, bound before and after the one that waits. *)
Definition filters_before : list (string * (path -> page -> page)) :=
  [ ("#product-name-filter", product_name_filter_keyup);
    (".category-products-filter-input", category_products_filter_input);
    (".category-selected-products-filter-input", category_selected_products_filter_input) ].

Definition filters_after : list (string * (path -> page -> page)) :=
  [ ("#selectable-products-filter-input", selectable_products_filter_input);
    (".filter-accessories-input", filter_accessories_input);
    (".filter-related-products-input", filter_related_products_input);
    (".filter-products-input", filter_products_input);
    (".filter-topseller-input", filter_topseller_input);
    (".filter-featured-input", filter_featured_input) ].

Definition immediate_filters : list (string * (path -> page -> page)) :=
  filters_before ++ filters_after.

Definition keyup_bindings : list (string * (path -> page -> page)) :=
  filters_before ++ [(".products-name-filter", products_name_filter)] ++ filters_after.

(** The handlers bound to an element run when the event reaches it. *)
Definition dispatch (bindings : list (string * (path -> page -> page))) (this : path)
    (pg : page) : page :=
  fold_left
    (fun pg b => if matches_at (sel (fst b)) (doc pg) this then snd b this pg else pg)
    bindings pg.

(** A key is released in the field [this] at time [t], leaving the text
    [v] in it. *)
Definition keyup (t : Z) (this : path) (v : string) (pg : page) : page :=
  let pg := run_until t pg in
  let pg := with_doc (alter_at (on_props (set_value v)) this) pg in
  dispatch keyup_bindings this pg.

Definition keyups (this : path) (keys : list (Z * string)) (pg : page) : page :=
  fold_left (fun pg k => keyup (fst k) this (snd k) pg) keys pg.

(** The success callbacks [fill] and [fill_accessories] stand for. *)
Definition fill_success (container : string) (data : markup) : page -> page :=
  jq_html container (Some data).

Definition fill_accessories_success (data : markup) (pg : page) : page :=
  let pg := jq_html "#accessories-inline" (Some data) pg in
  with_doc align_accessories_buttons pg.

(** ** The export tree *)

(** [x.find(s).each(function() { <update this> })] *)
Definition find_each (s : selector) (f : props -> props) (x : path) : node -> node :=
  alter_at (on_kids (map (each_set s f))) x.

(** [x.find(s).html(m)] *)
Definition find_html (s : selector) (m : markup) (x : path) : node -> node :=
  alter_at (on_kids (map (html s m))) x.

(** [update_sub_categories(knot)] *)
Definition update_sub_categories (knot : path) (pg : page) : page :=
  match last knot with
  | Some _ => with_doc (find_html (sel ".category-state") [] (parent knot)) pg
  | None => pg
  end.

(** [update_parent_categories(knot)] *)
Definition update_parent_categories (knot : path) (pg : page) : page :=
  fold_left
    (fun pg li =>
       let url := from_option (attr "data") None (props_at li (doc pg)) in
       send (Request "POST" url [] category_state_received) pg)
    (parents_sel (sel "li.category") knot (doc pg)) pg.

(** The success callback of [update_parent_categories]. *)
Definition category_state_success (data : category_state) (pg : page) : page :=
  let pg := jq_html (fst (state_html data)) (Some (snd (state_html data))) pg in
  with_doc (each_set (sel (fst (state_checkbox data)))
              (set_checked (snd (state_checkbox data)))) pg.

(** [$(".export-category-input").live("click", ...)]; the browser has
    already flipped the box when the handler runs. *)
Definition export_category_input (this : path) (pg : page) : page :=
  match props_at this (doc pg) with
  | Some e =>
      let parent_checked := checked e in
      let pg :=
        match last this with
        | Some _ =>
            with_doc (find_each (sel "input") (set_checked parent_checked) (parent this)) pg
        | None => pg
        end in
      let url := attr "data" e in
      if parent_checked then
        send (Request "POST" url [("action", "add")] (export_category_posted this)) pg
      else
        send (Request "POST" url [("action", "remove")] (export_category_posted this)) pg
  | None => pg
  end.

(** The success callback of the request [export_category_input] sends. *)
Definition export_category_success (input : path) (pg : page) : page :=
  let pg := update_sub_categories input pg in
  update_parent_categories input pg.

(** [$(".export-product-input").live("click", ...)] and the success callback
    of its request. *)
Definition export_product_input (this : path) (pg : page) : page :=
  match props_at this (doc pg) with
  | Some e =>
      let url := attr "data" e in
      let checked := checked e in
      if checked then
        send (Request "POST" url [("action", "add")] (export_product_posted this)) pg
      else
        send (Request "POST" url [("action", "remove")] (export_product_posted this)) pg
  | None => pg
  end.

Definition export_product_success (input : path) (pg : page) : page :=
  update_parent_categories input pg.

(** Every element of a tree satisfies [P], given its own children. *)
Fixpoint all_elems (P : props -> list node -> bool) (n : node) : bool :=
  match n with
  | Text _ => true
  | Elem e ks => P e ks && forallb (all_elems P) ks
  end.

(** ** The confirmation prompt *)

Definition plain (t : string) (cs : list string) (ats : list (string * string)) : props :=
  Props t "" cs ats false "" 0 false.

Definition elem (t : string) (cs : list string) (ats : list (string * string))
    (ks : list node) : node :=
  Elem (plain t cs ats) ks.

(** String concatenation writes an undefined value as ["undefined"]. *)
Definition js_str (o : option string) : string := default "undefined" o.

(** The prompt the link is replaced with:
    [<span><span class='cls'>data</span> <a href='url'>Yes</a>
     <a class='confirmation-link-no' href=''>No</a></span>].
    The handler builds it as a string the browser parses; this is the
    tree it parses to when the class, [data] and [url] hold nothing the
    parser reads as markup ([parsed_as_written] below). *)
Definition prompt (cls : list string) (data url : string) : node :=
  elem "span" [] []
    [ elem "span" cls [] [Text data];
      Text " ";
      elem "a" [] [("href", url)] [Text "Yes"];
      Text " ";
      elem "a" ["confirmation-link-no"] [("href", "")] [Text "No"] ].

(** [$(".confirmation-link").live("click", ...)] *)
Definition confirmation_link (this : path) (pg : page) : page :=
  match node_at this (doc pg) with
  | Some (Elem e ks) =>
      let url := js_str (attr "href" e) in
      let data := js_str (attr "data" e) in
      let cls := classes e in
      match last this with
      | Some _ =>
          let pg := with_confirmation (Some (Saved (Elem e ks) true)) pg in
          with_doc (replaceWith this [prompt cls data url]) pg
      | None => with_confirmation (Some (Saved (Elem e ks) false)) pg
      end
  | _ => pg
  end.

(** [$(".confirmation-link-no").live("click", ...)].  The remembered
    element is followed while it is out of the document; [None] when it
    would have to be moved from a place inside the document. *)
Definition confirmation_link_no (this : path) (pg : page) : option page :=
  match last this with
  | None => Some pg
  | Some _ =>
      let widget := parent this in
      match confirmation pg with
      | None => Some (with_doc (replaceWith widget []) pg)
      | Some (Saved n true) =>
          match last widget with
          | Some _ =>
              let pg := with_confirmation (Some (Saved n false)) pg in
              Some (with_doc (replaceWith widget [n]) pg)
          | None => Some pg
          end
      | Some (Saved n false) => None
      end
  end.

(** What the browser does with a click no handler has suppressed: a link
    is followed. *)
Definition follow (this : path) (pg : page) : page :=
  match props_at this (doc pg) with
  | Some e =>
      if String.eqb (tag e) "a" then
        match attr "href" e with
        | Some u => with_location (Some u) pg
        | None => pg
        end
      else pg
  | None => pg
  end.

(** A click on the element [this], in a document where no other binding of
    the script is met on the way up from [this].  Both handlers return
    [false], which keeps the browser from following the link. *)
Definition click (this : path) (pg : page) : option page :=
  if matches_at (sel ".confirmation-link-no") (doc pg) this then confirmation_link_no this pg
  else if matches_at (sel ".confirmation-link") (doc pg) this then Some (confirmation_link this pg)
  else Some (follow this pg).

(** ** Selecting rows *)

(** [x.prevAll(s).each(f)] on the siblings before [x], nearest first;
    [f] answers [None] where the callback returns [false]. *)
Fixpoint prevAll_each (s : selector) (f : props -> list node -> option node)
    (sibs : list node) : list node :=
  match sibs with
  | [] => []
  | Text t :: rest => Text t :: prevAll_each s f rest
  | Elem e ks :: rest =>
      if matches s e then
        match f e ks with
        | Some n' => n' :: prevAll_each s f rest
        | None => sibs
        end
      else Elem e ks :: prevAll_each s f rest
  end.

Definition prevAll_at (s : selector) (f : props -> list node -> option node)
    (x : path) (root : node) : node :=
  match last x with
  | Some i =>
      alter_at (on_kids (fun ks => rev (prevAll_each s f (rev (take i ks))) ++ drop i ks))
               (parent x) root
  | None => root
  end.

Definition mark_row (e : props) (ks : list node) : option node :=
  if hasClass "marked" e then None
  else Some (Elem (addClass "marked" e)
               (map (each_set (sel "input.select-1") (set_checked true)) ks)).

Definition unmark_row (e : props) (ks : list node) : option node :=
  if negb (hasClass "marked" e) then None
  else Some (Elem (removeClass "marked" e)
               (map (each_set (sel "input.select-1") (set_checked false)) ks)).

(** [$("input.select-1").live("click", function(e) {...})]; the browser
    has already flipped the box when the handler runs. *)
Definition select_1 (this : path) (shiftKey : bool) (root : node) : node :=
  match props_at this root with
  | Some e =>
      if checked e then
        match parents_first (sel "tr") this root with
        | Some tr =>
            let root := alter_at (on_props (addClass "marked")) tr root in
            if shiftKey then prevAll_at (sel "tr") mark_row tr root else root
        | None => root
        end
      else
        match parents_first (sel "tr") this root with
        | Some tr =>
            let root := alter_at (on_props (removeClass "marked")) tr root in
            if shiftKey then prevAll_at (sel "tr") unmark_row tr root else root
        | None => root
        end
  | None => root
  end.

(** ** Criteria *)

(** [$(s).prepend(m)] *)
Fixpoint prepend (s : selector) (m : markup) (n : node) : node :=
  match n with
  | Text t => Text t
  | Elem e ks =>
      if matches s e then Elem e (m ++ map (prepend s m) ks)
      else Elem e (map (prepend s m) ks)
  end.

(** [x.after(m)] *)
Definition after (x : path) (m : markup) (root : node) : node :=
  match last x with
  | Some i =>
      alter_at (on_kids (fun ks =>
                  match ks !! i with
                  | Some _ => take (S i) ks ++ m ++ drop (S i) ks
                  | None => ks
                  end)) (parent x) root
  | None => root
  end.

(** Success callback of [$(".criterion-add-first-button").live("click", ...)] *)
Definition criterion_add_first_button (data : markup) (root : node) : node :=
  let root := prepend (sel ".criteria") data root in
  update_positions root.

(** Success callback of [$(".criterion-add-button").live("click", ...)];
    [this] is the button that was clicked. *)
Definition criterion_add_button (this : path) (data : markup) (root : node) : node :=
  let criterion := parents_first (sel "tr") this root in
  let root :=
    match criterion with
    | Some tr => after tr data root
    | None => root
    end in
  update_positions root.

(** Success callback of [$("select.criterion-type").live("change", ...)] *)
Definition criterion_type (this : path) (data : markup) (root : node) : node :=
  let target := parents_first (sel "tr") this root in
  let root :=
    match target with
    | Some tr => replaceWith tr data root
    | None => root
    end in
  update_positions root.

(** ** Notions the statements use *)

(** The values 10, 20, 30, ... as [val] writes them. *)
Definition tens (k : nat) : list string :=
  map (fun i => string_of_nat (10 * (i + 1))) (seq 0 k).

Definition numbered (root : node) : Prop :=
  map value (select (sel ".position") root)
  = tens (length (select (sel ".position") root)).

(** The outermost elements matching [s], each with its contents. *)
Fixpoint outer (s : selector) (n : node) : list (props * list node) :=
  match n with
  | Text _ => []
  | Elem e ks => if matches s e then [(e, ks)] else flat_map (outer s) ks
  end.

(** The document with the contents of the containers named by [ss] left
    out: what a patch of those containers must not touch. *)
Fixpoint strip (ss : list selector) (n : node) : node :=
  match n with
  | Text t => Text t
  | Elem e ks =>
      if existsb (fun s => matches s e) ss then Elem e []
      else Elem e (map (strip ss) ks)
  end.

(** The four height equalizers with the columns they act on. *)
Inductive equalizer : (node -> node) -> selector -> selector -> Prop :=
| equalizer_buttons (id : string) :
    equalizer (align_buttons id) (sel (id ++ "-left")%string) (sel (id ++ "-right")%string)
| equalizer_related_products :
    equalizer align_related_products_buttons
      (sel "#related-products-left") (sel "#related-products-right")
| equalizer_accessories :
    equalizer align_accessories_buttons (sel "#accessories-left") (sel "#accessories-right")
| equalizer_topsellers :
    equalizer align_topsellers_buttons (sel "#topseller-left") (sel "#topseller-right").

(** The notification contract of the specification: between [before] and
    [after] a message that is present was shown once, and nothing else. *)
Definition shows_message (before after : page) (m : option string) : Prop :=
  growls after = growls before ++ expected_growls m.

(** Two places neither of which lies inside the other. *)
Definition apart (a b : path) : Prop := ~ a `prefix_of` b /\ ~ b `prefix_of` a.

(** A link the confirmation prompt is bound to, and the prompt for it. *)
Definition is_link (e : props) : Prop :=
  matches (sel ".confirmation-link") e = true /\
  matches (sel ".confirmation-link-no") e = false.

Definition prompt_for (e : props) : node :=
  prompt (classes e) (js_str (attr "data" e)) (js_str (attr "href" e)).

(** Rows around a shift-click into the state [b]: a row that stops the
    walk over the preceding rows, and what the walk does to a row. *)
Definition stops (b : bool) (n : node) : bool :=
  match n with
  | Elem e _ => matches (sel "tr") e && (if b then hasClass "marked" e else negb (hasClass "marked" e))
  | Text _ => false
  end.

Definition toggle_mark (b : bool) : props -> props :=
  if b then addClass "marked" else removeClass "marked".

Definition shift (b : bool) (n : node) : node :=
  match n with
  | Elem e ks =>
      if matches (sel "tr") e then
        Elem (toggle_mark b e) (map (each_set (sel "input.select-1") (set_checked b)) ks)
      else n
  | Text _ => n
  end.

(** An element matching [s] has no contents. *)
Definition emptied (s : selector) (e : props) (ks : list node) : bool :=
  negb (matches s e) || bool_decide (ks = []).

(** Keystrokes each less than the quiet interval after the one before;
    [t] is the time of the keystroke before the first of [keys]. *)
Fixpoint spaced (t : Z) (keys : list (Z * string)) : Prop :=
  match keys with
  | [] => True
  | (t', _) :: keys' => (t <= t' < t + 500)%Z /\ spaced t' keys'
  end.

(** A field the debounced handler is bound to, inside the form [fp]. *)
Definition debounced_field (root : node) (this fp : path) : Prop :=
  matches_at (sel ".products-name-filter") root this = true /\
  Forall (fun b => matches_at (sel (fst b)) root this = false) immediate_filters /\
  parents_first (sel "form") this root = Some fp.

(** After a keystroke at [t] that left [v] in the field: one submission is
    scheduled, for [t + 500], and nothing has been sent since [pg0]. *)
Definition pending (pg0 : page) (this fp : path) (t : Z) (v : string) (pg : page) : Prop :=
  exists id,
    timers pg = [Timer id (t + 500) (Some fp)] /\
    timeout pg = Some id /\
    now pg = t /\
    requests pg = requests pg0 /\
    doc pg = alter_at (on_props (set_value v)) this (doc pg0).

(** The values [update_positions] writes when it starts counting at [c]. *)
Definition positions_from (c k : nat) : list string :=
  map (fun i => string_of_nat (c + 10 * S i)) (seq 0 k).

(** The callback of [update_positions]. *)
Definition bump (position : nat) (e : props) : nat * props :=
  let position := position + 10 in (position, set_value (string_of_nat position) e).

(** What [each] does to one element. *)
Definition touch (s : selector) (f : props -> props) (e : props) : props :=
  if matches s e then f e else e.

(** The common body of the four equalizers. *)
Definition equalize (sl sr : selector) (root : node) : node :=
  let h := Z.max (num (height_of sl root)) (num (height_of sr root)) in
  each_set sr (set_height h) (each_set sl (set_height h) root).

(** ** Sample documents *)

Definition div (id : string) (h : Z) (ks : list node) : node :=
  Elem (Props "div" id [] [] false "" h false) ks.

Definition box (cs : list string) (ats : list (string * string)) (c : bool)
    (v : string) : props :=
  Props "input" "" cs ats c v 0 false.

Definition input (cs : list string) (ats : list (string * string)) (c : bool)
    (v : string) : node :=
  Elem (box cs ats c v) [].

(** Two columns of unequal height. *)
Definition sample_columns : node :=
  elem "body" [] [] [div "featured-left" 120 []; div "featured-right" 80 []].

(** Two confirmable links. *)
Definition sample_anchor (href data : string) : props :=
  plain "a" ["confirmation-link"] [("href", href); ("data", data)].

Definition sample_link (href data : string) : node :=
  Elem (sample_anchor href data) [Text "Delete"].

Definition sample_links : node :=
  elem "body" [] []
    [ elem "p" [] [] [sample_link "/delete/1" "Delete the first?"];
      elem "p" [] [] [sample_link "/delete/2" "Delete the second?"] ].

(** A table of selectable rows: the first is marked, the box of the
    fourth has just been checked. *)
Definition sample_row (cs : list string) (c : bool) : node :=
  elem "tr" cs [] [elem "td" [] [] [input ["select-1"] [] c ""]].

Definition sample_table : node :=
  elem "body" [] []
    [ elem "table" [] []
        [ sample_row ["marked"] true;
          sample_row [] false;
          Text " ";
          sample_row [] false;
          sample_row [] true;
          sample_row [] false ] ].

(** An export tree: a category holding a category holding a product.  The
    box of the inner category has just been checked. *)
Definition sample_inner : list node :=
  [ input ["export-category-input"] [("data", "/export/category/2")] true "";
    elem "span" ["category-state"] [] [Text "1/2"];
    elem "ul" [] []
      [ elem "li" ["product"] []
          [ input ["export-product-input"] [("data", "/export/product/7")] false "" ] ] ].

Definition sample_tree : node :=
  elem "body" [] []
    [ elem "ul" [] []
        [ elem "li" ["category"] [("data", "/export/state/1")]
            [ input ["export-category-input"] [("data", "/export/category/1")] false "";
              elem "span" ["category-state"] [] [Text "1/2"];
              elem "ul" [] []
                [ elem "li" ["category"] [("data", "/export/state/2")] sample_inner ] ] ] ].

(** The products overview with its debounced name filter, and the products
    tab of a category with its filter. *)
Definition sample_overview : node :=
  elem "body" [] []
    [ elem "form" [] [("action", "/products"); ("method", "post")]
        [ input ["products-name-filter"] [("name", "name")] false "" ] ].

Definition sample_category : node :=
  elem "body" [] []
    [ Elem (Props "form" "category-products-filter-form" []
              [("action", "/category/1/products")] false "" 0 false)
        [ input ["category-products-filter-input"] [("name", "filter")] false "" ] ].

Definition three_keys : list (Z * string) := [(0, "a"); (100, "ab"); (200, "abc")]%Z.

(** A field only the category-product filter binding is bound to. *)
Definition beside_category_filter : list (string * (path -> page -> page)) :=
  [ ("#product-name-filter", product_name_filter_keyup);
    (".category-selected-products-filter-input", category_selected_products_filter_input);
    (".products-name-filter", products_name_filter) ]
  ++ filters_after.

Definition immediate_field (root : node) (this : path) : Prop :=
  matches_at (sel ".category-products-filter-input") root this = true /\
  Forall (fun b => matches_at (sel (fst b)) root this = false) beside_category_filter.

(** ** More of the script *)

(** The message the server leaves in the [message] cookie, shown once the
    page is ready; the jar is the one the page reads and clears. *)
Definition flash (pg : page) : page :=
  let message := cookie_get "message" pg in
  match message with
  | Some m =>
      let pg := jGrowl (Some m) pg in
      with_cookies (delete "message") pg
  | None => pg
  end.

(** [$(".delete-all").live("click", ...)]; as for every box, the browser
    has flipped it before the handler runs. *)
Definition delete_all (this : path) (root : node) : node :=
  match props_at this root with
  | Some e =>
      let checked := checked e in
      each_set (sel ".delete") (set_checked checked) root
  | None => root
  end.

(** [$(".select-all").live("click", ...)]; [attr("value")] of a box reads
    its value. *)
Definition select_all (this : path) (root : node) : node :=
  match props_at this root with
  | Some e =>
      let checked := checked e in
      let selector := (".select-" ++ value e)%string in
      each_set (sel selector) (set_checked checked) root
  | None => root
  end.

(** [$(".select-all-1").live("click", ...)] *)
Definition select_all_1 (this : path) (root : node) : node :=
  match props_at this root with
  | Some e =>
      let checked := checked e in
      each_set (sel ".select-1") (set_checked checked) root
  | None => root
  end.

(** [$(".select-all-2").live("click", ...)] *)
Definition select_all_2 (this : path) (root : node) : node :=
  match props_at this root with
  | Some e =>
      let checked := checked e in
      each_set (sel ".select-2") (set_checked checked) root
  | None => root
  end.

(** The browser flips a box that is clicked. *)
Definition flip (this : path) : node -> node :=
  alter_at (on_props (fun e => set_checked (negb (checked e)) e)) this.

(** [x.remove()] *)
Definition remove (x : path) (root : node) : node :=
  match last x with
  | Some i => alter_at (on_kids (delete i)) (parent x) root
  | None => root
  end.

(** [$(".criterion-delete-button").live("click", ...)] *)
Definition criterion_delete_button (this : path) (root : node) : node :=
  match parents_first (sel "tr.criterion") this root with
  | Some tr => remove tr root
  | None => root
  end.

(** Every element of the document, in document order. *)
Fixpoint elements (n : node) : list props :=
  match n with
  | Text _ => []
  | Elem e ks => e :: flat_map elements ks
  end.

(** The named bindings with the containers they are written for. *)
Definition binding_containers : list ((named -> page -> page) * list string) :=
  [ (criterion_save_button, ["#criteria"]);
    (price_criterion_save_button, ["#prices"; "#price-criteria"]);
    (category_products_add_button, ["#products-inline"]);
    (category_seo_button, ["#seo"]);
    (product_images_update_button, ["#images"]);
    (product_data_save_button, ["#data"; "#selectable-products"]);
    (product_categories_save_button, []);
    (variants_add_button, ["#variants"; "#selectable-products"]);
    (variants_update_button, ["#variants"; "#selectable-products"]);
    (related_products_update_button, ["#related-products-inline"]);
    (seo_save_button, ["#seo-inline"]);
    (price_button, ["#prices"]);
    (product_stock_button, ["#stock"]);
    (add_property_button, ["#properties"]);
    (property_group_update_button, ["#properties"]);
    (add_products_button, ["#products-inline"; "#product-values"]);
    (products_update_button, ["#products-inline"]);
    (update_product_values_button, ["#product-values"]);
    (shop_property_add_option_button, ["#options"]);
    (shop_property_add_step_button, ["#steps"]);
    (shop_property_save_step_button, ["#steps"]);
    (shop_property_save_step_type_button, ["#steps"]);
    (ajax_portlet_save_button, ["#portlets"]);
    (add_topseller_button, ["#topseller-inline"]);
    (topseller_update_button, ["#topseller-inline"]);
    (add_featured_button, ["#featured-inline"]);
    (featured_update_button, ["#featured-inline"]);
    (shop_default_values_button, ["#default-values"]) ].

(** A response none of whose fields is there. *)
Definition no_fields (m : option string) : named := Named (fun _ => None) m.

(** One round of the confirmation prompt: the link is clicked, then "No". *)
Definition ask_and_decline (this : path) (pg : option page) : option page :=
  match pg with
  | Some pg =>
      match click this pg with
      | Some pg1 => click (this ++ [4]%nat) pg1
      | None => None
      end
  | None => None
  end.

(** The request that submits the form [Elem fe fks] for the debounced
    filter. *)
Definition submission (fe : props) (fks : list node) : request :=
  Request (default "GET" (attr "method" fe)) (attr "action" fe)
          (serialize (Elem fe fks)) (fill "#products-inline").


(** ** The category tree links *)

(** [.html(m)] on one element of a matched set. *)
Definition fill_if (s : selector) (m : markup) (n : node) : node :=
  match n with
  | Elem e ks => if matches s e then Elem e m else n
  | Text _ => n
  end.

(** [x.siblings(s).html(m)] *)
Definition siblings_html (s : selector) (m : markup) (x : path) (root : node) : node :=
  match last x with
  | Some i =>
      alter_at (on_kids (imap (fun j k => if decide (j = i) then k else fill_if s m k)))
               (parent x) root
  | None => root
  end.

(** [$(".category-ajax-link").live("click", ...)]: the document it leaves
    and the addresses it posts to. *)
Definition category_ajax_link_click (this : path) (root : node)
    : node * list (option string) :=
  match props_at this root with
  | Some e =>
      let url := attr "href" e in
      if hasClass "collapsed" e then
        let root := alter_at (on_props (removeClass "collapsed")) this root in
        let root := alter_at (on_props (addClass "expanded")) this root in
        (root, [url])
      else
        let root := siblings_html (sel "div") [] this root in
        let root := alter_at (on_props (removeClass "expanded")) this root in
        let root := alter_at (on_props (addClass "collapsed")) this root in
        (root, [])
  | None => (root, [])
  end.

(** ** The property form *)

(** [$(s).parents(a).show()] and [.hide()], for the first element [s]
    names. *)
Definition parents_hidden (s a : string) (b : bool) (root : node) : node :=
  match head (select_paths (sel s) root) with
  | Some x =>
      fold_left (fun root q => alter_at (on_props (set_hidden b)) q root)
                (parents_sel (sel a) x root) root
  | None => root
  end.

(** [toggle_no_results(checked)] *)
Definition toggle_no_results (checked : bool) (root : node) : node :=
  if checked then parents_hidden "#id_display_no_results" ".field" false root
  else parents_hidden "#id_display_no_results" ".field" true root.

(** [toggle_required(checked)] *)
Definition toggle_required (checked : bool) (root : node) : node :=
  if checked then parents_hidden "#id_required" ".field" false root
  else parents_hidden "#id_required" ".field" true root.

(** ** Image upload fields *)

(** [s.split("_")] *)
Fixpoint split_underscore (s : string) : list string :=
  match s with
  | EmptyString => [EmptyString]
  | String c r =>
      if Ascii.eqb c "_" then EmptyString :: split_underscore r
      else
        match split_underscore r with
        | x :: l => String c x :: l
        | [] => [String c EmptyString]
        end
  end.

Fixpoint no_underscore (s : string) : bool :=
  match s with
  | EmptyString => true
  | String c r => negb (Ascii.eqb c "_") && no_underscore r
  end.

(** A number written into a string; [None] is [NaN].  Numbers are whole
    and, as [parseInt] gives them, exact: the script's doubles agree with
    them below [2 ^ 53]. *)
Definition number_string (n : option Z) : string :=
  match n with
  | Some z =>
      if (z <? 0)%Z then ("-" ++ string_of_nat (Z.to_nat (- z)))%string
      else string_of_nat (Z.to_nat z)
  | None => "NaN"
  end.

(** The markup [upload_file] adds. *)
Definition upload_field (number : string) : node :=
  elem "div" [] []
    [ elem "input" ["upload-file"]
        [("type", "file"); ("name", ("file_" ++ number)%string)] [] ].

(** [$(".upload-file:last").live("change", ...)]; [attr("name")] of a
    field reads its [name] property, the empty string when the attribute
    is absent. *)
Definition upload_file (this : path) (root : node) : node :=
  if bool_decide (last (select_paths (sel ".upload-file") root) = Some this) then
    match props_at this root with
    | Some e =>
        let name := default "" (attr "name" e) in
        let number := parseInt (js_str (split_underscore name !! 1%nat)) in
        let number := (fun n => n + 1)%Z <$> number in
        after (parent this) [upload_field (number_string number)] root
    | None => root
    end
  else root.

(** ** More sample documents *)

Definition sample_images : node :=
  elem "body" [] []
    [ elem "form" [] []
        [ elem "div" [] [] [elem "input" ["upload-file"] [("name", "file_1")] []];
          elem "div" [] [] [elem "input" ["upload-file"] [("name", "file_7")] []] ] ].

Definition sample_unnumbered : node :=
  elem "body" [] []
    [ elem "div" [] [] [elem "input" ["upload-file"] [] []] ].

(** A page with the left column only. *)
Definition sample_one_column : node :=
  elem "body" [] [] [div "featured-left" 120 []].

(** A table whose head holds the boxes that check all boxes of a column. *)
Definition sample_boxes : node :=
  elem "body" [] []
    [ elem "table" [] []
        [ elem "tr" [] []
            [ elem "th" [] [] [input ["select-all"] [] true "1"];
              elem "th" [] [] [input ["delete-all"] [] false ""] ];
          elem "tr" [] []
            [ elem "td" [] [] [input ["select-1"] [] false ""];
              elem "td" [] [] [input ["delete"] [] true ""] ];
          elem "tr" [] []
            [ elem "td" [] [] [input ["select-1"] [] false ""];
              elem "td" [] [] [input ["delete"] [] false ""] ] ] ].

(** Two product lists, each with its debounced name filter. *)
Definition sample_filters : node :=
  elem "body" [] []
    [ elem "form" [] [("action", "/products"); ("method", "post")]
        [ input ["products-name-filter"] [("name", "name")] false "" ];
      elem "form" [] [("action", "/accessories")]
        [ input ["products-name-filter"] [("name", "name")] false "" ] ].

(** A category tree: an expanded category with its children, and a
    collapsed one. *)
Definition sample_categories : node :=
  elem "body" [] []
    [ elem "ul" [] []
        [ elem "li" [] []
            [ elem "a" ["category-ajax-link"; "expanded"] [("href", "/categories/1")]
                [Text "Shoes"];
              elem "div" [] [] [elem "ul" [] [] [elem "li" [] [] [Text "Boots"]]];
              elem "span" [] [] [Text "2"] ];
          elem "li" [] []
            [ elem "a" ["category-ajax-link"; "collapsed"] [("href", "/categories/2")]
                [Text "Hats"];
              elem "div" [] [] [] ] ] ].

(** The property form. *)
Definition sample_property : node :=
  elem "body" [] []
    [ elem "form" [] []
        [ elem "div" ["field"] []
            [Elem (Props "input" "id_filterable" [] [] false "" 0 false) []];
          elem "div" ["field"] []
            [ elem "label" [] [] [Text "Display no results"];
              Elem (Props "input" "id_display_no_results" [] [] false "" 0 false) [] ];
          elem "div" ["field"] []
            [Elem (Props "input" "id_required" [] [] false "" 0 false) []] ] ].

(** ** The strings the model reads as the browser does *)

(** A character of an identifier: a letter, a digit, ["-"] or ["_"]. *)
Definition name_char (c : ascii) : bool :=
  let n := nat_of_ascii c in
  ((48 <=? n) && (n <=? 57) || (65 <=? n) && (n <=? 90) || (97 <=? n) && (n <=? 122))%nat
  || Ascii.eqb c "-" || Ascii.eqb c "_".

Fixpoint name_chars (s : string) : bool :=
  match s with
  | EmptyString => true
  | String c r => name_char c && name_chars r
  end.

Definition name (s : string) : bool :=
  negb (String.eqb s "") && name_chars s.

(** The selector strings [sel] reads as jQuery does: ["#id"], [".class"],
    ["tag"] and ["tag.class"] over identifiers.  A reply may name its
    containers by any jQuery selector; what the script does with another
    one (a descendant selector, a pseudo class) is outside the model. *)
Definition simple (s : string) : bool :=
  match s with
  | String ("#"%char) r => name r
  | String ("."%char) r => name r
  | _ =>
      match index 0 "." s with
      | Some n => name (substring 0 n s) && name (substring (S n) (String.length s - S n) s)
      | None => name s
      end
  end.

(** Text that parses as itself: no ["<"] and no ["&"]. *)
Fixpoint plain_text (s : string) : bool :=
  match s with
  | EmptyString => true
  | String c r => negb (Ascii.eqb c "<") && negb (Ascii.eqb c "&") && plain_text r
  end.

(** A value a single-quoted attribute holds as it is: no ["'"] and no
    ["&"]. *)
Fixpoint plain_value (s : string) : bool :=
  match s with
  | EmptyString => true
  | String c r => negb (Ascii.eqb c "'") && negb (Ascii.eqb c "&") && plain_value r
  end.

(** Text that parses as one text node: not empty, and plain. *)
Definition one_text (s : string) : bool :=
  negb (String.eqb s "") && plain_text s.

(** A link for which the prompt the browser parses out of the string of
    the click handler is [prompt_for]: its classes are identifiers, its
    [data] is text without markup and its [href] ends no quoted value. *)
Definition parsed_as_written (e : props) : Prop :=
  forallb name (classes e) = true /\
  one_text (js_str (attr "data" e)) = true /\
  plain_value (js_str (attr "href" e)) = true.

(** The string the click handler builds, [cls] being [attr("class")]. *)
Definition prompt_html (cls data url : string) : string :=
  ("<span><span class='" ++ cls ++ "'>" ++ data ++ "</span> <a href='" ++ url
   ++ "'>Yes</a> <a class='confirmation-link-no' href=''>No</a></span>")%string.

(** A tree written out as markup, without escaping: the class attribute
    first, values in single quotes. *)
Fixpoint join (l : list string) : string :=
  match l with
  | [] => ""
  | [c] => c
  | c :: l' => (c ++ " " ++ join l')%string
  end.

Definition write_attr (a : string * string) : string :=
  (" " ++ fst a ++ "='" ++ snd a ++ "'")%string.

Definition write_tag (e : props) : string :=
  ("<" ++ tag e
   ++ (match classes e with [] => "" | cs => write_attr ("class", join cs) end)
   ++ String.concat "" (map write_attr (attrs e)) ++ ">")%string.

Fixpoint write (n : node) : string :=
  match n with
  | Text t => t
  | Elem e ks =>
      (write_tag e ++ String.concat "" (map write ks) ++ "</" ++ tag e ++ ">")%string
  end.

(** A page with one container of the products tab. *)
Definition sample_inline : node :=
  elem "body" [] []
    [ Elem (Props "div" "products-inline" [] [] false "" 0 false) [Text "old"];
      elem "p" [] [] [Text "kept"] ].

(** * Properties *)

(** ** The document model *)

Lemma node_induction (P : node -> Prop) :
  (forall s, P (Text s)) ->
  (forall e ks, Forall P ks -> P (Elem e ks)) ->
  forall n, P n.
Proof.
  intros HT HE. fix IH 1. intros [s|e ks].
  - apply HT.
  - apply HE. induction ks as [|k ks IHks]; constructor; [apply IH | exact IHks].
Qed.

Lemma matches_set_value s v e : matches s (set_value v e) = matches s e.
Proof. destruct s; reflexivity. Qed.

Lemma matches_set_height s h e : matches s (set_height h e) = matches s e.
Proof. destruct s; reflexivity. Qed.

Lemma matches_set_checked s b e : matches s (set_checked b e) = matches s e.
Proof. destruct s; reflexivity. Qed.

Lemma matches_set_hidden s b e : matches s (set_hidden b e) = matches s e.
Proof. destruct s; reflexivity. Qed.

(** ** update_positions *)

#[local] Arguments Nat.mul : simpl never.

Lemma positions_from_app c a b :
  positions_from c (a + b) = positions_from c a ++ positions_from (c + 10 * a) b.
Proof.
  unfold positions_from. rewrite seq_app, map_app. f_equal.
  assert (H : forall o,
    map (fun i => string_of_nat (c + 10 * S i)) (seq (a + o) b)
    = map (fun i => string_of_nat (c + 10 * a + 10 * S i)) (seq o b)).
  { induction b as [|b IH]; intros o; simpl; [reflexivity|].
    f_equal; [f_equal; lia|].
    replace (S (a + o)) with (a + S o)%nat by lia. apply IH. }
  replace (0 + a)%nat with (a + 0)%nat by lia. apply H.
Qed.

Lemma each_acc_bump s n :
  forall c,
    fst (each_acc s bump c n) = c + 10 * length (select s n) /\
    map value (select s (snd (each_acc s bump c n)))
      = positions_from c (length (select s n)).
Proof.
  induction n as [t|e ks IH] using node_induction; intros c.
  - simpl. split; [lia | reflexivity].
  - cbn [each_acc].
    assert (HF : forall c,
      fst (map_acc (each_acc s bump) c ks) = c + 10 * length (flat_map (select s) ks) /\
      map value (flat_map (select s) (snd (map_acc (each_acc s bump) c ks)))
        = positions_from c (length (flat_map (select s) ks))).
    { clear c. induction IH as [|k ks Hk _ IHks]; intros c.
      - simpl. split; [lia | reflexivity].
      - simpl. destruct (Hk c) as [Hk1 Hk2].
        destruct (each_acc s bump c k) as [sa k'] eqn:Ek. simpl in Hk1, Hk2.
        destruct (IHks sa) as [Hf1 Hf2].
        destruct (map_acc (each_acc s bump) sa ks) as [sb l''] eqn:Ef. simpl in Hf1, Hf2.
        simpl. rewrite !length_app, map_app, positions_from_app.
        split; [lia|]. rewrite Hk2, Hf2, Hk1. reflexivity. }
    destruct (matches s e) eqn:Hm.
    + unfold bump at 1. simpl.
      destruct (HF (c + 10)) as [H1 H2].
      destruct (map_acc (each_acc s bump) (c + 10) ks) as [st2 ks'] eqn:Ef.
      simpl in *. rewrite matches_set_value, Hm. simpl.
      split; [lia|].
      rewrite H2. change (S (length (flat_map (select s) ks))) with (1 + length (flat_map (select s) ks)).
      rewrite positions_from_app. unfold positions_from at 2. simpl.
      repeat (f_equal; try lia).
    + destruct (HF c) as [H1 H2].
      destruct (map_acc (each_acc s bump) c ks) as [st2 ks'] eqn:Ef.
      simpl in *. rewrite Hm. simpl. split; [lia | exact H2].
Qed.

Lemma update_positions_values (root : node) :
  map value (select (sel ".position") (update_positions root))
  = tens (length (select (sel ".position") root)).
Proof.
  unfold update_positions.
  destruct (each_acc_bump (sel ".position") root 0) as [_ H].
  unfold bump in H. rewrite H. unfold positions_from, tens.
  apply map_ext. intros i. f_equal. lia.
Qed.

Lemma update_positions_numbered (root : node) : numbered (update_positions root).
Proof.
  unfold numbered. rewrite update_positions_values. f_equal.
  pose proof (f_equal (@length string) (update_positions_values root)) as H.
  unfold tens in H. rewrite !length_map, length_seq in H. symmetry. exact H.
Qed.

(** C9: after [update_positions] the elements of class [position] hold, in
    document order, the values 10, 20, 30, ... whatever they held before;
    that is the state after a criterion has been added or its type changed. *)
Theorem update_positions_sequence (root : node) :
  map value (select (sel ".position") (update_positions root))
  = map (fun i => string_of_nat (10 * (i + 1)))
        (seq 0 (length (select (sel ".position") root)))
  /\ (forall data, numbered (criterion_add_first_button data root))
  /\ (forall this data, numbered (criterion_add_button this data root))
  /\ (forall this data, numbered (criterion_type this data root)).
Proof.
  split; [apply update_positions_values|].
  split; [|split]; intros; apply update_positions_numbered.
Qed.

(** ** Height equalizers *)

Lemma select_each_set s s' f n :
  (forall e, matches s (f e) = matches s e) ->
  select s (each_set s' f n) = map (touch s' f) (select s n).
Proof.
  intros Hf. induction n as [t|e ks IH] using node_induction; [reflexivity|].
  cbn [each_set select]. rewrite map_app. f_equal.
  - fold (touch s' f e). unfold touch at 1. destruct (matches s' e) eqn:Hs'.
    + rewrite Hf. destruct (matches s e); reflexivity.
    + destruct (matches s e); reflexivity.
  - induction IH as [|k ks Hk _ IHks]; [reflexivity|].
    cbn [map flat_map]. rewrite map_app, Hk, IHks. reflexivity.
Qed.

Lemma select_matches s n : Forall (fun e => matches s e = true) (select s n).
Proof.
  induction n as [t|e ks IH] using node_induction; [constructor|].
  cbn [select]. apply Forall_app. split.
  - destruct (matches s e) eqn:H; repeat constructor. exact H.
  - induction IH as [|k ks Hk _ IHks]; [constructor|].
    cbn [flat_map]. apply Forall_app. split; assumption.
Qed.

Lemma set_height_twice h e : set_height h (set_height h e) = set_height h e.
Proof. reflexivity. Qed.

Lemma each_set_height_comm s s' h n :
  each_set s (set_height h) (each_set s' (set_height h) n)
  = each_set s' (set_height h) (each_set s (set_height h) n).
Proof.
  induction n as [t|e ks IH] using node_induction; [reflexivity|].
  cbn [each_set]. f_equal.
  - destruct (matches s' e) eqn:H1, (matches s e) eqn:H2;
      rewrite ?matches_set_height, ?H1, ?H2; reflexivity.
  - rewrite !map_map. induction IH as [|k ks Hk _ IHks]; [reflexivity|].
    cbn [map]. rewrite Hk, IHks. reflexivity.
Qed.

Lemma each_set_height_idem s h n :
  each_set s (set_height h) (each_set s (set_height h) n) = each_set s (set_height h) n.
Proof.
  induction n as [t|e ks IH] using node_induction; [reflexivity|].
  cbn [each_set]. f_equal.
  - destruct (matches s e) eqn:H1; rewrite ?matches_set_height, ?H1; reflexivity.
  - rewrite !map_map. induction IH as [|k ks Hk _ IHks]; [reflexivity|].
    cbn [map]. rewrite Hk, IHks. reflexivity.
Qed.

Lemma equalizer_body f sl sr : equalizer f sl sr -> forall root, f root = equalize sl sr root.
Proof. intros []; reflexivity. Qed.

Lemma height_of_equalized s sl sr h root x :
  height_of s root = Some x ->
  (forall e, matches s e = true -> matches sl e || matches sr e = true) ->
  height_of s (each_set sr (set_height h) (each_set sl (set_height h) root)) = Some h.
Proof.
  intros Hx Hcover. unfold height_of in *.
  rewrite !select_each_set by (intros; apply matches_set_height).
  pose proof (select_matches s root) as Hall.
  destruct (select s root) as [|e l]; [discriminate|].
  inversion Hall as [|? ? He _]; subst. specialize (Hcover e He).
  cbn [map head fmap option_fmap option_map]. f_equal.
  unfold touch. destruct (matches sl e) eqn:H1.
  - rewrite matches_set_height. destruct (matches sr e); reflexivity.
  - simpl in Hcover. rewrite Hcover. reflexivity.
Qed.

Lemma equalize_heights sl sr root hl hr :
  height_of sl root = Some hl ->
  height_of sr root = Some hr ->
  height_of sl (equalize sl sr root) = Some (Z.max hl hr) /\
  height_of sr (equalize sl sr root) = Some (Z.max hl hr).
Proof.
  intros Hl Hr. unfold equalize. rewrite Hl, Hr. cbn [num default].
  split.
  - eapply height_of_equalized; [exact Hl |].
    intros e He. rewrite He. reflexivity.
  - eapply height_of_equalized; [exact Hr |].
    intros e He. rewrite He. apply orb_true_r.
Qed.

Lemma equalize_idempotent sl sr root hl hr :
  height_of sl root = Some hl ->
  height_of sr root = Some hr ->
  equalize sl sr (equalize sl sr root) = equalize sl sr root.
Proof.
  intros Hl Hr. destruct (equalize_heights sl sr root hl hr Hl Hr) as [Hl' Hr'].
  unfold equalize at 1. rewrite Hl', Hr'. cbn [num default]. rewrite Z.max_id.
  unfold equalize. rewrite Hl, Hr. cbn [num default].
  set (h := Z.max hl hr).
  rewrite (each_set_height_comm sl sr h), !each_set_height_idem.
  reflexivity.
Qed.

(** C5: an equalizer gives both columns the larger of their two heights,
    and running it again changes nothing. *)
Theorem equalizer_max_idempotent f sl sr (root : node) (hl hr : Z) :
  equalizer f sl sr ->
  height_of sl root = Some hl ->
  height_of sr root = Some hr ->
  height_of sl (f root) = Some (Z.max hl hr) /\
  height_of sr (f root) = Some (Z.max hl hr) /\
  f (f root) = f root.
Proof.
  intros Hf Hl Hr. rewrite !(equalizer_body f sl sr Hf).
  destruct (equalize_heights sl sr root hl hr Hl Hr) as [H1 H2].
  repeat split; [exact H1 | exact H2 |].
  eapply equalize_idempotent; eassumption.
Qed.

(** ** Patching containers *)

Lemma outer_html s m n :
  outer s (html s m n) = map (fun c => (fst c, m)) (outer s n).
Proof.
  induction n as [t|e ks IH] using node_induction; [reflexivity|].
  cbn [html outer]. destruct (matches s e) eqn:Hm; cbn [outer]; rewrite Hm; [reflexivity|].
  induction IH as [|k ks Hk _ IHks]; [reflexivity|].
  cbn [map flat_map]. rewrite map_app, Hk, IHks. reflexivity.
Qed.

Lemma strip_html ss s m n :
  In s ss -> strip ss (html s m n) = strip ss n.
Proof.
  intros Hin. induction n as [t|e ks IH] using node_induction; [reflexivity|].
  cbn [html strip]. destruct (matches s e) eqn:Hm.
  - cbn [strip].
    assert (Hex : existsb (fun s0 => matches s0 e) ss = true).
    { apply existsb_exists. exists s. split; assumption. }
    rewrite Hex. reflexivity.
  - cbn [strip]. destruct (existsb (fun s0 => matches s0 e) ss); [reflexivity|].
    f_equal. rewrite map_map.
    induction IH as [|k ks Hk _ IHks]; [reflexivity|].
    cbn [map]. rewrite Hk, IHks. reflexivity.
Qed.


Lemma growls_patch l pg : growls (patch l pg) = growls pg.
Proof.
  unfold patch. revert pg. induction l as [|pr l IH]; intros pg; [reflexivity|].
  cbn [fold_left]. rewrite IH. reflexivity.
Qed.







(** ** Notifications *)

Lemma growls_jq_html s m pg : growls (jq_html s m pg) = growls pg.
Proof. destruct m; reflexivity. Qed.

Ltac growls_step :=
  repeat first
    [ rewrite growls_patch
    | rewrite growls_jq_html
    | progress cbn [growls jGrowl with_growls with_doc widget with_calls
                    hide_ajax_loading jq_hide named_message message html_pairs] ].

(** C1, as the code has it: the three bindings that test the message show
    it once when it is a non-empty string and nothing otherwise; the other
    bindings that report show a message that is present once, with its
    text; the category tree, the ancestor-state callback and the variant
    bindings never show one; and removing products from a category always
    shows the same fixed text. *)
Theorem notifications_by_binding :
  Forall (fun h => forall l m pg,
            growls (h (Envelope l m) pg) = growls pg ++ (if truthy m then [m] else []))
         guarded_bindings
  /\ Forall (fun h => forall l s pg,
               growls (h (Envelope l (Some s)) pg) = growls pg ++ [Some s])
            reporting_pair_bindings
  /\ Forall (fun h => forall f s pg,
               growls (h (Named f (Some s)) pg) = growls pg ++ [Some s])
            reporting_named_bindings
  /\ Forall (fun h => forall l m pg, growls (h (Envelope l m) pg) = growls pg)
            silent_pair_bindings
  /\ Forall (fun h => forall f m pg, growls (h (Named f m) pg) = growls pg)
            silent_named_bindings
  /\ (forall data pg, growls (category_state_success data pg) = growls pg)
  /\ (forall data pg,
        growls (category_products_remove_button data pg)
        = growls pg ++ [Some "Produkte wurden von Kategorie entfernt."]).
Proof.
  split; [|split; [|split; [|split; [|split; [|split]]]]].
  - repeat constructor; intros l m pg;
      unfold product_name_filter, ajax_save_button_2, ajax_link; cbn [message html_pairs];
      destruct (truthy m); growls_step; rewrite ?app_nil_r; reflexivity.
  - repeat constructor; intros l s pg; unfold ajax_save_button; growls_step; reflexivity.
  - repeat constructor; intros f s pg; cbv delta
      [criterion_save_button price_criterion_save_button category_products_add_button
       category_seo_button product_images_update_button product_data_save_button
       product_categories_save_button add_accessories_button accessories_update_button
       add_related_products_button remove_related_products_button
       related_products_update_button seo_save_button price_button product_stock_button
       add_property_button property_group_update_button add_products_button
       products_update_button update_product_values_button shop_property_add_option_button
       shop_property_add_step_button shop_property_save_step_button
       shop_property_save_step_type_button ajax_portlet_save_button add_topseller_button
       topseller_update_button add_featured_button featured_update_button
       shop_default_values_button] beta zeta; growls_step; reflexivity.
  - repeat constructor; intros l m pg; unfold category_ajax_link; growls_step; reflexivity.
  - repeat constructor; intros f m pg;
      unfold variants_add_button, variants_update_button; growls_step; reflexivity.
  - intros data pg. reflexivity.
  - intros data pg. unfold category_products_remove_button. growls_step. reflexivity.
Qed.

(** C1 as stated fails: the fixed text appears although the response has
    no message field, the variants binding shows nothing for a message
    that is present, and a binding that tests the message shows nothing
    for the empty string. *)
Lemma notification_counterexample :
  let pg := load (Text "") ∅ in
  ~ shows_message pg (category_products_remove_button [] pg) None
  /\ ~ shows_message pg (variants_add_button (Named (fun _ => None) (Some "saved")) pg)
        (Some "saved")
  /\ ~ shows_message pg (ajax_link (Envelope [] (Some "")) pg) (Some "").
Proof. repeat split; intros H; vm_compute in H; discriminate H. Qed.

(** ** Remembered tabs and the property edit mode *)

Lemma digits_uint d :
  forall acc : nat,
    digits 10 (NilEmpty.string_of_uint d) (Some (Z.of_nat acc))
    = Some (Z.of_nat (Nat.of_uint_acc d acc)).
Proof.
  induction d; intros acc; cbn [NilEmpty.string_of_uint Nat.of_uint_acc];
    [reflexivity | ..];
    cbn [digits]; vm_compute digit_value; cbv iota beta;
    match goal with
    | |- context [(?a <? 10)%Z] => change (a <? 10)%Z with true
    end;
    cbv iota; cbn [from_option id];
    match goal with
    | |- digits _ _ (Some ?z) = Some (Z.of_nat (Nat.of_uint_acc _ ?k)) =>
        replace z with (Z.of_nat k) by (rewrite Nat.tail_mul_spec; lia)
    end;
    apply IHd.
Qed.

Lemma to_uint_not_nil n : Nat.to_uint n <> Decimal.Nil.
Proof.
  rewrite <- (Unsigned.of_to n) at 1. rewrite Unsigned.to_of.
  unfold Decimal.unorm. destruct (Decimal.nzhead (Nat.to_uint n)); discriminate.
Qed.

Lemma parseInt_uint d :
  d <> Decimal.Nil ->
  parseInt (NilEmpty.string_of_uint d) = Some (Z.of_nat (Nat.of_uint d)).
Proof.
  intros Hd.
  assert (H : parseInt (NilEmpty.string_of_uint d)
              = Z.mul 1 <$> digits 10 (NilEmpty.string_of_uint d) (Some (Z.of_nat 0))).
  { destruct d as [|d'|d'|d'|d'|d'|d'|d'|d'|d'|d']; [congruence | ..];
      try reflexivity.
    destruct d'; reflexivity. }
  rewrite H, digits_uint. cbn [fmap option_fmap option_map]. f_equal.
  unfold Nat.of_uint. lia.
Qed.

Lemma parseInt_string_of_nat n : parseInt (string_of_nat n) = Some (Z.of_nat n).
Proof.
  unfold string_of_nat, NilZero.string_of_uint.
  pose proof (to_uint_not_nil n) as Hn.
  rewrite <- (Unsigned.of_to n) at 2.
  destruct (Nat.to_uint n) eqn:E; [congruence | ..];
    rewrite <- E; apply parseInt_uint; rewrite E; discriminate.
Qed.

Lemma select_each_set_same s f n :
  (forall e, matches s (f e) = matches s e) ->
  select s (each_set s f n) = map f (select s n).
Proof.
  intros Hf. rewrite select_each_set by exact Hf.
  pose proof (select_matches s n) as H.
  induction H as [|e l He _ IH]; [reflexivity|].
  cbn [map]. rewrite IH. unfold touch. rewrite He. reflexivity.
Qed.

(** C8: without a stored tab the first tab is selected, with one the index
    [parseInt] reads from it, which is the index the last tab change
    stored; without a stored edit-mode flag the first click shows the edit
    fields and stores [true]. *)
Theorem remembered_preferences (root : node) (jar : gmap string string) :
  tabs (select_product_tab (load root (delete "product_tab" jar)))
    = [("#product-tabs", Some 0%Z)]
  /\ tabs (select_category_tab (load root (delete "category_tab" jar)))
    = [("#category-tabs", Some 0%Z)]
  /\ (forall c, tabs (select_product_tab (load root (<["product_tab" := c]> jar)))
                = [("#product-tabs", parseInt c)])
  /\ (forall c, tabs (select_category_tab (load root (<["category_tab" := c]> jar)))
                = [("#category-tabs", parseInt c)])
  /\ (forall n, tabs (select_product_tab (product_tabs_show n (load root jar)))
                = [("#product-tabs", Some (Z.of_nat n))])
  /\ (forall n, tabs (select_category_tab (category_tabs_show n (load root jar)))
                = [("#category-tabs", Some (Z.of_nat n))])
  /\ (let pg := property_edit_mode (load root (delete "property-edit-mode" jar)) in
      cookie_get "property-edit-mode" pg = Some "true"
      /\ Forall (fun e => hidden e = false) (select (sel ".property-edit-field") (doc pg))).
Proof.
  split; [|split; [|split; [|split; [|split; [|split]]]]].
  - unfold select_product_tab, cookie_get, load. cbn [cookies tabs with_tabs].
    rewrite lookup_delete_eq. reflexivity.
  - unfold select_category_tab, cookie_get, load. cbn [cookies tabs with_tabs].
    rewrite lookup_delete_eq. reflexivity.
  - intros c. unfold select_product_tab, cookie_get, load. cbn [cookies tabs with_tabs].
    rewrite lookup_insert_eq. reflexivity.
  - intros c. unfold select_category_tab, cookie_get, load. cbn [cookies tabs with_tabs].
    rewrite lookup_insert_eq. reflexivity.
  - intros n. unfold select_product_tab, product_tabs_show, cookie_get, cookie_set, load.
    cbn [cookies tabs with_tabs with_cookies].
    rewrite lookup_insert_eq, parseInt_string_of_nat. reflexivity.
  - intros n. unfold select_category_tab, category_tabs_show, cookie_get, cookie_set, load.
    cbn [cookies tabs with_tabs with_cookies].
    rewrite lookup_insert_eq, parseInt_string_of_nat. reflexivity.
  - cbv zeta. unfold property_edit_mode, cookie_get, load. cbn [cookies].
    rewrite lookup_delete_eq. rewrite bool_decide_eq_false_2 by discriminate.
    unfold cookie_set, jq_show. cbn [cookies with_cookies with_doc doc].
    split; [apply lookup_insert_eq|].
    rewrite select_each_set_same by (intros; apply matches_set_hidden).
    apply Forall_map. apply Forall_forall. intros e _. reflexivity.
Qed.

(** ** Paths *)

Lemma path_snoc (p : path) i : last p = Some i -> p = parent p ++ [i].
Proof.
  intros H. apply last_Some in H as [q ->]. unfold parent.
  rewrite removelast_last. reflexivity.
Qed.

Lemma parent_snoc (q : path) i : parent (q ++ [i]) = q.
Proof. apply removelast_last. Qed.

Lemma last_snoc_path (q : path) i : last (q ++ [i]) = Some i.
Proof. apply last_snoc. Qed.

Lemma node_at_app q r n : node_at (q ++ r) n = node_at q n ≫= node_at r.
Proof.
  revert n. induction q as [|i q IH]; intros n; [reflexivity|].
  cbn [app node_at]. destruct n as [t|e ks]; [reflexivity|].
  destruct (ks !! i); [apply IH | reflexivity].
Qed.

Lemma node_at_snoc q i n x :
  node_at (q ++ [i]) n = Some x ->
  exists pe pks, node_at q n = Some (Elem pe pks) /\ pks !! i = Some x.
Proof.
  rewrite node_at_app. destruct (node_at q n) as [[t|pe pks]|]; cbn; try discriminate.
  intros H. exists pe, pks. split; [reflexivity|].
  destruct (pks !! i); [exact H | discriminate].
Qed.

Lemma alter_at_ext f g p :
  forall n, (forall x, node_at p n = Some x -> f x = g x) -> alter_at f p n = alter_at g p n.
Proof.
  induction p as [|i p IH]; intros n H; cbn [alter_at].
  - apply H. reflexivity.
  - destruct n as [t|e ks]; [reflexivity|]. cbn [on_kids]. f_equal.
    apply list_alter_ext; [|reflexivity].
    intros k Hk. apply IH. intros x Hx. apply H. cbn [node_at]. rewrite Hk. exact Hx.
Qed.

Lemma alter_at_id f p n :
  (forall x, node_at p n = Some x -> f x = x) -> alter_at f p n = n.
Proof.
  revert n. induction p as [|i p IH]; intros n H; cbn [alter_at].
  - apply H. reflexivity.
  - destruct n as [t|e ks]; [reflexivity|]. cbn [on_kids]. f_equal.
    rewrite <- (list_alter_id id ks i) at 2 by reflexivity.
    apply list_alter_ext; [|reflexivity].
    intros k Hk. apply IH. intros x Hx. apply H. cbn [node_at]. rewrite Hk. exact Hx.
Qed.

Lemma alter_at_compose f g p :
  forall n, alter_at f p (alter_at g p n) = alter_at (f ∘ g) p n.
Proof.
  induction p as [|i p IH]; intros n; [reflexivity|].
  cbn [alter_at]. destruct n as [t|e ks]; [reflexivity|]. cbn [on_kids]. f_equal.
  rewrite list_alter_alter_eq. apply list_alter_ext; [|reflexivity].
  intros k _. apply IH.
Qed.

Lemma alter_at_app f q r :
  forall n, alter_at f (q ++ r) n = alter_at (alter_at f r) q n.
Proof.
  induction q as [|i q IH]; intros n; [reflexivity|].
  cbn [app alter_at]. destruct n as [t|e ks]; [reflexivity|]. cbn [on_kids]. f_equal.
  apply list_alter_ext; [|reflexivity]. intros k _. apply IH.
Qed.

Lemma node_at_alter_at f p :
  forall n, node_at p (alter_at f p n) = f <$> node_at p n.
Proof.
  induction p as [|i p IH]; intros n; [reflexivity|].
  cbn [alter_at node_at]. destruct n as [t|e ks]; [reflexivity|]. cbn [on_kids].
  rewrite list_lookup_alter_eq. destruct (ks !! i) as [k|]; [apply IH | reflexivity].
Qed.

Lemma node_at_alter_at_app f q r n :
  node_at q (alter_at f (q ++ r) n) = alter_at f r <$> node_at q n.
Proof. rewrite alter_at_app. apply node_at_alter_at. Qed.

Lemma apart_cons i a b : apart (i :: a) (i :: b) -> apart a b.
Proof.
  intros [H1 H2]. split; intros [k ->]; [apply H1 | apply H2]; exists k; reflexivity.
Qed.

Lemma node_at_alter_at_apart f a :
  forall b n, apart a b -> node_at b (alter_at f a n) = node_at b n.
Proof.
  induction a as [|i a IH]; intros b n Hab.
  - destruct Hab as [H _]. exfalso. apply H. exists b. reflexivity.
  - destruct b as [|j b].
    { destruct Hab as [_ H]. exfalso. apply H. eexists. reflexivity. }
    cbn [alter_at node_at]. destruct n as [t|e ks]; [reflexivity|]. cbn [on_kids].
    destruct (decide (i = j)) as [->|Hne].
    + rewrite list_lookup_alter_eq. destruct (ks !! j) as [k|]; [|reflexivity].
      cbn. apply IH. eapply apart_cons. exact Hab.
    + rewrite list_lookup_alter_ne by exact Hne. reflexivity.
Qed.

Lemma elem_alter_at f i r e ks :
  exists ks', alter_at f (i :: r) (Elem e ks) = Elem e ks'.
Proof. eexists. reflexivity. Qed.

Lemma props_at_alter_at_below f q i r n :
  props_at q (alter_at f (q ++ i :: r) n) = props_at q n.
Proof.
  unfold props_at. rewrite node_at_alter_at_app.
  destruct (node_at q n) as [[t|e ks]|]; reflexivity.
Qed.

Lemma props_at_alter_kids F q r n :
  props_at q (alter_at (on_kids F) (q ++ r) n) = props_at q n.
Proof.
  destruct r as [|i r]; [|apply props_at_alter_at_below].
  unfold props_at. rewrite node_at_alter_at_app.
  destruct (node_at q n) as [[t|e ks]|]; reflexivity.
Qed.

Lemma props_at_alter_props g p :
  forall q n,
    props_at q (alter_at (on_props g) p n)
    = if decide (q = p) then g <$> props_at q n else props_at q n.
Proof.
  unfold props_at. induction p as [|i p IH]; intros q n.
  - cbn [alter_at]. destruct q as [|j q].
    + destruct n; reflexivity.
    + destruct n; reflexivity.
  - cbn [alter_at]. destruct n as [t|e ks].
    { cbn [on_kids]. case_decide; subst; reflexivity. }
    cbn [on_kids]. destruct q as [|j q]; [reflexivity|]. cbn [node_at].
    destruct (decide (i = j)) as [->|Hne].
    + rewrite list_lookup_alter_eq. destruct (ks !! j) as [k|].
      * cbn. rewrite IH. destruct (decide (q = p)) as [->|Hq].
        -- rewrite !decide_True by reflexivity. reflexivity.
        -- rewrite !decide_False by congruence. reflexivity.
      * cbn. case_decide; reflexivity.
    + rewrite list_lookup_alter_ne by exact Hne.
      rewrite decide_False by congruence. reflexivity.
Qed.

Lemma matches_at_alter_props s g p q n :
  (forall e, matches s (g e) = matches s e) ->
  matches_at s (alter_at (on_props g) p n) q = matches_at s n q.
Proof.
  intros Hg. unfold matches_at. rewrite props_at_alter_props.
  destruct (decide (q = p)); [|reflexivity].
  destruct (props_at q n); [apply Hg | reflexivity].
Qed.

Lemma proper_prefixes_spec p q :
  In q (proper_prefixes p) -> exists i r, p = q ++ i :: r.
Proof.
  revert q. induction p as [|j p IH]; intros q; [intros []|].
  cbn [proper_prefixes]. intros [<-|H].
  - exists j, p. reflexivity.
  - apply in_map_iff in H as (q' & <- & Hq'). destruct (IH q' Hq') as (i & r & ->).
    exists i, r. reflexivity.
Qed.

Lemma parents_spec p q : In q (parents p) -> exists i r, p = q ++ i :: r.
Proof. unfold parents. rewrite <- in_rev. apply proper_prefixes_spec. Qed.

Lemma parents_sel_ext s p n n' :
  (forall q, In q (parents p) -> props_at q n' = props_at q n) ->
  parents_sel s p n' = parents_sel s p n.
Proof.
  intros H. unfold parents_sel. apply List.filter_ext_in.
  intros q Hq. unfold matches_at. rewrite (H q Hq). reflexivity.
Qed.

(** ** The confirmation prompt *)

Lemma replaceWith_single this i x w root :
  node_at this root = Some x ->
  last this = Some i ->
  replaceWith this [w] root = alter_at (fun _ => w) this root.
Proof.
  intros Hx Hi. unfold replaceWith. rewrite Hi.
  rewrite (path_snoc this i Hi) at 2. rewrite alter_at_app.
  rewrite (path_snoc this i Hi) in Hx.
  apply node_at_snoc in Hx as (pe & pks & Hq & Hk).
  apply alter_at_ext. intros y Hy. rewrite Hq in Hy. injection Hy as <-.
  cbn [on_kids alter_at]. f_equal. unfold splice. rewrite Hk.
  rewrite <- list_insert_alter. symmetry. apply insert_take_drop.
  eapply lookup_lt_Some. exact Hk.
Qed.

Lemma alter_at_const_back x w p root :
  node_at p root = Some x ->
  alter_at (fun _ => x) p (alter_at (fun _ => w) p root) = root.
Proof.
  intros Hx. rewrite alter_at_compose. apply alter_at_id.
  intros y Hy. rewrite Hx in Hy. injection Hy as <-. reflexivity.
Qed.

Lemma node_at_const w p root x :
  node_at p root = Some x -> node_at p (alter_at (fun _ => w) p root) = Some w.
Proof. intros Hx. rewrite node_at_alter_at, Hx. reflexivity. Qed.

Lemma props_at_child p i n x e ks :
  node_at p n = Some x -> node_at [i] x = Some (Elem e ks) -> props_at (p ++ [i]) n = Some e.
Proof.
  intros Hp Hi. unfold props_at. rewrite node_at_app, Hp. cbn [mbind option_bind].
  rewrite Hi. reflexivity.
Qed.

Lemma click_link pg this e ks i :
  node_at this (doc pg) = Some (Elem e ks) ->
  last this = Some i ->
  is_link e ->
  click this pg
  = Some (with_doc (alter_at (fun _ => prompt_for e) this)
            (with_confirmation (Some (Saved (Elem e ks) true)) pg)).
Proof.
  intros Hn Hi [Hl Hno]. unfold click, matches_at, props_at. rewrite Hn, Hno, Hl.
  unfold confirmation_link. rewrite Hn, Hi. f_equal.
  unfold with_doc. cbn [doc with_confirmation cookies growls calls tabs now timers
    next_timer timeout requests confirmation location].
  rewrite (replaceWith_single this i (Elem e ks)) by assumption. reflexivity.
Qed.

Lemma click_no pg w i c d u n :
  node_at w (doc pg) = Some (prompt c d u) ->
  last w = Some i ->
  confirmation pg = Some (Saved n true) ->
  click (w ++ [4]) pg
  = Some (with_doc (alter_at (fun _ => n) w) (with_confirmation (Some (Saved n false)) pg)).
Proof.
  intros Hw Hi Hc. unfold click, matches_at.
  rewrite (props_at_child w 4 (doc pg) _ _ _ Hw eq_refl).
  change (matches (sel ".confirmation-link-no") _) with true. cbv iota.
  unfold confirmation_link_no. rewrite last_snoc_path, parent_snoc, Hc, Hi. f_equal.
  unfold with_doc. cbn [doc with_confirmation cookies growls calls tabs now timers
    next_timer timeout requests confirmation location].
  rewrite (replaceWith_single w i (prompt c d u)) by assumption. reflexivity.
Qed.


Lemma append_assoc_r (a b c : string) :
  ((a ++ b) ++ c)%string = (a ++ (b ++ c))%string.
Proof.
  induction a as [|x a IH]; [reflexivity|].
  change (String x (append (append a b) c) = String x (append a (append b c))).
  rewrite IH. reflexivity.
Qed.

Lemma prompt_written (cls : list string) (data url : string) :
  cls <> [] -> write (prompt cls data url) = prompt_html (join cls) data url.
Proof.
  destruct cls as [|c cls]; [congruence|]. intros _.
  cbv -[append join]. generalize (join (c :: cls)). intros j.
  rewrite !append_assoc_r. reflexivity.
Qed.


(** C7: the prompt remembers one element only.  With two links replaced by
    prompts one after the other, the slot holds the second link, and "No"
    on the first prompt puts the second link where the first one was. *)
Theorem confirmation_single_slot (pg : page) (a b : path) (ea eb : props)
    (ka kb : list node) (ia ib : nat) :
  node_at a (doc pg) = Some (Elem ea ka) -> last a = Some ia -> is_link ea ->
  node_at b (doc pg) = Some (Elem eb kb) -> last b = Some ib -> is_link eb ->
  apart a b ->
  exists pg1 pg2 pg3,
    click a pg = Some pg1
    /\ confirmation pg1 = Some (Saved (Elem ea ka) true)
    /\ click b pg1 = Some pg2
    /\ confirmation pg2 = Some (Saved (Elem eb kb) true)
    /\ click (a ++ [4]) pg2 = Some pg3
    /\ node_at a (doc pg3) = Some (Elem eb kb)
    /\ confirmation pg3 = Some (Saved (Elem eb kb) false).
Proof.
  intros Ha Hia Hla Hb Hib Hlb Hab.
  set (pg1 := with_doc (alter_at (fun _ => prompt_for ea) a)
                (with_confirmation (Some (Saved (Elem ea ka) true)) pg)).
  assert (Hb1 : node_at b (doc pg1) = Some (Elem eb kb)).
  { cbn [pg1 doc with_doc with_confirmation].
    rewrite node_at_alter_at_apart by exact Hab. exact Hb. }
  set (pg2 := with_doc (alter_at (fun _ => prompt_for eb) b)
                (with_confirmation (Some (Saved (Elem eb kb) true)) pg1)).
  assert (Ha2 : node_at a (doc pg2) = Some (prompt_for ea)).
  { cbn [pg2 pg1 doc with_doc with_confirmation].
    rewrite node_at_alter_at_apart by (destruct Hab; split; assumption).
    eapply node_at_const. exact Ha. }
  exists pg1, pg2. eexists.
  split; [eapply click_link; eassumption|].
  split; [reflexivity|].
  split; [eapply click_link; eassumption|].
  split; [reflexivity|].
  split; [eapply click_no; [exact Ha2 | exact Hia | reflexivity]|].
  split; [|reflexivity].
  cbn [doc with_doc with_confirmation]. eapply node_at_const. exact Ha2.
Qed.

(** ** Selecting rows *)

Lemma row_step (b : bool) e ks :
  matches (sel "tr") e = true ->
  (if b then mark_row else unmark_row) e ks
  = if stops b (Elem e ks) then None else Some (shift b (Elem e ks)).
Proof.
  intros Htr. cbn [stops shift]. rewrite Htr. cbn [andb].
  destruct b; unfold mark_row, unmark_row, toggle_mark;
    destruct (hasClass "marked" e); reflexivity.
Qed.

Lemma prevAll_each_run b l1 l2 :
  Forall (fun n => stops b n = false) l1 ->
  (l2 = [] \/ exists m l2', l2 = m :: l2' /\ stops b m = true) ->
  prevAll_each (sel "tr") (if b then mark_row else unmark_row) (l1 ++ l2)
  = map (shift b) l1 ++ l2.
Proof.
  intros H1 H2. induction H1 as [|n l1 Hn _ IH].
  - cbn [app map]. destruct H2 as [->|(m & l2' & -> & Hm)]; [reflexivity|].
    destruct m as [t|e ks]; [discriminate|]. cbn [prevAll_each].
    destruct (matches (sel "tr") e) eqn:Htr.
    + rewrite row_step, Hm by exact Htr. reflexivity.
    + cbn [stops] in Hm. rewrite Htr in Hm. discriminate.
  - cbn [app map]. destruct n as [t|e ks].
    + cbn [prevAll_each shift]. rewrite IH. reflexivity.
    + cbn [prevAll_each]. destruct (matches (sel "tr") e) eqn:Htr.
      * rewrite row_step, Hn, IH by exact Htr. reflexivity.
      * rewrite IH. cbn [shift]. rewrite Htr. reflexivity.
Qed.

Lemma alter_middle {A} (f : A -> A) (l1 : list A) x l2 :
  alter f (length l1) (l1 ++ x :: l2) = l1 ++ f x :: l2.
Proof.
  rewrite alter_app_r_alt by lia. rewrite Nat.sub_diag. reflexivity.
Qed.

Lemma shift_click_kids b far near row later (A : props -> props) :
  Forall (fun n => stops b n = false) near ->
  (far = [] \/ exists far' m, far = far' ++ [m] /\ stops b m = true) ->
  let ks := alter (on_props A) (length (far ++ near)) ((far ++ near) ++ row :: later) in
  rev (prevAll_each (sel "tr") (if b then mark_row else unmark_row)
         (rev (take (length (far ++ near)) ks)))
  ++ drop (length (far ++ near)) ks
  = far ++ map (shift b) near ++ on_props A row :: later.
Proof.
  intros Hnear Hfar ks. subst ks. rewrite alter_middle.
  rewrite take_app_length, drop_app_length, rev_app_distr.
  rewrite prevAll_each_run.
  - rewrite rev_app_distr, rev_involutive, <- map_rev, rev_involutive, <- app_assoc.
    reflexivity.
  - apply Forall_rev. exact Hnear.
  - destruct Hfar as [->|(far' & m & -> & Hm)]; [left; reflexivity|].
    right. exists m, (rev far'). rewrite rev_app_distr. split; [reflexivity | exact Hm].
Qed.

(** C10: a shift-click that leaves the box of a row checked marks the row
    and, walking back from it, marks every row and checks its [select-1]
    boxes until it meets a row that is marked already, which it leaves
    alone together with everything before it; a shift-click that leaves
    the box unchecked does the same with "unmarked" for "marked".  Nothing
    else in the document changes. *)
Theorem shift_click_rows (root : node) (this q : path) (b : bool) (e pe te : props)
    (far near tks later : list node) :
  props_at this root = Some e ->
  checked e = b ->
  parents_first (sel "tr") this root = Some (q ++ [length (far ++ near)]) ->
  node_at q root = Some (Elem pe (far ++ near ++ Elem te tks :: later)) ->
  Forall (fun n => stops b n = false) near ->
  (far = [] \/ exists far' m, far = far' ++ [m] /\ stops b m = true) ->
  select_1 this true root
  = alter_at (fun _ => Elem pe (far ++ map (shift b) near
                                 ++ Elem (toggle_mark b te) tks :: later)) q root.
Proof.
  intros He Hb Htr Hq Hnear Hfar.
  assert (Hgoal :
    prevAll_at (sel "tr") (if b then mark_row else unmark_row) (q ++ [length (far ++ near)])
      (alter_at (on_props (toggle_mark b)) (q ++ [length (far ++ near)]) root)
    = alter_at (fun _ => Elem pe (far ++ map (shift b) near
                                   ++ Elem (toggle_mark b te) tks :: later)) q root).
  { unfold prevAll_at. rewrite last_snoc_path, parent_snoc.
    rewrite alter_at_app, alter_at_compose.
    apply alter_at_ext. intros x Hx. rewrite Hq in Hx. injection Hx as <-.
    cbn [compose alter_at on_kids]. f_equal.
    rewrite (app_assoc far near).
    apply (shift_click_kids b far near (Elem te tks) later (toggle_mark b)); assumption. }
  unfold select_1. rewrite He, Hb, Htr.
  destruct b; exact Hgoal.
Qed.

(** ** The export tree *)

Lemma checked_find_each s b ks :
  Forall (fun x => checked x = b)
         (flat_map (select s) (map (each_set s (set_checked b)) ks)).
Proof.
  induction ks as [|k ks IH]; [constructor|].
  cbn [map flat_map]. apply Forall_app. split; [|exact IH].
  rewrite select_each_set_same by (intros; apply matches_set_checked).
  apply Forall_map. apply Forall_forall. intros x _. reflexivity.
Qed.

Lemma emptied_html s n : all_elems (emptied s) (html s [] n) = true.
Proof.
  induction n as [t|e ks IH] using node_induction; [reflexivity|].
  cbn [html]. destruct (matches s e) eqn:Hm; cbn [all_elems].
  - unfold emptied. rewrite Hm. reflexivity.
  - replace (emptied s e (map (html s []) ks)) with true
      by (unfold emptied; rewrite Hm; reflexivity).
    cbn [andb].
    induction IH as [|k ks Hk _ IHks]; [reflexivity|].
    cbn [map forallb]. rewrite Hk, IHks. reflexivity.
Qed.

Lemma emptied_find_html s ks :
  forallb (all_elems (emptied s)) (map (html s []) ks) = true.
Proof.
  induction ks as [|k ks IH]; [reflexivity|].
  cbn [map forallb]. rewrite emptied_html, IH. reflexivity.
Qed.

Lemma update_parent_fold l :
  forall pg,
    let pg' :=
      fold_left
        (fun pg li =>
           send (Request "POST" (from_option (attr "data") None (props_at li (doc pg))) []
                         category_state_received) pg) l pg in
    doc pg' = doc pg /\ now pg' = now pg /\
    requests pg'
    = requests pg
      ++ map (fun li =>
                (now pg, Request "POST" (from_option (attr "data") None (props_at li (doc pg)))
                                 [] category_state_received)) l.
Proof.
  induction l as [|li l IH]; intros pg; cbn [fold_left map].
  - rewrite app_nil_r. repeat split.
  - cbv zeta in IH. destruct (IH (send (Request "POST"
        (from_option (attr "data") None (props_at li (doc pg))) [] category_state_received) pg))
      as (Hd & Hn & Hr).
    rewrite Hd, Hn, Hr. cbn [send with_requests doc now requests].
    rewrite <- app_assoc. repeat split.
Qed.

Lemma props_at_above_parent G this q n :
  In q (parents this) ->
  props_at q (alter_at (on_kids G) (parent this) n) = props_at q n.
Proof.
  intros Hq. apply parents_spec in Hq as (j & r & ->).
  unfold parent. rewrite removelast_app by discriminate.
  apply props_at_alter_kids.
Qed.

Lemma outer_each_set s s' f n :
  (forall e, matches s (f e) = matches s e) ->
  outer s (each_set s' f n)
  = map (fun c => (touch s' f (fst c), map (each_set s' f) (snd c))) (outer s n).
Proof.
  intros Hf. induction n as [t|e ks IH] using node_induction; [reflexivity|].
  cbn [each_set outer]. fold (touch s' f e).
  assert (Hm : matches s (touch s' f e) = matches s e).
  { unfold touch. destruct (matches s' e); [apply Hf | reflexivity]. }
  rewrite Hm. destruct (matches s e); [reflexivity|].
  induction IH as [|k ks Hk _ IHks]; [reflexivity|].
  cbn [map flat_map]. rewrite map_app, Hk, IHks. reflexivity.
Qed.

(** C3: when the box of an export category has been toggled to [b], every
    box below the box's parent takes the state [b]; one request goes out
    for the node, with action [add] for checked and [remove] for unchecked;
    on its answer the state texts below the parent are emptied and one
    state request goes out for each [li.category] above the box; the answer
    to a state request fills the container it names and sets the boxes it
    names. *)
Theorem export_toggle (pg : page) (this : path) (e pe : props) (ks : list node) (i : nat) :
  props_at this (doc pg) = Some e ->
  last this = Some i ->
  node_at (parent this) (doc pg) = Some (Elem pe ks) ->
  let b := checked e in
  let boxes := map (each_set (sel "input") (set_checked b)) ks in
  let pg1 := export_category_input this pg in
  let pg2 := export_category_success this pg1 in
  doc pg1 = alter_at (fun _ => Elem pe boxes) (parent this) (doc pg)
  /\ Forall (fun x => checked x = b) (flat_map (select (sel "input")) boxes)
  /\ requests pg1
     = requests pg
       ++ [(now pg, Request "POST" (attr "data" e)
                      [("action", if b then "add" else "remove")]
                      (export_category_posted this))]
  /\ doc pg2
     = alter_at (fun _ => Elem pe (map (html (sel ".category-state") []) boxes))
                (parent this) (doc pg)
  /\ forallb (all_elems (emptied (sel ".category-state")))
             (map (html (sel ".category-state") []) boxes) = true
  /\ requests pg2
     = requests pg1
       ++ map (fun li =>
                 (now pg, Request "POST" (from_option (attr "data") None (props_at li (doc pg)))
                                  [] category_state_received))
              (parents_sel (sel "li.category") this (doc pg))
  /\ (forall data pg',
        let after := doc (category_state_success data pg') in
        let fill := html (sel (fst (state_html data))) (snd (state_html data)) (doc pg') in
        let tick := set_checked (snd (state_checkbox data)) in
        outer (sel (fst (state_html data))) fill
          = map (fun c => (fst c, snd (state_html data)))
                (outer (sel (fst (state_html data))) (doc pg'))
        /\ after = each_set (sel (fst (state_checkbox data))) tick fill
        /\ Forall (fun x => checked x = snd (state_checkbox data))
                  (select (sel (fst (state_checkbox data))) after)).
Proof.
  intros He Hi Hp b boxes pg1 pg2.
  assert (H1 : doc pg1 = alter_at (fun _ => Elem pe boxes) (parent this) (doc pg)).
  { subst pg1. unfold export_category_input. rewrite He, Hi. fold b.
    assert (Hd : forall r pg0, doc (send r pg0) = doc pg0) by reflexivity.
    destruct b; rewrite Hd; cbn [doc with_doc]; unfold find_each;
      apply alter_at_ext; intros x Hx; rewrite Hp in Hx; injection Hx as <-; reflexivity. }
  assert (Hpre : requests pg1
     = requests pg
       ++ [(now pg, Request "POST" (attr "data" e)
                      [("action", if b then "add" else "remove")]
                      (export_category_posted this))]
     /\ now pg1 = now pg).
  { subst pg1. unfold export_category_input. rewrite He, Hi. fold b.
    destruct b; split; reflexivity. }
  destruct Hpre as [H3 Hnow].
  set (sub := update_sub_categories this pg1).
  assert (Hsub : doc sub = alter_at (fun _ => Elem pe (map (html (sel ".category-state") []) boxes))
                             (parent this) (doc pg)
                 /\ requests sub = requests pg1 /\ now sub = now pg).
  { subst sub. unfold update_sub_categories. rewrite Hi.
    cbn [doc with_doc requests now]. rewrite H1, Hnow. split; [|split; reflexivity].
    unfold find_html. rewrite alter_at_compose. apply alter_at_ext. reflexivity. }
  destruct Hsub as (Hsd & Hsr & Hsn).
  destruct (update_parent_fold (parents_sel (sel "li.category") this (doc sub)) sub)
    as (Hd2 & _ & Hr2).
  assert (Habove : forall q, In q (parents this) -> props_at q (doc sub) = props_at q (doc pg)).
  { intros q Hq. rewrite Hsd.
    rewrite (alter_at_ext _ (on_kids (fun _ => map (html (sel ".category-state") []) boxes)))
      by (intros x Hx; rewrite Hp in Hx; injection Hx as <-; reflexivity).
    apply props_at_above_parent. exact Hq. }
  split; [exact H1|].
  split; [apply checked_find_each|].
  split; [exact H3|].
  split; [subst pg2; unfold export_category_success, update_parent_categories;
          fold sub; rewrite Hd2; exact Hsd|].
  split; [apply emptied_find_html|].
  split.
  - subst pg2. unfold export_category_success, update_parent_categories. fold sub.
    rewrite Hr2, Hsr, Hsn. f_equal.
    rewrite (parents_sel_ext _ _ _ _ Habove).
    apply map_ext_in. intros li Hli. unfold parents_sel in Hli.
    apply filter_In in Hli as [Hli _]. rewrite (Habove li Hli). reflexivity.
  - intros data pg' after fill tick. split; [apply outer_html|].
    split; [reflexivity|].
    subst after. unfold category_state_success. cbn [doc with_doc jq_html].
    rewrite select_each_set_same by (intros; apply matches_set_checked).
    apply Forall_map. apply Forall_forall. intros x _. reflexivity.
Qed.

(** ** The debounced filter *)

Lemma set_value_over v v' this root :
  alter_at (on_props (set_value v')) this (alter_at (on_props (set_value v)) this root)
  = alter_at (on_props (set_value v')) this root.
Proof.
  rewrite alter_at_compose. apply alter_at_ext. intros [t|e ks] _; reflexivity.
Qed.

Lemma debounced_field_typed v root this fp :
  debounced_field root this fp ->
  debounced_field (alter_at (on_props (set_value v)) this root) this fp.
Proof.
  intros (H1 & H2 & H3). unfold debounced_field.
  rewrite !matches_at_alter_props by (intros; apply matches_set_value).
  split; [exact H1|]. split.
  - eapply Forall_impl; [exact H2|]. intros b Hb. cbv beta.
    rewrite matches_at_alter_props by (intros; apply matches_set_value). exact Hb.
  - unfold parents_first, parents_sel in *. rewrite <- H3. f_equal.
    apply List.filter_ext. intros q.
    apply matches_at_alter_props. intros; apply matches_set_value.
Qed.

Lemma dispatch_app l1 l2 this pg :
  dispatch (l1 ++ l2) this pg = dispatch l2 this (dispatch l1 this pg).
Proof. unfold dispatch. apply fold_left_app. Qed.

Lemma dispatch_skip l this pg :
  Forall (fun b => matches_at (sel (fst b)) (doc pg) this = false) l ->
  dispatch l this pg = pg.
Proof.
  unfold dispatch. induction 1 as [|b l Hb _ IH]; [reflexivity|].
  cbn [fold_left]. rewrite Hb. exact IH.
Qed.

Lemma key_schedules pg0 this fp t v pg tms :
  debounced_field (doc pg0) this fp ->
  doc pg = alter_at (on_props (set_value v)) this (doc pg0) ->
  requests pg = requests pg0 ->
  now pg = t ->
  timers pg = tms ->
  (tms = [] \/ exists id d, tms = [Timer id d (Some fp)] /\ timeout pg = Some id) ->
  pending pg0 this fp t v (dispatch keyup_bindings this pg).
Proof.
  intros Hf Hd Hr Hn Ht Htm.
  pose proof (debounced_field_typed v _ _ _ Hf) as (H1 & H2 & H3).
  rewrite <- Hd in H1, H2, H3.
  unfold immediate_filters in H2. apply Forall_app in H2 as [Hb Ha].
  unfold keyup_bindings. rewrite !dispatch_app, (dispatch_skip filters_before) by exact Hb.
  assert (Hone : dispatch [(".products-name-filter", products_name_filter)] this pg
                 = products_name_filter this pg).
  { unfold dispatch. cbn [fold_left fst snd]. rewrite H1. reflexivity. }
  rewrite Hone.
  assert (Hdoc : doc (products_name_filter this pg) = doc pg).
  { unfold products_name_filter. destruct (timeout pg); reflexivity. }
  rewrite dispatch_skip by (rewrite Hdoc; exact Ha).
  unfold products_name_filter. rewrite H3.
  destruct pg as [d c g ca tb n tm nt to rq cf lo].
  cbn [doc requests now timers timeout] in *. subst.
  exists nt.
  destruct Htm as [->|(id & due0 & -> & ->)].
  - destruct to as [id|]; cbn; repeat split; reflexivity.
  - cbn. rewrite Nat.eqb_refl. cbn. repeat split; reflexivity.
Qed.

Lemma first_key pg0 this fp t v :
  debounced_field (doc pg0) this fp ->
  timers pg0 = [] ->
  (now pg0 <= t)%Z ->
  pending pg0 this fp t v (keyup t this v pg0).
Proof.
  intros Hf Ht Hn. unfold keyup.
  eapply (key_schedules pg0 this fp t v _ []); try exact Hf.
  - unfold run_until. rewrite Ht. reflexivity.
  - unfold run_until. rewrite Ht. reflexivity.
  - unfold run_until. rewrite Ht. cbn. lia.
  - unfold run_until. rewrite Ht. reflexivity.
  - left. reflexivity.
Qed.

Lemma next_key pg0 this fp t v t' v' pg :
  debounced_field (doc pg0) this fp ->
  pending pg0 this fp t v pg ->
  (t <= t' < t + 500)%Z ->
  pending pg0 this fp t' v' (keyup t' this v' pg).
Proof.
  intros Hf (id & Ht & Hto & Hn & Hr & Hd) Hlt. unfold keyup.
  assert (Hrun : run_until t' pg = with_now t' pg).
  { unfold run_until. rewrite Ht. cbn [run_due due].
    replace (t + 500 <=? t')%Z with false by (symmetry; apply Z.leb_gt; lia).
    rewrite Hn. replace (Z.max t t') with t' by lia.
    destruct pg; cbn in *; subst; reflexivity. }
  rewrite Hrun.
  eapply (key_schedules pg0 this fp t' v' _ [Timer id (t + 500) (Some fp)]); try exact Hf.
  - cbn [doc with_doc with_now]. rewrite Hd. apply set_value_over.
  - exact Hr.
  - reflexivity.
  - exact Ht.
  - right. exists id, (t + 500)%Z. split; [reflexivity | exact Hto].
Qed.

Lemma keys_pending pg0 this fp rest :
  debounced_field (doc pg0) this fp ->
  forall t v pg,
    pending pg0 this fp t v pg ->
    spaced t rest ->
    pending pg0 this fp (fst (List.last rest (t, v))) (snd (List.last rest (t, v)))
      (keyups this rest pg).
Proof.
  intros Hf. induction rest as [|[t' v'] rest IH]; intros t v pg Hp Hs.
  - exact Hp.
  - destruct Hs as [Hlt Hs]. cbn [keyups fold_left fst snd].
    pose proof (next_key _ _ _ _ _ t' v' _ Hf Hp Hlt) as Hp'.
    specialize (IH t' v' _ Hp' Hs).
    replace (List.last ((t', v') :: rest) (t, v)) with (List.last rest (t', v'));
      [exact IH|].
    clear. destruct rest as [|k rest]; [reflexivity|].
    cbn [List.last]. revert k. induction rest as [|k' rest IH]; intros k; [reflexivity|].
    cbn [List.last] in *. apply IH.
Qed.

Lemma serialize_in r :
  forall n x xs pr,
    node_at r n = Some (Elem x xs) -> In pr (successful x) -> In pr (serialize n).
Proof.
  induction r as [|j r IH]; intros n x xs pr Hn Hpr.
  - injection Hn as ->. cbn [serialize]. apply in_or_app. left. exact Hpr.
  - destruct n as [t|e ks]; [discriminate|]. cbn [node_at] in Hn.
    destruct (ks !! j) as [k|] eqn:Hk; [|discriminate].
    cbn [serialize]. apply in_or_app. right. apply in_flat_map.
    exists k. split; [|eapply IH; eassumption].
    apply list_elem_of_In. eapply list_elem_of_lookup_2. exact Hk.
Qed.

Lemma successful_set_value v e name :
  successful e = [(name, value e)] -> successful (set_value v e) = [(name, v)].
Proof.
  unfold successful.
  change (attr "name" (set_value v e)) with (attr "name" e).
  change (attr "disabled" (set_value v e)) with (attr "disabled" e).
  change (attr "type" (set_value v e)) with (attr "type" e).
  cbn [set_value tag checked value].
  destruct (attr "name" e); [|discriminate].
  repeat match goal with
         | |- context [if ?c then _ else _] => destruct c
         end;
    intros H; first [discriminate H | injection H as ->; reflexivity].
Qed.

(** C2, for the field that debounces: keystrokes in a [.products-name-filter]
    field, each less than 500ms after the one before, send nothing while
    they last; 500ms after the last of them exactly one request is sent,
    for the enclosing form, and it carries the text the last keystroke left
    in the field. *)
Theorem debounced_filter (pg0 : page) (this fp : path) (e : props)
    (t1 : Z) (v1 : string) (rest : list (Z * string)) (T : Z) :
  timers pg0 = [] ->
  props_at this (doc pg0) = Some e ->
  debounced_field (doc pg0) this fp ->
  (now pg0 <= t1)%Z ->
  spaced t1 rest ->
  let tn := fst (List.last rest (t1, v1)) in
  let vn := snd (List.last rest (t1, v1)) in
  (tn + 500 <= T)%Z ->
  let typed := keyups this ((t1, v1) :: rest) pg0 in
  let pg := run_until T typed in
  requests typed = requests pg0
  /\ exists fe fks,
       node_at fp (doc pg) = Some (Elem fe fks)
       /\ props_at this (doc pg) = Some (set_value vn e)
       /\ requests pg
          = requests pg0
            ++ [((tn + 500)%Z,
                 Request (default "GET" (attr "method" fe)) (attr "action" fe)
                         (serialize (Elem fe fks)) (fill "#products-inline"))]
       /\ timers pg = []
       /\ (forall name, successful e = [(name, value e)] ->
                        In (name, vn) (serialize (Elem fe fks))).
Proof.
  intros Ht He Hf Hn Hs tn vn HT typed pg.
  assert (Hp : pending pg0 this fp tn vn typed).
  { subst typed tn vn. cbn [keyups fold_left fst snd].
    apply (keys_pending pg0 this fp rest Hf t1 v1); [|exact Hs].
    apply first_key; assumption. }
  destruct Hp as (id & Htm & Hto & Hnow & Hr & Hd).
  split; [exact Hr|].
  destruct Hf as (_ & _ & Hform).
  assert (Hfp : In fp (parents_sel (sel "form") this (doc pg0))).
  { unfold parents_first in Hform.
    destruct (parents_sel (sel "form") this (doc pg0)) as [|x l]; [discriminate|].
    injection Hform as ->. left. reflexivity. }
  unfold parents_sel in Hfp. apply filter_In in Hfp as [Hpar Hm].
  apply parents_spec in Hpar as (j & r & Hthis).
  unfold matches_at, props_at in Hm.
  destruct (node_at fp (doc pg0)) as [[tx|fe fks0]|] eqn:Hn0; try discriminate.
  assert (Hn1 : node_at fp (doc typed)
                = Some (alter_at (on_props (set_value vn)) (j :: r) (Elem fe fks0))).
  { rewrite Hd. rewrite Hthis at 1. rewrite node_at_alter_at_app, Hn0. reflexivity. }
  destruct (elem_alter_at (on_props (set_value vn)) j r fe fks0) as [fks Hfks].
  rewrite Hfks in Hn1.
  assert (Hpg : pg = with_now T (with_timers (fun _ => [])
                  (send (Request (default "GET" (attr "method" fe)) (attr "action" fe)
                           (serialize (Elem fe fks)) (fill "#products-inline"))
                     (with_now (tn + 500) typed)))).
  { subst pg. unfold run_until. rewrite Htm. cbn [run_due due].
    replace (tn + 500 <=? T)%Z with true by (symmetry; apply Z.leb_le; lia).
    unfold fire. cbn [form due]. rewrite Hnow.
    replace (Z.max tn (tn + 500)) with (tn + 500)%Z by lia.
    unfold ajaxSubmit. cbn [doc with_now]. rewrite Hn1.
    cbn [now send with_requests with_now]. f_equal. lia. }
  exists fe, fks. rewrite Hpg.
  cbn [doc with_now with_timers send with_requests requests timers now].
  split; [exact Hn1|].
  split.
  { rewrite Hd, props_at_alter_props, decide_True by reflexivity. rewrite He. reflexivity. }
  split; [rewrite Hr; reflexivity|].
  split; [reflexivity|].
  intros name Hname.
  assert (Hthis_node : exists eks, node_at (j :: r) (Elem fe fks)
                                   = Some (Elem (set_value vn e) eks)).
  { rewrite <- Hfks, node_at_alter_at.
    unfold props_at in He. rewrite Hthis, node_at_app, Hn0 in He.
    cbn [mbind option_bind] in He.
    destruct (node_at (j :: r) (Elem fe fks0)) as [[tx|e' eks]|];
      try discriminate He.
    injection He as ->. exists eks. reflexivity. }
  destruct Hthis_node as [eks Heks].
  eapply serialize_in; [exact Heks|].
  rewrite (successful_set_value vn e name Hname). left. reflexivity.
Qed.

Lemma dispatch_cons b l this pg :
  dispatch (b :: l) this pg
  = dispatch l this (if matches_at (sel (fst b)) (doc pg) this then snd b this pg else pg).
Proof. reflexivity. Qed.

Lemma doc_ajaxSubmit f type cb pg : doc (ajaxSubmit f type cb pg) = doc pg.
Proof.
  unfold ajaxSubmit. destruct f as [p|]; [|reflexivity].
  destruct (node_at p (doc pg)) as [[t|e ks]|]; reflexivity.
Qed.

(** The category-product filter does not wait: a keystroke in a field bound
    to it alone, with nothing scheduled, submits the filter form at once. *)
Lemma category_filter_immediate (pg : page) (this f : path) (t : Z) (v : string)
    (fe : props) (fks : list node) :
  timers pg = [] ->
  (now pg <= t)%Z ->
  let typed := alter_at (on_props (set_value v)) this (doc pg) in
  immediate_field typed this ->
  head (select_paths (sel "#category-products-filter-form") typed) = Some f ->
  node_at f typed = Some (Elem fe fks) ->
  requests (keyup t this v pg)
  = requests pg
    ++ [(t, Request (default "GET" (attr "method" fe)) (attr "action" fe)
               (serialize (Elem fe fks)) (fill "#products-inline"))].
Proof.
  intros Ht Hn typed [Hm Hothers] Hf Hnode.
  unfold keyup, run_until. rewrite Ht. cbn [run_due].
  replace (Z.max (now pg) t) with t by lia.
  set (pg1 := with_doc _ _).
  assert (Hd1 : doc pg1 = typed) by reflexivity.
  assert (Hr1 : requests pg1 = requests pg) by reflexivity.
  assert (Hn1 : now pg1 = t) by reflexivity.
  clearbody pg1. clearbody typed.
  unfold beside_category_filter, filters_after in Hothers. cbn [app] in Hothers.
  apply Forall_cons in Hothers as [Hpn Hrest].
  unfold keyup_bindings, filters_before.
  cbn [app]. rewrite dispatch_cons. cbn [fst snd] in *. rewrite Hd1, Hpn.
  rewrite dispatch_cons. cbn [fst snd]. rewrite Hd1, Hm.
  unfold category_products_filter_input at 1. unfold first_of. rewrite Hd1, Hf.
  unfold ajaxSubmit. rewrite Hd1, Hnode. cbn [from_option].
  set (pg2 := send _ pg1).
  assert (Hd2 : doc pg2 = typed) by (subst pg2; exact Hd1).
  assert (Hr2 : requests pg2
                = requests pg
                  ++ [(t, Request (default "GET" (attr "method" fe)) (attr "action" fe)
                             (serialize (Elem fe fks)) (fill "#products-inline"))]).
  { subst pg2. cbn [send with_requests requests]. rewrite Hr1, Hn1. reflexivity. }
  clearbody pg2.
  rewrite dispatch_skip; [exact Hr2|].
  rewrite Hd2. exact Hrest.
Qed.

(** ** The script on sample documents *)

Example sel_forms :
  sel "#dialog" = ById "dialog" /\ sel ".position" = ByClass "position" /\
  sel "tr" = ByTag "tr" /\ sel "li.category" = ByTagClass "li" "category".
Proof. repeat split. Qed.

Example parseInt_samples :
  parseInt "3" = Some 3%Z /\ parseInt " 12px" = Some 12%Z /\ parseInt "0x1f" = Some 31%Z /\
  parseInt "-7" = Some (-7)%Z /\ parseInt "tab" = None /\ parseInt "" = None.
Proof. repeat split. Qed.

Example update_positions_sample :
  map value
    (select (sel ".position")
       (update_positions
          (elem "table" [] []
             [ input ["position"] [] false "70";
               elem "tr" [] [] [input ["position"] [] false "5"];
               input ["position"] [] false "" ])))
  = ["10"; "20"; "30"].
Proof. reflexivity. Qed.

(** Keystrokes at 0, 100 and 200 in the debounced field: one request, at
    700, with the text of the last keystroke. *)
Example three_keys_debounced :
  requests (run_until 700 (keyups [0; 0]%nat three_keys (load sample_overview ∅)))
  = [(700%Z, Request "post" (Some "/products") [("name", "abc")] (fill "#products-inline"))].
Proof. reflexivity. Qed.

(** What [.ajax-save-button] does with an envelope that has no message:
    [$.jGrowl] is called with [undefined]. *)
Example ajax_save_button_without_message :
  growls (ajax_save_button (Envelope [] None) (load (Text "") ∅)) = [None].
Proof. reflexivity. Qed.

(** C2 as stated fails for the category-product filter: it submits on every
    keystroke, at once, so keystrokes at 0, 100 and 200 give three requests
    and none at 700. *)
Lemma debounce_counterexample :
  let pg := run_until 700 (keyups [0; 0]%nat three_keys (load sample_category ∅)) in
  let sent v :=
    Request "GET" (Some "/category/1/products") [("filter", v)] (fill "#products-inline") in
  matches_at (sel ".category-products-filter-input") sample_category [0; 0]%nat = true
  /\ requests pg = [(0%Z, sent "a"); (100%Z, sent "ab"); (200%Z, sent "abc")]
  /\ ~ (exists r, requests pg = [(700%Z, r)]).
Proof.
  cbv zeta. split; [reflexivity|]. split; [reflexivity|].
  intros [r H]. vm_compute in H. discriminate H.
Qed.

(** The debounce contract on the products overview, keys at 0, 100, 200. *)
Lemma debounced_filter_witness :
  let pg0 := load sample_overview ∅ in
  let this := [0; 0]%nat in
  let fp := [0]%nat in
  let e := box ["products-name-filter"] [("name", "name")] false "" in
  let t1 := 0%Z in
  let v1 := "a" in
  let rest := [(100%Z, "ab"); (200%Z, "abc")] in
  let T := 700%Z in
  timers pg0 = [] /\
  props_at this (doc pg0) = Some e /\
  debounced_field (doc pg0) this fp /\
  (now pg0 <= t1)%Z /\
  spaced t1 rest /\
  (fst (List.last rest (t1, v1)) + 500 <= T)%Z /\
  let tn := fst (List.last rest (t1, v1)) in
  let vn := snd (List.last rest (t1, v1)) in
  let typed := keyups this ((t1, v1) :: rest) pg0 in
  let pg := run_until T typed in
  requests typed = requests pg0
  /\ exists fe fks,
       node_at fp (doc pg) = Some (Elem fe fks)
       /\ props_at this (doc pg) = Some (set_value vn e)
       /\ requests pg
          = requests pg0
            ++ [((tn + 500)%Z,
                 Request (default "GET" (attr "method" fe)) (attr "action" fe)
                         (serialize (Elem fe fks)) (fill "#products-inline"))]
       /\ timers pg = []
       /\ (forall name, successful e = [(name, value e)] ->
                        In (name, vn) (serialize (Elem fe fks))).
Proof.
  intros pg0 this fp e t1 v1 rest T.
  assert (H1 : timers pg0 = []) by reflexivity.
  assert (H2 : props_at this (doc pg0) = Some e) by reflexivity.
  assert (H3 : debounced_field (doc pg0) this fp)
    by (split; [reflexivity | split; [repeat constructor | reflexivity]]).
  assert (H4 : (now pg0 <= t1)%Z) by (vm_compute; discriminate).
  assert (H5 : spaced t1 rest) by (cbn; lia).
  assert (H6 : (fst (List.last rest (t1, v1)) + 500 <= T)%Z) by (vm_compute; discriminate).
  split; [exact H1|]. split; [exact H2|]. split; [exact H3|]. split; [exact H4|].
  split; [exact H5|]. split; [exact H6|].
  exact (debounced_filter pg0 this fp e t1 v1 rest T H1 H2 H3 H4 H5 H6).
Defined.

(** The equalizer on two columns of heights 120 and 80. *)
Lemma equalizer_witness :
  height_of (sel "#featured-left") sample_columns = Some 120%Z /\
  height_of (sel "#featured-right") sample_columns = Some 80%Z /\
  height_of (sel "#featured-left") (align_buttons "#featured" sample_columns)
    = Some (Z.max 120 80) /\
  height_of (sel "#featured-right") (align_buttons "#featured" sample_columns)
    = Some (Z.max 120 80) /\
  align_buttons "#featured" (align_buttons "#featured" sample_columns)
    = align_buttons "#featured" sample_columns.
Proof.
  split; [reflexivity|]. split; [reflexivity|].
  exact (equalizer_max_idempotent _ _ _ sample_columns 120 80
           (equalizer_buttons "#featured") eq_refl eq_refl).
Defined.


(** Two prompts open at once on the sample links. *)
Lemma confirmation_single_slot_witness :
  let pg := load sample_links ∅ in
  let a := [0; 0]%nat in
  let b := [1; 0]%nat in
  let ea := sample_anchor "/delete/1" "Delete the first?" in
  let eb := sample_anchor "/delete/2" "Delete the second?" in
  let ka := [Text "Delete"] in
  let kb := [Text "Delete"] in
  node_at a (doc pg) = Some (Elem ea ka) /\ last a = Some 0%nat /\ is_link ea /\
  node_at b (doc pg) = Some (Elem eb kb) /\ last b = Some 0%nat /\ is_link eb /\
  apart a b /\
  exists pg1 pg2 pg3,
    click a pg = Some pg1
    /\ confirmation pg1 = Some (Saved (Elem ea ka) true)
    /\ click b pg1 = Some pg2
    /\ confirmation pg2 = Some (Saved (Elem eb kb) true)
    /\ click (a ++ [4]%nat) pg2 = Some pg3
    /\ node_at a (doc pg3) = Some (Elem eb kb)
    /\ confirmation pg3 = Some (Saved (Elem eb kb) false).
Proof.
  intros pg a b ea eb ka kb.
  assert (H1 : node_at a (doc pg) = Some (Elem ea ka)) by reflexivity.
  assert (H2 : last a = Some 0%nat) by reflexivity.
  assert (H3 : is_link ea) by (split; reflexivity).
  assert (H4 : node_at b (doc pg) = Some (Elem eb kb)) by reflexivity.
  assert (H5 : last b = Some 0%nat) by reflexivity.
  assert (H6 : is_link eb) by (split; reflexivity).
  assert (H7 : apart a b) by (split; intros [k H]; discriminate H).
  split; [exact H1|]. split; [exact H2|]. split; [exact H3|]. split; [exact H4|].
  split; [exact H5|]. split; [exact H6|]. split; [exact H7|].
  exact (confirmation_single_slot pg a b ea eb ka kb 0 0 H1 H2 H3 H4 H5 H6 H7).
Defined.

(** A shift-click on the fourth row of the sample table. *)
Lemma shift_click_rows_witness :
  let this := [0; 4; 0; 0]%nat in
  let q := [0]%nat in
  let e := box ["select-1"] [] true "" in
  let pe := plain "table" [] [] in
  let te := plain "tr" [] [] in
  let far := [sample_row ["marked"] true] in
  let near := [sample_row [] false; Text " "; sample_row [] false] in
  let tks := [elem "td" [] [] [input ["select-1"] [] true ""]] in
  let later := [sample_row [] false] in
  props_at this sample_table = Some e /\
  checked e = true /\
  parents_first (sel "tr") this sample_table = Some (q ++ [length (far ++ near)]) /\
  node_at q sample_table = Some (Elem pe (far ++ near ++ Elem te tks :: later)) /\
  Forall (fun n => stops true n = false) near /\
  (far = [] \/ exists far' m, far = far' ++ [m] /\ stops true m = true) /\
  select_1 this true sample_table
  = alter_at (fun _ => Elem pe (far ++ map (shift true) near
                                 ++ Elem (toggle_mark true te) tks :: later)) q sample_table.
Proof.
  intros this q e pe te far near tks later.
  assert (H1 : props_at this sample_table = Some e) by reflexivity.
  assert (H2 : checked e = true) by reflexivity.
  assert (H3 : parents_first (sel "tr") this sample_table
               = Some (q ++ [length (far ++ near)])) by reflexivity.
  assert (H4 : node_at q sample_table
               = Some (Elem pe (far ++ near ++ Elem te tks :: later))) by reflexivity.
  assert (H5 : Forall (fun n => stops true n = false) near)
    by (repeat constructor).
  assert (H6 : far = [] \/ exists far' m, far = far' ++ [m] /\ stops true m = true)
    by (right; exists [], (sample_row ["marked"] true); split; reflexivity).
  split; [exact H1|]. split; [exact H2|]. split; [exact H3|]. split; [exact H4|].
  split; [exact H5|]. split; [exact H6|].
  exact (shift_click_rows sample_table this q true e pe te far near tks later
           H1 H2 H3 H4 H5 H6).
Defined.

(** Checking the inner category of the sample export tree. *)
Lemma export_toggle_witness :
  let pg := load sample_tree ∅ in
  let this := [0; 0; 2; 0; 0]%nat in
  let e := box ["export-category-input"] [("data", "/export/category/2")] true "" in
  let pe := plain "li" ["category"] [("data", "/export/state/2")] in
  let ks := sample_inner in
  props_at this (doc pg) = Some e /\
  last this = Some 0%nat /\
  node_at (parent this) (doc pg) = Some (Elem pe ks) /\
  let b := checked e in
  let boxes := map (each_set (sel "input") (set_checked b)) ks in
  let pg1 := export_category_input this pg in
  let pg2 := export_category_success this pg1 in
  doc pg1 = alter_at (fun _ => Elem pe boxes) (parent this) (doc pg)
  /\ Forall (fun x => checked x = b) (flat_map (select (sel "input")) boxes)
  /\ requests pg1
     = requests pg
       ++ [(now pg, Request "POST" (attr "data" e)
                      [("action", if b then "add" else "remove")]
                      (export_category_posted this))]
  /\ doc pg2
     = alter_at (fun _ => Elem pe (map (html (sel ".category-state") []) boxes))
                (parent this) (doc pg)
  /\ forallb (all_elems (emptied (sel ".category-state")))
             (map (html (sel ".category-state") []) boxes) = true
  /\ requests pg2
     = requests pg1
       ++ map (fun li =>
                 (now pg, Request "POST" (from_option (attr "data") None (props_at li (doc pg)))
                                  [] category_state_received))
              (parents_sel (sel "li.category") this (doc pg))
  /\ (forall data pg',
        let after := doc (category_state_success data pg') in
        let fill := html (sel (fst (state_html data))) (snd (state_html data)) (doc pg') in
        let tick := set_checked (snd (state_checkbox data)) in
        outer (sel (fst (state_html data))) fill
          = map (fun c => (fst c, snd (state_html data)))
                (outer (sel (fst (state_html data))) (doc pg'))
        /\ after = each_set (sel (fst (state_checkbox data))) tick fill
        /\ Forall (fun x => checked x = snd (state_checkbox data))
                  (select (sel (fst (state_checkbox data))) after)).
Proof.
  intros pg this e pe ks.
  assert (H1 : props_at this (doc pg) = Some e) by reflexivity.
  assert (H2 : last this = Some 0%nat) by reflexivity.
  assert (H3 : node_at (parent this) (doc pg) = Some (Elem pe ks)) by reflexivity.
  split; [exact H1|]. split; [exact H2|]. split; [exact H3|].
  exact (export_toggle pg this e pe ks 0 H1 H2 H3).
Defined.


(** * Further properties of the script *)

(** ** The flash message *)

(** X1: When the page is ready, a message left in the message cookie is shown
    in exactly one notification and the cookie is deleted, so running the
    same code again shows nothing more; without the cookie nothing is
    shown. No other cookie and nothing of the document changes. *)
Theorem flash_shown_once (pg : page) :
  growls (flash pg) = growls pg ++ expected_growls (cookie_get "message" pg)
  /\ cookie_get "message" (flash pg) = None
  /\ flash (flash pg) = flash pg
  /\ (forall k, k <> "message" -> cookie_get k (flash pg) = cookie_get k pg)
  /\ doc (flash pg) = doc pg.
Proof.
  assert (Hgone : cookie_get "message" (flash pg) = None).
  { unfold flash. destruct (cookie_get "message" pg) as [m|] eqn:Hm; [|exact Hm].
    unfold cookie_get. cbn [cookies with_cookies jGrowl with_growls].
    apply lookup_delete_eq. }
  split; [unfold flash; destruct (cookie_get "message" pg);
          [reflexivity | symmetry; apply app_nil_r]|].
  split; [exact Hgone|].
  split; [unfold flash at 1; rewrite Hgone; reflexivity|].
  split; [|unfold flash; destruct (cookie_get "message" pg); reflexivity].
  intros k Hk. unfold flash. destruct (cookie_get "message" pg); [|reflexivity].
  unfold cookie_get. cbn [cookies with_cookies jGrowl with_growls].
  apply lookup_delete_ne. congruence.
Qed.

(** ** The property edit mode *)

(** X2: A click on .property-edit-mode writes the string false into the
    property-edit-mode cookie and hides every .property-edit-field when
    the cookie held the string true, and writes true and shows them in
    every other case; the next click does the opposite, and no other
    cookie changes. *)
Theorem edit_mode_alternates (pg : page) :
  let k := "property-edit-mode" in
  let on := bool_decide (cookie_get k pg = Some "true") in
  let pg' := property_edit_mode pg in
  cookie_get k pg' = Some (if on then "false" else "true")
  /\ Forall (fun e => hidden e = on) (select (sel ".property-edit-field") (doc pg'))
  /\ cookie_get k (property_edit_mode pg') = Some (if on then "true" else "false")
  /\ (forall k', k' <> k -> cookie_get k' pg' = cookie_get k' pg).
Proof.
  intros k on pg'. subst pg'. unfold property_edit_mode. fold k. fold on.
  assert (Hsel : forall b d,
    Forall (fun e => hidden e = b)
      (select (sel ".property-edit-field") (each_set (sel ".property-edit-field") (set_hidden b) d))).
  { intros b d. rewrite select_each_set_same by (intros; apply matches_set_hidden).
    apply Forall_map. apply Forall_forall. intros e _. reflexivity. }
  destruct on; unfold cookie_set, cookie_get, jq_hide, jq_show;
    cbn [cookies with_cookies with_doc doc]; rewrite !lookup_insert_eq.
  - split; [reflexivity|]. split; [apply Hsel|].
    rewrite bool_decide_eq_false_2 by discriminate. cbn [cookies with_cookies with_doc].
    rewrite lookup_insert_eq. split; [reflexivity|].
    intros k' Hk'. apply lookup_insert_ne. congruence.
  - split; [reflexivity|]. split; [apply Hsel|].
    rewrite bool_decide_eq_true_2 by reflexivity. cbn [cookies with_cookies with_doc].
    rewrite lookup_insert_eq. split; [reflexivity|].
    intros k' Hk'. apply lookup_insert_ne. congruence.
Qed.

(** ** Remembered tabs *)

(** X3: The product tab and the category tab are remembered in separate
    cookies: showing a tab of one kind does not change which tab of the
    other kind is selected on load, and of two tabs shown in a row the
    later one is the one selected. *)
Theorem tab_cookies_independent (pg : page) (m n : nat) :
  tabs (select_category_tab (product_tabs_show n pg)) = tabs (select_category_tab pg)
  /\ tabs (select_product_tab (category_tabs_show n pg)) = tabs (select_product_tab pg)
  /\ tabs (select_product_tab (product_tabs_show m (product_tabs_show n pg)))
     = tabs pg ++ [("#product-tabs", Some (Z.of_nat m))]
  /\ tabs (select_category_tab (category_tabs_show m (category_tabs_show n pg)))
     = tabs pg ++ [("#category-tabs", Some (Z.of_nat m))].
Proof.
  unfold select_category_tab, select_product_tab, product_tabs_show, category_tabs_show,
    cookie_set, cookie_get.
  cbn [cookies tabs with_tabs with_cookies].
  rewrite !lookup_insert_eq, !parseInt_string_of_nat.
  rewrite !lookup_insert_ne by discriminate.
  repeat split.
Qed.

(** ** Checking all boxes of a kind *)

Lemma elements_each_set s f n :
  elements (each_set s f n) = map (touch s f) (elements n).
Proof.
  induction n as [t|e ks IH] using node_induction; [reflexivity|].
  cbn [each_set elements map]. f_equal.
  induction IH as [|k ks Hk _ IHks]; [reflexivity|].
  cbn [map flat_map]. rewrite map_app, Hk, IHks. reflexivity.
Qed.

(** X4: A click on .delete-all, .select-all-1, .select-all-2 or .select-all
    gives every box of the class it names (delete, select-1, select-2,
    select- followed by the clicked box's value) the checked state of the
    clicked box and leaves every other element as it is; .select-all with
    value 1 or 2 does what .select-all-1 or .select-all-2 does. *)
Theorem check_all_boxes (root : node) (this : path) (e : props) :
  props_at this root = Some e ->
  let tick c x := if hasClass c x then set_checked (checked e) x else x in
  elements (delete_all this root) = map (tick "delete") (elements root)
  /\ elements (select_all_1 this root) = map (tick "select-1") (elements root)
  /\ elements (select_all_2 this root) = map (tick "select-2") (elements root)
  /\ elements (select_all this root)
     = map (tick ("select-" ++ value e)%string) (elements root)
  /\ (value e = "1" -> select_all this root = select_all_1 this root)
  /\ (value e = "2" -> select_all this root = select_all_2 this root).
Proof.
  intros He tick. unfold delete_all, select_all_1, select_all_2, select_all.
  rewrite He. rewrite !elements_each_set.
  repeat split; try reflexivity; intros ->; reflexivity.
Qed.

(** ** More on patching *)

Lemma html_twice s m1 m2 n : html s m2 (html s m1 n) = html s m2 n.
Proof.
  induction n as [t|e ks IH] using node_induction; [reflexivity|].
  cbn [html]. destruct (matches s e) eqn:Hm; cbn [html]; rewrite Hm; [reflexivity|].
  f_equal. rewrite map_map.
  induction IH as [|k ks Hk _ IHks]; [reflexivity|].
  cbn [map]. rewrite Hk, IHks. reflexivity.
Qed.

(** X5: When a reply names the same container, by an id, class or tag
    selector, in two consecutive pairs, applying the list gives the same
    page as applying it without the first of the two: the later markup
    replaces the earlier. *)
Theorem patch_last_pair_wins (l1 l2 : list (string * markup)) (s : string)
    (m1 m2 : markup) (pg : page) :
  simple s = true ->
  patch (l1 ++ (s, m1) :: (s, m2) :: l2) pg = patch (l1 ++ (s, m2) :: l2) pg.
Proof.
  intros _. unfold patch. rewrite !fold_left_app. cbn [fold_left fst snd].
  f_equal. unfold jq_html.
  destruct (fold_left _ l1 pg) as [d c g ca tb n tm nt to rq cf lo].
  unfold with_doc. cbn. rewrite html_twice. reflexivity.
Qed.

Lemma html_no_match s m n : select s n = [] -> html s m n = n.
Proof.
  induction n as [t|e ks IH] using node_induction; [reflexivity|].
  cbn [select html]. destruct (matches s e); [discriminate|].
  cbn [app]. intros H. f_equal.
  induction IH as [|k ks Hk _ IHks]; [reflexivity|].
  cbn [flat_map] in H. apply app_eq_nil in H as [H1 H2].
  cbn [map]. rewrite Hk, IHks by assumption. reflexivity.
Qed.

(** X6: Applying a list of pairs whose selectors are id, class or tag
    selectors none of which matches an element of the document leaves the
    page unchanged; nothing is reported or raised. *)
Theorem patch_absent_containers (l : list (string * markup)) (pg : page) :
  Forall (fun pr => simple (fst pr) = true) l ->
  Forall (fun pr => select (sel (fst pr)) (doc pg) = []) l ->
  patch l pg = pg.
Proof.
  intros _. unfold patch. induction 1 as [|pr l Hpr _ IH]; [reflexivity|].
  cbn [fold_left].
  assert (Hstep : jq_html (fst pr) (Some (snd pr)) pg = pg).
  { unfold jq_html, with_doc. rewrite html_no_match by exact Hpr.
    destruct pg; reflexivity. }
  rewrite Hstep. exact IH.
Qed.

(** ** The named bindings *)

Lemma strip_jq_html ss s m pg :
  In (sel s) ss -> strip ss (doc (jq_html s m pg)) = strip ss (doc pg).
Proof.
  intros Hin. destruct m as [m|]; [|reflexivity].
  cbn [jq_html doc with_doc]. apply strip_html. exact Hin.
Qed.

Ltac filling :=
  cbv delta
    [criterion_save_button price_criterion_save_button category_products_add_button
     category_seo_button product_images_update_button product_data_save_button
     product_categories_save_button variants_add_button variants_update_button
     related_products_update_button seo_save_button price_button product_stock_button
     add_property_button property_group_update_button add_products_button
     products_update_button update_product_values_button shop_property_add_option_button
     shop_property_add_step_button shop_property_save_step_button
     shop_property_save_step_type_button ajax_portlet_save_button add_topseller_button
     topseller_update_button add_featured_button featured_update_button
     shop_default_values_button] beta zeta;
  cbn [doc jGrowl with_growls widget with_calls fst snd map].

(** X7: Each of the 28 bindings that fill containers from named fields of the
    reply changes nothing of the document outside the containers it names,
    whatever the reply holds, and leaves the whole document unchanged when
    the reply has none of the fields. *)
Theorem named_bindings_keep_to_their_containers :
  Forall (fun b => forall data pg,
            strip (map sel (snd b)) (doc (fst b data pg)) = strip (map sel (snd b)) (doc pg))
         binding_containers
  /\ Forall (fun b => forall m pg, doc (fst b (no_fields m) pg) = doc pg) binding_containers.
Proof.
  split.
  - unfold binding_containers.
    repeat (apply List.Forall_cons;
            [intros data pg; filling;
             rewrite ?strip_jq_html by (cbn [In]; tauto); reflexivity|]).
    apply List.Forall_nil.
  - unfold binding_containers.
    repeat (apply List.Forall_cons; [intros m pg; reflexivity|]).
    apply List.Forall_nil.
Qed.

(** ** Equalizers with a column missing *)

Lemma each_set_no_match s f n : select s n = [] -> each_set s f n = n.
Proof.
  induction n as [t|e ks IH] using node_induction; [reflexivity|].
  cbn [select each_set]. destruct (matches s e); [discriminate|].
  cbn [app]. intros H. f_equal.
  induction IH as [|k ks Hk _ IHks]; [reflexivity|].
  cbn [flat_map] in H. apply app_eq_nil in H as [H1 H2].
  cbn [map]. rewrite Hk, IHks by assumption. reflexivity.
Qed.

Lemma height_of_none s n : height_of s n = None -> select s n = [].
Proof. unfold height_of. destruct (select s n); [reflexivity | discriminate]. Qed.

Lemma height_of_each_set_same s h n :
  height_of s (each_set s (set_height h) n) = (fun _ => h) <$> height_of s n.
Proof.
  unfold height_of. rewrite select_each_set_same by (intros; apply matches_set_height).
  destruct (select s n); reflexivity.
Qed.

(** X8: When one of the two columns of an equalizer is absent from the page,
    the present column gets the larger of its own height and 0, the absent
    one stays absent, and when both are absent the document is unchanged. *)
Theorem equalizer_column_missing f sl sr (root : node) :
  equalizer f sl sr ->
  height_of sl root = None \/ height_of sr root = None ->
  height_of sl (f root) = (fun h => Z.max h 0) <$> height_of sl root
  /\ height_of sr (f root) = (fun h => Z.max h 0) <$> height_of sr root
  /\ (height_of sl root = None -> height_of sr root = None -> f root = root).
Proof.
  intros Hf Hmiss. rewrite (equalizer_body f sl sr Hf). unfold equalize.
  assert (Hkeep : forall s s' h, select s root = [] ->
            select s (each_set s' (set_height h) root) = []).
  { intros s s' h Hs. rewrite select_each_set by (intros; apply matches_set_height).
    rewrite Hs. reflexivity. }
  split; [|split].
  - destruct Hmiss as [Hl|Hr].
    + rewrite Hl. unfold height_of.
      rewrite !select_each_set by (intros; apply matches_set_height).
      rewrite (height_of_none _ _ Hl). reflexivity.
    + rewrite Hr. cbn [num default from_option id].
      rewrite each_set_no_match by (apply Hkeep, height_of_none, Hr).
      rewrite height_of_each_set_same.
      destruct (height_of sl root); reflexivity.
  - destruct Hmiss as [Hl|Hr].
    + rewrite Hl. cbn [num default from_option id].
      rewrite (each_set_no_match sl) by (apply height_of_none, Hl).
      rewrite height_of_each_set_same.
      destruct (height_of sr root) as [hr|]; cbn; [f_equal; lia | reflexivity].
    + rewrite Hr. unfold height_of.
      rewrite !select_each_set by (intros; apply matches_set_height).
      rewrite (height_of_none _ _ Hr). reflexivity.
  - intros Hl Hr.
    rewrite (each_set_no_match sl) by (apply height_of_none, Hl).
    apply each_set_no_match, height_of_none, Hr.
Qed.

(** ** update_positions again *)

Lemma bump_again c e : bump c (snd (bump c e)) = bump c e.
Proof. reflexivity. Qed.

Lemma each_acc_bump_again s n :
  forall c, each_acc s bump c (snd (each_acc s bump c n)) = each_acc s bump c n.
Proof.
  induction n as [t|e ks IH] using node_induction; intros c; [reflexivity|].
  cbn [each_acc].
  assert (HF : forall c,
    map_acc (each_acc s bump) c (snd (map_acc (each_acc s bump) c ks))
    = map_acc (each_acc s bump) c ks).
  { clear c. induction IH as [|k ks Hk _ IHks]; intros c; [reflexivity|].
    cbn [map_acc]. specialize (Hk c).
    destruct (each_acc s bump c k) as [sa k'] eqn:Ek. cbn [snd] in Hk.
    specialize (IHks sa).
    destruct (map_acc (each_acc s bump) sa ks) as [sb l''] eqn:El. cbn [snd] in IHks.
    cbn [snd map_acc]. rewrite Hk, IHks. reflexivity. }
  destruct (matches s e) eqn:Hm.
  - change (bump c e) with ((c + 10)%nat, set_value (string_of_nat (c + 10)) e).
    cbv beta iota zeta.
    specialize (HF (c + 10)%nat).
    destruct (map_acc (each_acc s bump) (c + 10) ks) as [st2 ks'] eqn:Ef.
    cbn [snd] in *. cbn [each_acc]. rewrite matches_set_value, Hm.
    change (bump c (set_value (string_of_nat (c + 10)) e))
      with ((c + 10)%nat, set_value (string_of_nat (c + 10)) e).
    cbv beta iota zeta. rewrite HF. reflexivity.
  - specialize (HF c).
    destruct (map_acc (each_acc s bump) c ks) as [st2 ks'] eqn:Ef.
    cbn [snd] in *. cbn [each_acc]. rewrite Hm, HF. reflexivity.
Qed.

Lemma elements_each_acc_bump s n :
  forall c,
    Forall2 (fun a b => b = a \/ (matches s a = true /\ exists v, b = set_value v a))
            (elements n) (elements (snd (each_acc s bump c n))).
Proof.
  induction n as [t|e ks IH] using node_induction; intros c; [constructor|].
  cbn [each_acc].
  assert (HF : forall c,
    Forall2 (fun a b => b = a \/ (matches s a = true /\ exists v, b = set_value v a))
            (flat_map elements ks)
            (flat_map elements (snd (map_acc (each_acc s bump) c ks)))).
  { clear c. induction IH as [|k ks Hk _ IHks]; intros c; [constructor|].
    cbn [map_acc]. specialize (Hk c).
    destruct (each_acc s bump c k) as [sa k'] eqn:Ek. cbn [snd] in Hk.
    specialize (IHks sa).
    destruct (map_acc (each_acc s bump) sa ks) as [sb l''] eqn:El. cbn [snd] in IHks.
    cbn [snd flat_map]. apply Forall2_app; assumption. }
  destruct (matches s e) eqn:Hm.
  - change (bump c e) with ((c + 10)%nat, set_value (string_of_nat (c + 10)) e).
    cbv beta iota zeta. specialize (HF (c + 10)%nat).
    destruct (map_acc (each_acc s bump) (c + 10) ks) as [st2 ks'] eqn:Ef.
    cbn [snd elements] in *. constructor; [|exact HF].
    right. split; [exact Hm|]. eexists. reflexivity.
  - specialize (HF c).
    destruct (map_acc (each_acc s bump) c ks) as [st2 ks'] eqn:Ef.
    cbn [snd elements] in *. constructor; [left; reflexivity | exact HF].
Qed.

(** X9: update_positions is idempotent, and it changes an element only if the
    element has the class position, and then only its value. *)
Theorem update_positions_idempotent (root : node) :
  update_positions (update_positions root) = update_positions root
  /\ Forall2 (fun a b => b = a \/ (hasClass "position" a = true /\ exists v, b = set_value v a))
             (elements root) (elements (update_positions root)).
Proof.
  split.
  - unfold update_positions.
    pose proof (each_acc_bump_again (sel ".position") root 0) as H.
    unfold bump in H. rewrite H. reflexivity.
  - exact (elements_each_acc_bump (sel ".position") root 0).
Qed.

(** ** Export products *)

(** X10: A click on a product box of the export tree changes nothing in the
    document and posts once to the box's data address with action add if
    the box is now checked and remove otherwise; the reply then posts
    once, without parameters, to the data address of every li.category
    ancestor, nearest first, and still changes nothing in the document. *)
Theorem export_product_toggle (pg : page) (this : path) (e : props) :
  props_at this (doc pg) = Some e ->
  let pg1 := export_product_input this pg in
  let pg2 := export_product_success this pg1 in
  doc pg1 = doc pg
  /\ doc pg2 = doc pg
  /\ requests pg1
     = requests pg
       ++ [(now pg, Request "POST" (attr "data" e)
                      [("action", if checked e then "add" else "remove")]
                      (export_product_posted this))]
  /\ requests pg2
     = requests pg1
       ++ map (fun li =>
                 (now pg, Request "POST" (from_option (attr "data") None (props_at li (doc pg)))
                                  [] category_state_received))
              (parents_sel (sel "li.category") this (doc pg)).
Proof.
  intros He pg1 pg2.
  assert (H1 : doc pg1 = doc pg /\ now pg1 = now pg /\
               requests pg1
               = requests pg
                 ++ [(now pg, Request "POST" (attr "data" e)
                                [("action", if checked e then "add" else "remove")]
                                (export_product_posted this))]).
  { subst pg1. unfold export_product_input. rewrite He.
    destruct (checked e); repeat split. }
  destruct H1 as (Hd1 & Hn1 & Hr1).
  destruct (update_parent_fold (parents_sel (sel "li.category") this (doc pg1)) pg1)
    as (Hd2 & _ & Hr2).
  split; [exact Hd1|].
  split; [subst pg2; unfold export_product_success, update_parent_categories;
          rewrite Hd2; exact Hd1|].
  split; [exact Hr1|].
  subst pg2. unfold export_product_success, update_parent_categories.
  rewrite Hr2, Hd1, Hn1. reflexivity.
Qed.

(** ** Rows and their boxes *)

Lemma hasClass_addClass c e : hasClass c (addClass c e) = true.
Proof.
  unfold addClass. destruct (hasClass c e) eqn:H; [exact H|].
  unfold hasClass. cbn [classes set_classes]. rewrite existsb_app. cbn.
  rewrite String.eqb_refl. apply orb_true_r.
Qed.

Lemma hasClass_removeClass c e : hasClass c (removeClass c e) = false.
Proof.
  unfold hasClass, removeClass. cbn [classes set_classes].
  induction (classes e) as [|x l IH]; [reflexivity|].
  cbn [List.filter]. destruct (String.eqb c x) eqn:Hx; cbn [negb]; [exact IH|].
  cbn [existsb]. rewrite Hx, IH. reflexivity.
Qed.

Lemma removeClass_addClass c e : hasClass c e = false -> removeClass c (addClass c e) = e.
Proof.
  intros H. unfold addClass. rewrite H. unfold removeClass, hasClass in *.
  cbn [classes set_classes]. rewrite List.filter_app. cbn [List.filter].
  rewrite String.eqb_refl. cbn [negb]. rewrite app_nil_r.
  assert (Hf : List.filter (fun x => negb (String.eqb c x)) (classes e) = classes e).
  { induction (classes e) as [|x l IH]; [reflexivity|].
    cbn [existsb] in H. apply orb_false_iff in H as [Hx Hl].
    cbn [List.filter]. rewrite Hx. cbn [negb]. rewrite IH by exact Hl. reflexivity. }
  rewrite Hf. destruct e; reflexivity.
Qed.

Lemma hasClass_toggle_mark b e : hasClass "marked" (toggle_mark b e) = b.
Proof. destruct b; [apply hasClass_addClass | apply hasClass_removeClass]. Qed.

Lemma prevAll_each_length s f l : length (prevAll_each s f l) = length l.
Proof.
  induction l as [|[t|e ks] l IH]; [reflexivity | cbn; rewrite IH; reflexivity |].
  cbn [prevAll_each]. destruct (matches s e); [|cbn; rewrite IH; reflexivity].
  destruct (f e ks); [cbn; rewrite IH; reflexivity | reflexivity].
Qed.

Lemma prevAll_at_keeps_row s f q i root :
  node_at (q ++ [i]) (prevAll_at s f (q ++ [i]) root) = node_at (q ++ [i]) root.
Proof.
  unfold prevAll_at. rewrite last_snoc_path, parent_snoc.
  rewrite !node_at_app, node_at_alter_at.
  destruct (node_at q root) as [[t|pe ks]|]; try reflexivity.
  cbn [fmap option_fmap option_map mbind option_bind on_kids node_at].
  destruct (decide (i < length ks)) as [Hlt|Hge].
  - rewrite lookup_app_r; rewrite length_rev, prevAll_each_length, length_rev, length_take;
      [|lia].
    replace (i - i `min` length ks) with 0 by lia.
    rewrite lookup_drop. replace (i + 0) with i by lia. reflexivity.
  - rewrite take_ge, drop_ge by lia. rewrite app_nil_r.
    rewrite (lookup_ge_None_2 ks i) by lia.
    rewrite lookup_ge_None_2; [reflexivity|].
    rewrite length_rev, prevAll_each_length, length_rev. lia.
Qed.

(** X11: After a click on an input.select-1 box, with or without the shift
    key, the table row holding the box has the class marked exactly when
    the box is checked. *)
Theorem row_mark_follows_box (root : node) (this tr : path) (shift : bool)
    (e te : props) (tks : list node) :
  props_at this root = Some e ->
  parents_first (sel "tr") this root = Some tr ->
  node_at tr root = Some (Elem te tks) ->
  props_at tr (select_1 this shift root) = Some (toggle_mark (checked e) te)
  /\ hasClass "marked" (toggle_mark (checked e) te) = checked e.
Proof.
  intros He Htr Hte. split; [|apply hasClass_toggle_mark].
  assert (Hplain : props_at tr (alter_at (on_props (toggle_mark (checked e))) tr root)
                   = Some (toggle_mark (checked e) te)).
  { rewrite props_at_alter_props, decide_True by reflexivity.
    unfold props_at. rewrite Hte. reflexivity. }
  assert (Hshift : forall f,
    props_at tr (prevAll_at (sel "tr") f tr
                   (alter_at (on_props (toggle_mark (checked e))) tr root))
    = Some (toggle_mark (checked e) te)).
  { intros f. rewrite <- Hplain. unfold props_at.
    destruct (last tr) as [i|] eqn:Hi.
    - rewrite (path_snoc tr i Hi). rewrite prevAll_at_keeps_row. reflexivity.
    - unfold prevAll_at. rewrite Hi. reflexivity. }
  unfold select_1. rewrite He, Htr.
  destruct (checked e), shift; first [apply Hshift | apply Hplain].
Qed.

Lemma alter_at_above_commute f g q j r n :
  alter_at f (q ++ j :: r) (alter_at (on_props g) q n)
  = alter_at (on_props g) q (alter_at f (q ++ j :: r) n).
Proof.
  rewrite !alter_at_app, !alter_at_compose. apply alter_at_ext.
  intros [t|e ks] _; reflexivity.
Qed.

Lemma flip_flip this root : flip this (flip this root) = root.
Proof.
  unfold flip. rewrite alter_at_compose. apply alter_at_id.
  intros [t|e ks] _; [reflexivity|]. cbn. destruct e as [? ? ? ? [] ? ? ?]; reflexivity.
Qed.

Lemma parents_first_tag t this root root' :
  (forall q, matches_at (sel t) root' q = matches_at (sel t) root q) ->
  parents_first (sel t) this root' = parents_first (sel t) this root.
Proof.
  intros H. unfold parents_first, parents_sel. f_equal.
  apply List.filter_ext. exact H.
Qed.

Lemma matches_at_flip s this root q :
  matches_at s (flip this root) q = matches_at s root q.
Proof. apply matches_at_alter_props. intros e. apply matches_set_checked. Qed.

Lemma matches_at_mark (tr : path) (b : bool) root q :
  matches_at (sel "tr") (alter_at (on_props (toggle_mark b)) tr root) q
  = matches_at (sel "tr") root q.
Proof.
  apply matches_at_alter_props. intros e.
  destruct b; cbn [toggle_mark]; unfold addClass, removeClass;
    [destruct (hasClass "marked" e)|]; reflexivity.
Qed.

Lemma select_1_plain this root e tr :
  props_at this root = Some e ->
  parents_first (sel "tr") this root = Some tr ->
  select_1 this false root = alter_at (on_props (toggle_mark (checked e))) tr root.
Proof.
  intros He Htr. unfold select_1. rewrite He, Htr. destruct (checked e); reflexivity.
Qed.

(** X12: Two clicks without shift on the box of an unmarked, unchecked row
    restore the document exactly; after the first the row is the old row
    with the class marked added. *)
Theorem plain_click_twice (root : node) (this tr : path) (e te : props)
    (tks : list node) :
  props_at this root = Some e ->
  checked e = false ->
  parents_first (sel "tr") this root = Some tr ->
  node_at tr root = Some (Elem te tks) ->
  hasClass "marked" te = false ->
  let click root := select_1 this false (flip this root) in
  click (click root) = root
  /\ props_at tr (click root) = Some (addClass "marked" te).
Proof.
  intros He Hc Htr Hte Hmk click.
  assert (Hin : In tr (parents this)).
  { unfold parents_first, parents_sel in Htr.
    destruct (List.filter _ (parents this)) as [|x l] eqn:Hf; [discriminate|].
    injection Htr as ->.
    assert (Hx : In tr (List.filter (matches_at (sel "tr") root) (parents this)))
      by (rewrite Hf; left; reflexivity).
    apply filter_In in Hx as [Hx _]. exact Hx. }
  apply parents_spec in Hin as (j & r & Hthis).
  assert (Hne : this <> tr).
  { rewrite Hthis. intros H. apply (f_equal (@length nat)) in H.
    rewrite length_app in H. cbn in H. lia. }
  (* the first click *)
  assert (H1e : props_at this (flip this root) = Some (set_checked true e)).
  { unfold flip. rewrite props_at_alter_props, decide_True, He by reflexivity.
    cbn. rewrite Hc. reflexivity. }
  assert (H1t : parents_first (sel "tr") this (flip this root) = Some tr).
  { rewrite <- Htr. apply parents_first_tag. intros q. apply matches_at_flip. }
  assert (C1 : click root = alter_at (on_props (addClass "marked")) tr (flip this root)).
  { unfold click. rewrite (select_1_plain _ _ _ _ H1e H1t). reflexivity. }
  (* the second click *)
  assert (H2e : props_at this (flip this (click root))
                = Some (set_checked false (set_checked true e))).
  { rewrite C1. unfold flip at 1.
    rewrite props_at_alter_props, decide_True by reflexivity.
    rewrite props_at_alter_props, decide_False by exact Hne.
    rewrite H1e. reflexivity. }
  assert (H2t : parents_first (sel "tr") this (flip this (click root)) = Some tr).
  { rewrite <- H1t. apply parents_first_tag. intros q.
    rewrite matches_at_flip, C1. apply (matches_at_mark tr true). }
  split.
  - unfold click at 1. rewrite (select_1_plain _ _ _ _ H2e H2t). cbn [checked set_checked].
    rewrite C1. cbn [toggle_mark]. unfold flip at 1.
    rewrite Hthis at 1. rewrite alter_at_above_commute. rewrite <- Hthis.
    fold (flip this (flip this root)). rewrite flip_flip.
    rewrite alter_at_compose. apply alter_at_id.
    intros x Hx. rewrite Hte in Hx. injection Hx as <-.
    cbn [compose on_props]. rewrite removeClass_addClass by exact Hmk. reflexivity.
  - rewrite C1. rewrite props_at_alter_props, decide_True by reflexivity.
    unfold flip. rewrite Hthis at 1. rewrite props_at_alter_at_below.
    unfold props_at. rewrite Hte. reflexivity.
Qed.

(** ** More on the confirmation prompt *)

(** X13: Asking for confirmation on a link and answering No can be repeated
    any number of times: each round succeeds and gives back the original
    document and location. *)
Theorem decline_any_number_of_times (pg : page) (this : path) (e : props)
    (ks : list node) (i : nat) :
  node_at this (doc pg) = Some (Elem e ks) ->
  last this = Some i ->
  is_link e ->
  forall n, exists pg',
    Nat.iter n (ask_and_decline this) (Some pg) = Some pg'
    /\ doc pg' = doc pg /\ location pg' = location pg.
Proof.
  intros Hn Hi Hl n. induction n as [|n (pg' & Hit & Hd & Hloc)].
  - exists pg. repeat split.
  - change (Nat.iter (S n) (ask_and_decline this) (Some pg))
      with (ask_and_decline this (Nat.iter n (ask_and_decline this) (Some pg))).
    rewrite Hit. cbn [ask_and_decline].
    rewrite <- Hd in Hn.
    rewrite (click_link pg' this e ks i Hn Hi Hl).
    erewrite click_no;
      [| cbn [doc with_doc with_confirmation]; eapply node_at_const; exact Hn
       | exact Hi | reflexivity].
    eexists. split; [reflexivity|]. cbn [doc with_doc with_confirmation location].
    split; [|exact Hloc].
    rewrite alter_at_const_back by exact Hn. exact Hd.
Qed.

Lemma apart_children (p : path) (i j : nat) : i <> j -> apart (p ++ [i]) (p ++ [j]).
Proof.
  intros Hij. split; intros [k Hk]; rewrite <- app_assoc in Hk;
    apply app_inv_head in Hk; injection Hk as Hk; congruence.
Qed.

(** X14: For a link whose classes, data and href hold nothing the parser reads
    as markup: the text of an open prompt carries the link's classes, so a
    click on it opens a prompt inside the prompt, built from the undefined
    data and href of the text, and overwrites the remembered element;
    answering No then puts the text of the first prompt, not the link,
    where the link was. *)
Theorem prompt_text_is_a_link (pg : page) (this : path) (e : props)
    (ks : list node) (i : nat) :
  node_at this (doc pg) = Some (Elem e ks) ->
  last this = Some i ->
  is_link e ->
  parsed_as_written e ->
  let text := elem "span" (classes e) [] [Text (js_str (attr "data" e))] in
  exists pg1 pg2 pg3,
    click this pg = Some pg1
    /\ click (this ++ [0]%nat) pg1 = Some pg2
    /\ node_at (this ++ [0]%nat) (doc pg2)
       = Some (prompt (classes e) "undefined" "undefined")
    /\ confirmation pg2 = Some (Saved text true)
    /\ click (this ++ [4]%nat) pg2 = Some pg3
    /\ node_at this (doc pg3) = Some text.
Proof.
  intros Hn Hi Hl _ text.
  set (pg1 := with_doc (alter_at (fun _ => prompt_for e) this)
                (with_confirmation (Some (Saved (Elem e ks) true)) pg)).
  assert (H1 : node_at this (doc pg1) = Some (prompt_for e)).
  { cbn [pg1 doc with_doc with_confirmation]. eapply node_at_const. exact Hn. }
  assert (H1t : node_at (this ++ [0]%nat) (doc pg1) = Some text).
  { rewrite node_at_app, H1. reflexivity. }
  assert (Hlt : is_link (plain "span" (classes e) [])) by exact Hl.
  set (pg2 := with_doc (alter_at (fun _ => prompt_for (plain "span" (classes e) []))
                          (this ++ [0]%nat))
                (with_confirmation (Some (Saved text true)) pg1)).
  assert (H2 : exists x, node_at this (doc pg2) = Some x).
  { cbn [pg2 doc with_doc with_confirmation]. rewrite node_at_alter_at_app, H1.
    eexists. reflexivity. }
  destruct H2 as [x H2].
  assert (H2no : props_at (this ++ [4]%nat) (doc pg2)
                 = Some (plain "a" ["confirmation-link-no"] [("href", "")])).
  { unfold props_at. cbn [pg2 doc with_doc with_confirmation].
    rewrite node_at_alter_at_apart by (apply apart_children; discriminate).
    fold (doc pg1). rewrite node_at_app, H1. reflexivity. }
  exists pg1, pg2. eexists.
  split; [eapply click_link; eassumption|].
  split; [eapply click_link; [exact H1t | apply last_snoc_path | exact Hlt]|].
  split; [cbn [pg2 doc with_doc with_confirmation]; eapply node_at_const; exact H1t|].
  split; [reflexivity|].
  split.
  - unfold click, matches_at. rewrite H2no.
    change (matches (sel ".confirmation-link-no") _) with true. cbv iota.
    unfold confirmation_link_no. rewrite last_snoc_path, parent_snoc.
    change (confirmation pg2) with (Some (Saved text true)). cbv iota. rewrite Hi.
    reflexivity.
  - cbn [doc with_doc with_confirmation].
    rewrite (replaceWith_single this i x) by assumption.
    eapply node_at_const. exact H2.
Qed.

(** ** Deleting a criterion *)

Lemma flat_map_sublist {A B} (f : A -> list B) (l1 l2 : list A) :
  l1 `sublist_of` l2 -> flat_map f l1 `sublist_of` flat_map f l2.
Proof.
  induction 1 as [|x l1 l2 _ IH|x l1 l2 _ IH]; cbn [flat_map].
  - constructor.
  - apply sublist_app; [reflexivity | exact IH].
  - apply sublist_inserts_l. exact IH.
Qed.

Lemma flat_map_alter_sublist {B} (f : node -> list B) (g : node -> node) ks :
  (forall k, f (g k) `sublist_of` f k) ->
  forall i, flat_map f (alter g i ks) `sublist_of` flat_map f ks.
Proof.
  intros Hg. induction ks as [|k ks IH]; intros i; [reflexivity|].
  destruct i as [|i]; cbn [alter list_alter flat_map].
  - apply sublist_app; [apply Hg | reflexivity].
  - apply sublist_app; [reflexivity | apply IH].
Qed.

Lemma select_alter_sublist s f p :
  (forall x, select s (f x) `sublist_of` select s x) ->
  forall n, select s (alter_at f p n) `sublist_of` select s n.
Proof.
  intros Hf. induction p as [|i p IH]; intros n; [apply Hf|].
  cbn [alter_at]. destruct n as [t|e ks]; [reflexivity|].
  cbn [on_kids select]. apply sublist_app; [reflexivity|].
  apply flat_map_alter_sublist. exact IH.
Qed.

Lemma select_remove_sublist s x root :
  select s (remove x root) `sublist_of` select s root.
Proof.
  unfold remove. destruct (last x) as [i|]; [|reflexivity].
  apply select_alter_sublist. intros [t|e ks]; [reflexivity|].
  cbn [on_kids select]. apply sublist_app; [reflexivity|].
  apply flat_map_sublist. apply sublist_delete.
Qed.

(** X15: A click on a criterion's delete button removes the nearest
    tr.criterion row from its parent and nothing else: for every selector
    the elements matched afterwards are a sublist, in order, of those
    matched before (no position is renumbered), and without such a row the
    document is unchanged. *)
Theorem criterion_delete_only_removes (root : node) (this : path) :
  (forall s, select s (criterion_delete_button this root) `sublist_of` select s root)
  /\ (forall tr i pe ks,
        parents_first (sel "tr.criterion") this root = Some tr ->
        last tr = Some i ->
        node_at (parent tr) root = Some (Elem pe ks) ->
        node_at (parent tr) (criterion_delete_button this root)
        = Some (Elem pe (delete i ks)))
  /\ (parents_first (sel "tr.criterion") this root = None ->
      criterion_delete_button this root = root).
Proof.
  unfold criterion_delete_button. split; [|split].
  - intros s. destruct (parents_first _ this root); [|reflexivity].
    apply select_remove_sublist.
  - intros tr i pe ks -> Hi Hp. unfold remove. rewrite Hi.
    rewrite node_at_alter_at, Hp. reflexivity.
  - intros ->. reflexivity.
Qed.

(** ** More on the debounced filter *)

Lemma pending_fires pg0 this fp t v pg T :
  debounced_field (doc pg0) this fp ->
  pending pg0 this fp t v pg ->
  (t + 500 <= T)%Z ->
  exists fe fks,
    node_at fp (doc pg) = Some (Elem fe fks)
    /\ run_until T pg
       = with_now T (with_timers (fun _ => [])
           (send (submission fe fks) (with_now (t + 500) pg)))
    /\ (forall e name, props_at this (doc pg0) = Some e ->
          successful e = [(name, value e)] -> In (name, v) (serialize (Elem fe fks))).
Proof.
  intros Hf (id & Htm & Hto & Hnow & Hr & Hd) HT.
  destruct Hf as (_ & _ & Hform).
  assert (Hfp : In fp (parents_sel (sel "form") this (doc pg0))).
  { unfold parents_first in Hform.
    destruct (parents_sel (sel "form") this (doc pg0)) as [|x l]; [discriminate|].
    injection Hform as ->. left. reflexivity. }
  unfold parents_sel in Hfp. apply filter_In in Hfp as [Hpar Hm].
  apply parents_spec in Hpar as (j & r & Hthis).
  unfold matches_at, props_at in Hm.
  destruct (node_at fp (doc pg0)) as [[tx|fe fks0]|] eqn:Hn0; try discriminate.
  assert (Hn1 : node_at fp (doc pg)
                = Some (alter_at (on_props (set_value v)) (j :: r) (Elem fe fks0))).
  { rewrite Hd. rewrite Hthis at 1. rewrite node_at_alter_at_app, Hn0. reflexivity. }
  destruct (elem_alter_at (on_props (set_value v)) j r fe fks0) as [fks Hfks].
  rewrite Hfks in Hn1.
  exists fe, fks. split; [exact Hn1|]. split.
  - unfold run_until. rewrite Htm. cbn [run_due due].
    replace (t + 500 <=? T)%Z with true by (symmetry; apply Z.leb_le; lia).
    unfold fire. cbn [form due]. rewrite Hnow.
    replace (Z.max t (t + 500)) with (t + 500)%Z by lia.
    unfold ajaxSubmit. cbn [doc with_now]. rewrite Hn1.
    cbn [now send with_requests with_now from_option]. f_equal. lia.
  - intros e name He Hname.
    assert (Hthis_node : exists eks, node_at (j :: r) (Elem fe fks)
                                     = Some (Elem (set_value v e) eks)).
    { rewrite <- Hfks, node_at_alter_at.
      unfold props_at in He. rewrite Hthis, node_at_app, Hn0 in He.
      cbn [mbind option_bind] in He.
      destruct (node_at (j :: r) (Elem fe fks0)) as [[tx|e' eks]|];
        try discriminate He.
      injection He as ->. exists eks. reflexivity. }
    destruct Hthis_node as [eks Heks].
    eapply serialize_in; [exact Heks|].
    rewrite (successful_set_value v e name Hname). left. reflexivity.
Qed.

Lemma keyups_app this l1 l2 pg :
  keyups this (l1 ++ l2) pg = keyups this l2 (keyups this l1 pg).
Proof. unfold keyups. apply fold_left_app. Qed.

Lemma debounced_field_elsewhere v a root this fp :
  debounced_field root this fp ->
  debounced_field (alter_at (on_props (set_value v)) a root) this fp.
Proof.
  intros (H1 & H2 & H3). unfold debounced_field.
  rewrite !matches_at_alter_props by (intros; apply matches_set_value).
  split; [exact H1|]. split.
  - eapply Forall_impl; [exact H2|]. intros b Hb. cbv beta.
    rewrite matches_at_alter_props by (intros; apply matches_set_value). exact Hb.
  - unfold parents_first, parents_sel in *. rewrite <- H3. f_equal.
    apply List.filter_ext. intros q.
    apply matches_at_alter_props. intros; apply matches_set_value.
Qed.

Lemma key_reschedules pg0 this fp t v pg :
  debounced_field (doc pg0) this fp ->
  doc pg = alter_at (on_props (set_value v)) this (doc pg0) ->
  requests pg = requests pg0 ->
  now pg = t ->
  (timers pg = [] \/ exists id d f, timers pg = [Timer id d f] /\ timeout pg = Some id) ->
  pending pg0 this fp t v (dispatch keyup_bindings this pg).
Proof.
  intros Hf Hd Hr Hn Htm.
  pose proof (debounced_field_typed v _ _ _ Hf) as (H1 & H2 & H3).
  rewrite <- Hd in H1, H2, H3.
  unfold immediate_filters in H2. apply Forall_app in H2 as [Hb Ha].
  unfold keyup_bindings. rewrite !dispatch_app, (dispatch_skip filters_before) by exact Hb.
  assert (Hone : dispatch [(".products-name-filter", products_name_filter)] this pg
                 = products_name_filter this pg).
  { unfold dispatch. cbn [fold_left fst snd]. rewrite H1. reflexivity. }
  rewrite Hone.
  assert (Hdoc : doc (products_name_filter this pg) = doc pg).
  { unfold products_name_filter. destruct (timeout pg); reflexivity. }
  rewrite dispatch_skip by (rewrite Hdoc; exact Ha).
  unfold products_name_filter. rewrite H3.
  destruct pg as [d c g ca tb n tm nt to rq cf lo].
  cbn [doc requests now timers timeout] in *. subst.
  exists nt.
  destruct Htm as [->|(id & due0 & f & -> & ->)].
  - destruct to as [id|]; cbn; repeat split; reflexivity.
  - cbn. rewrite Nat.eqb_refl. cbn. repeat split; reflexivity.
Qed.

Lemma run_until_waits t' id d f pg :
  timers pg = [Timer id d f] -> (now pg <= t' < d)%Z -> run_until t' pg = with_now t' pg.
Proof.
  intros Ht Hlt. unfold run_until. rewrite Ht. cbn [run_due due].
  replace (d <=? t')%Z with false by (symmetry; apply Z.leb_gt; lia).
  replace (Z.max (now pg) t') with t' by lia.
  destruct pg; cbn in *; subst; reflexivity.
Qed.

Lemma run_until_idle t pg :
  timers pg = [] -> (now pg <= t)%Z -> run_until t pg = with_now t pg.
Proof.
  intros Ht Hn. unfold run_until. rewrite Ht. cbn [run_due].
  replace (Z.max (now pg) t) with t by lia.
  destruct pg; cbn in *; subst; reflexivity.
Qed.

(** X16: The pending submission is shared by all .products-name-filter fields:
    a key in one field followed within 500 ms by a key in another sends
    exactly one request, 500 ms after the second key and for the second
    field's form; the first field's form is never submitted. *)
Theorem one_timer_for_all_fields (pg0 : page) (a b fa fb : path)
    (ta tb T : Z) (va vb : string) :
  timers pg0 = [] ->
  debounced_field (doc pg0) a fa ->
  debounced_field (doc pg0) b fb ->
  (now pg0 <= ta)%Z ->
  (ta <= tb < ta + 500)%Z ->
  (tb + 500 <= T)%Z ->
  let pg := run_until T (keyup tb b vb (keyup ta a va pg0)) in
  exists fe fks,
    node_at fb (doc pg) = Some (Elem fe fks)
    /\ requests pg = requests pg0 ++ [((tb + 500)%Z, submission fe fks)].
Proof.
  intros Ht Ha Hb Hn Hab HT pg.
  pose proof (first_key pg0 a fa ta va Ha Ht Hn) as Hpa.
  set (pgA := keyup ta a va pg0) in *.
  destruct Hpa as (id & Htm & Hto & Hnow & Hr & Hd).
  assert (Hbase : debounced_field (doc pgA) b fb).
  { rewrite Hd. apply debounced_field_elsewhere. exact Hb. }
  assert (Hpb : pending pgA b fb tb vb (keyup tb b vb pgA)).
  { unfold keyup. rewrite (run_until_waits tb id (ta + 500) (Some fa)) by (auto; lia).
    apply key_reschedules; try reflexivity; [exact Hbase|].
    right. exists id, (ta + 500)%Z, (Some fa). split; assumption. }
  destruct (pending_fires pgA b fb tb vb _ T Hbase Hpb HT) as (fe & fks & Hnode & Hrun & _).
  destruct Hpb as (id' & _ & _ & _ & Hr' & _).
  exists fe, fks. subst pg. rewrite Hrun.
  cbn [doc with_now with_timers send with_requests requests now].
  split; [exact Hnode|]. rewrite Hr', Hr. reflexivity.
Qed.

(** X17: Two bursts of keys in a .products-name-filter field, each with gaps
    under 500 ms and separated by a pause of more than 500 ms, send
    exactly two requests, 500 ms after the last key of each burst, each
    carrying the field's value as of that key. *)
Theorem one_request_per_burst (pg0 : page) (this fp : path) (e : props)
    (t1 t2 T : Z) (v1 v2 : string) (rest1 rest2 : list (Z * string)) :
  timers pg0 = [] ->
  props_at this (doc pg0) = Some e ->
  debounced_field (doc pg0) this fp ->
  (now pg0 <= t1)%Z ->
  spaced t1 rest1 ->
  let ta := fst (List.last rest1 (t1, v1)) in
  let va := snd (List.last rest1 (t1, v1)) in
  (ta + 500 < t2)%Z ->
  spaced t2 rest2 ->
  let tb := fst (List.last rest2 (t2, v2)) in
  let vb := snd (List.last rest2 (t2, v2)) in
  (tb + 500 <= T)%Z ->
  let pg := run_until T (keyups this (((t1, v1) :: rest1) ++ (t2, v2) :: rest2) pg0) in
  exists r1 r2,
    requests pg = requests pg0 ++ [((ta + 500)%Z, r1); ((tb + 500)%Z, r2)]
    /\ (forall name, successful e = [(name, value e)] ->
          In (name, va) (params r1) /\ In (name, vb) (params r2)).
Proof.
  intros Ht He Hf Hn Hs1 ta va Hgap Hs2 tb vb HT pg.
  (* the first burst *)
  assert (Hp1 : pending pg0 this fp ta va (keyups this ((t1, v1) :: rest1) pg0)).
  { subst ta va. cbn [keyups fold_left fst snd].
    apply (keys_pending pg0 this fp rest1 Hf t1 v1); [|exact Hs1].
    apply first_key; assumption. }
  set (pgA := keyups this ((t1, v1) :: rest1) pg0) in *.
  destruct (pending_fires pg0 this fp ta va pgA t2 Hf Hp1 ltac:(lia))
    as (fe1 & fks1 & _ & Hrun1 & Hin1).
  destruct Hp1 as (id1 & Htm1 & Hto1 & Hnow1 & Hr1 & Hd1).
  set (pgM := run_until t2 pgA) in *.
  assert (HM : timers pgM = [] /\ now pgM = t2
               /\ doc pgM = alter_at (on_props (set_value va)) this (doc pg0)
               /\ requests pgM = requests pg0 ++ [((ta + 500)%Z, submission fe1 fks1)]).
  { rewrite Hrun1. cbn [timers now doc requests with_now with_timers send with_requests].
    rewrite Hd1, Hr1. repeat split. }
  destruct HM as (HMt & HMn & HMd & HMr).
  (* the second burst starts from the page the first one left *)
  assert (Hkey : keyup t2 this v2 pgA = keyup t2 this v2 pgM).
  { unfold keyup. f_equal. f_equal. subst pgM. rewrite Hrun1.
    unfold run_until. cbn [timers with_now with_timers send with_requests run_due now].
    rewrite Z.max_id. reflexivity. }
  assert (HfM : debounced_field (doc pgM) this fp).
  { rewrite HMd. apply debounced_field_typed. exact Hf. }
  assert (Hp2 : pending pgM this fp tb vb
                  (keyups this ((t2, v2) :: rest2) pgA)).
  { subst tb vb. cbn [keyups fold_left fst snd]. rewrite Hkey.
    apply (keys_pending pgM this fp rest2 HfM t2 v2); [|exact Hs2].
    apply first_key; [exact HfM | exact HMt | lia]. }
  destruct (pending_fires pgM this fp tb vb _ T HfM Hp2 HT)
    as (fe2 & fks2 & _ & Hrun2 & Hin2).
  destruct Hp2 as (id2 & _ & _ & _ & Hr2 & _).
  exists (submission fe1 fks1), (submission fe2 fks2).
  subst pg. rewrite keyups_app. fold pgA. rewrite Hrun2.
  cbn [requests with_now with_timers send with_requests now].
  split; [rewrite Hr2, HMr, <- app_assoc; reflexivity|].
  intros name Hname. split; [apply (Hin1 e name He Hname)|].
  apply (Hin2 (set_value va e) name).
  - rewrite HMd, props_at_alter_props, decide_True, He by reflexivity. reflexivity.
  - apply (successful_set_value va e name Hname).
Qed.

(** ** The category tree links *)

Lemma hasClass_addClass_other c c' e :
  c <> c' -> hasClass c (addClass c' e) = hasClass c e.
Proof.
  intros Hc. unfold addClass. destruct (hasClass c' e); [reflexivity|].
  unfold hasClass. cbn [classes set_classes]. rewrite existsb_app. cbn [existsb].
  destruct (String.eqb_spec c c'); [contradiction|]. rewrite !orb_false_r. reflexivity.
Qed.

Lemma hasClass_removeClass_other c c' e :
  c <> c' -> hasClass c (removeClass c' e) = hasClass c e.
Proof.
  intros Hc. unfold hasClass, removeClass. cbn [classes set_classes].
  induction (classes e) as [|x l IH]; [reflexivity|]. cbn [List.filter existsb].
  destruct (String.eqb_spec c' x) as [->|Hx]; cbn [negb existsb].
  - destruct (String.eqb_spec c x); [contradiction|]. exact IH.
  - rewrite IH. reflexivity.
Qed.

Lemma attr_addClass a c e : attr a (addClass c e) = attr a e.
Proof. unfold addClass. destruct (hasClass c e); reflexivity. Qed.

Lemma node_at_siblings_html s m x root : node_at x (siblings_html s m x root) = node_at x root.
Proof.
  unfold siblings_html. destruct (last x) as [i|] eqn:Hl; [|reflexivity].
  rewrite (path_snoc _ _ Hl) at 1 3. rewrite !node_at_app, node_at_alter_at.
  destruct (node_at (parent x) root) as [[t|pe pks]|]; try reflexivity.
  cbn [fmap option_fmap option_map on_kids mbind option_bind node_at].
  rewrite list_lookup_imap. destruct (pks !! i) as [k|]; [|reflexivity].
  cbn [fmap option_fmap option_map]. rewrite decide_True by reflexivity. reflexivity.
Qed.

Lemma node_at_siblings_html_other s m q i j root se sks :
  i <> j -> node_at (q ++ [j]) root = Some (Elem se sks) ->
  node_at (q ++ [j]) (siblings_html s m (q ++ [i]) root)
  = Some (if matches s se then Elem se m else Elem se sks).
Proof.
  intros Hij Hj. unfold siblings_html. rewrite last_snoc_path, parent_snoc.
  rewrite node_at_app in Hj |- *. rewrite node_at_alter_at.
  destruct (node_at q root) as [[t|pe pks]|]; try discriminate Hj.
  cbn [fmap option_fmap option_map on_kids mbind option_bind node_at] in Hj |- *.
  rewrite list_lookup_imap. destruct (pks !! j) as [k|]; [|discriminate Hj].
  injection Hj as ->. cbn [fmap option_fmap option_map].
  rewrite decide_False by congruence. reflexivity.
Qed.

(** X18: A click on a .category-ajax-link leaves the link with exactly one of
    the classes collapsed and expanded: expanded if it had collapsed
    before, collapsed otherwise. It posts once, to the link's href,
    exactly when the link was collapsed, and keeps the href. *)
Theorem category_ajax_link_alternates (root : node) (this : path) (e : props) :
  props_at this root = Some e ->
  let result := category_ajax_link_click this root in
  exists e',
    props_at this (fst result) = Some e'
    /\ hasClass "collapsed" e' = negb (hasClass "collapsed" e)
    /\ hasClass "expanded" e' = hasClass "collapsed" e
    /\ attr "href" e' = attr "href" e
    /\ snd result = if hasClass "collapsed" e then [attr "href" e] else [].
Proof.
  intros He result. subst result. unfold category_ajax_link_click. rewrite He.
  destruct (hasClass "collapsed" e) eqn:Hc; cbn [fst snd negb].
  - exists (addClass "expanded" (removeClass "collapsed" e)).
    rewrite !props_at_alter_props, !decide_True by reflexivity. rewrite He.
    split; [reflexivity|].
    split; [rewrite hasClass_addClass_other by discriminate; apply hasClass_removeClass|].
    split; [apply hasClass_addClass|].
    split; [|reflexivity]. rewrite attr_addClass. reflexivity.
  - exists (addClass "collapsed" (removeClass "expanded" e)).
    rewrite !props_at_alter_props, !decide_True by reflexivity.
    unfold props_at at 1. rewrite node_at_siblings_html. fold (props_at this root). rewrite He.
    split; [reflexivity|].
    split; [apply hasClass_addClass|].
    split; [rewrite hasClass_addClass_other by discriminate; apply hasClass_removeClass|].
    split; [|reflexivity]. rewrite attr_addClass. reflexivity.
Qed.

(** X19: A click on a .category-ajax-link that is not collapsed posts nothing,
    empties every div sibling of the link and leaves its other siblings as
    they are. *)
Theorem category_ajax_link_collapse (root : node) (q : path) (i j : nat)
    (e se : props) (sks : list node) :
  props_at (q ++ [i]) root = Some e ->
  hasClass "collapsed" e = false ->
  i <> j ->
  node_at (q ++ [j]) root = Some (Elem se sks) ->
  let result := category_ajax_link_click (q ++ [i]) root in
  node_at (q ++ [j]) (fst result) = Some (if String.eqb (tag se) "div" then Elem se [] else Elem se sks)
  /\ snd result = [].
Proof.
  intros He Hc Hij Hj result. subst result. unfold category_ajax_link_click.
  rewrite He, Hc. cbn [fst snd]. split; [|reflexivity].
  rewrite !node_at_alter_at_apart by (apply apart_children; exact Hij).
  apply (node_at_siblings_html_other (sel "div") [] q i j root se sks Hij Hj).
Qed.

(** ** The property form *)

Lemma props_at_fold_alter g (l : list path) :
  (forall e, g (g e) = g e) ->
  forall q root,
    props_at q (fold_left (fun root p => alter_at (on_props g) p root) l root)
    = if bool_decide (q ∈ l) then g <$> props_at q root else props_at q root.
Proof.
  intros Hg. induction l as [|p l IH]; intros q root; [reflexivity|].
  cbn [fold_left]. rewrite IH, props_at_alter_props.
  destruct (decide (q = p)) as [->|Hqp].
  - rewrite (bool_decide_eq_true_2 (p ∈ p :: l)) by apply list_elem_of_here.
    destruct (bool_decide (p ∈ l)); [|reflexivity].
    destruct (props_at p root); [|reflexivity]. cbn. rewrite Hg. reflexivity.
  - destruct (decide (q ∈ l)) as [Hin|Hin].
    + rewrite !bool_decide_eq_true_2; [reflexivity | apply list_elem_of_further, Hin | exact Hin].
    + rewrite !bool_decide_eq_false_2; [reflexivity | | exact Hin].
      intros H. apply elem_of_cons in H as [H|H]; contradiction.
Qed.

Lemma flat_imap_alter {A B} (G : nat -> A -> list B) (F : A -> A) :
  (forall j x, G j (F x) = G j x) ->
  forall ks i k, flat_imap G k (alter F i ks) = flat_imap G k ks.
Proof.
  intros H. induction ks as [|x ks IH]; intros i k; [reflexivity|].
  destruct i as [|i]; cbn [alter list_alter flat_imap].
  - rewrite H. reflexivity.
  - rewrite IH. reflexivity.
Qed.

Lemma select_paths_alter_props s g p :
  (forall e, matches s (g e) = matches s e) ->
  forall n, select_paths s (alter_at (on_props g) p n) = select_paths s n.
Proof.
  intros Hg. induction p as [|i p IH]; intros n.
  - destruct n as [t|e ks]; [reflexivity|]. cbn [alter_at on_props select_paths].
    rewrite Hg. reflexivity.
  - destruct n as [t|e ks]; [reflexivity|]. cbn [alter_at on_kids select_paths].
    f_equal. apply flat_imap_alter. intros j x. rewrite IH. reflexivity.
Qed.

Lemma matches_set_hidden' s b e : matches s (set_hidden b e) = matches s e.
Proof. destruct s; reflexivity. Qed.

Lemma select_paths_fold_hidden s b (l : list path) :
  forall root,
    select_paths s (fold_left (fun root p => alter_at (on_props (set_hidden b)) p root) l root)
    = select_paths s root.
Proof.
  induction l as [|p l IH]; intros root; [reflexivity|]. cbn [fold_left].
  rewrite IH. apply select_paths_alter_props, matches_set_hidden'.
Qed.

Lemma matches_at_fold_hidden s b (l : list path) q :
  forall root,
    matches_at s (fold_left (fun root p => alter_at (on_props (set_hidden b)) p root) l root) q
    = matches_at s root q.
Proof.
  induction l as [|p l IH]; intros root; [reflexivity|]. cbn [fold_left].
  rewrite IH. apply matches_at_alter_props, matches_set_hidden'.
Qed.

Lemma props_at_parents_hidden s a b root x q :
  head (select_paths (sel s) root) = Some x ->
  props_at q (parents_hidden s a b root)
  = if bool_decide (q ∈ parents_sel (sel a) x root)
    then set_hidden b <$> props_at q root else props_at q root.
Proof.
  intros Hx. unfold parents_hidden. rewrite Hx.
  apply props_at_fold_alter. intros e. reflexivity.
Qed.

Lemma parents_hidden_again s a b c root q :
  props_at q (parents_hidden s a c (parents_hidden s a b root))
  = props_at q (parents_hidden s a c root).
Proof.
  destruct (head (select_paths (sel s) root)) as [x|] eqn:Hx.
  - assert (Hx' : head (select_paths (sel s) (parents_hidden s a b root)) = Some x).
    { unfold parents_hidden. rewrite Hx, select_paths_fold_hidden. exact Hx. }
    rewrite (props_at_parents_hidden _ _ _ _ x q Hx').
    rewrite !(props_at_parents_hidden _ _ _ _ x q Hx).
    assert (HL : parents_sel (sel a) x (parents_hidden s a b root)
                 = parents_sel (sel a) x root).
    { unfold parents_sel, parents_hidden. rewrite Hx. apply List.filter_ext.
      intros p. apply matches_at_fold_hidden. }
    rewrite HL. destruct (bool_decide _); [|reflexivity].
    destruct (props_at q root); reflexivity.
  - unfold parents_hidden at 2. rewrite Hx. reflexivity.
Qed.

(** X20: toggle_no_results and toggle_required set the visibility of exactly
    the ancestors with class field of #id_display_no_results and
    #id_required: shown when the box is checked, hidden when it is not;
    every other element keeps its properties. *)
Theorem toggles_reach_the_field (checked : bool) (root : node) (x y q : path) :
  head (select_paths (sel "#id_display_no_results") root) = Some x ->
  head (select_paths (sel "#id_required") root) = Some y ->
  props_at q (toggle_no_results checked root)
  = (if bool_decide (q ∈ parents_sel (sel ".field") x root)
     then set_hidden (negb checked) <$> props_at q root else props_at q root)
  /\ props_at q (toggle_required checked root)
     = (if bool_decide (q ∈ parents_sel (sel ".field") y root)
        then set_hidden (negb checked) <$> props_at q root else props_at q root).
Proof.
  intros Hx Hy. unfold toggle_no_results, toggle_required.
  destruct checked; split; apply props_at_parents_hidden; assumption.
Qed.

(** X21: After two calls of toggle_no_results, or of toggle_required, every
    element has the properties the second call alone gives it: what is
    shown depends only on the last state of the box. *)
Theorem toggles_last_wins (a b : bool) (root : node) (q : path) :
  props_at q (toggle_no_results b (toggle_no_results a root))
  = props_at q (toggle_no_results b root)
  /\ props_at q (toggle_required b (toggle_required a root))
     = props_at q (toggle_required b root).
Proof.
  unfold toggle_no_results, toggle_required.
  destruct a, b; split; apply parents_hidden_again.
Qed.

(** ** Image upload fields *)

Lemma split_underscore_plain s : no_underscore s = true -> split_underscore s = [s].
Proof.
  induction s as [|c s IH]; [reflexivity|]. cbn [no_underscore split_underscore].
  intros H. apply andb_prop in H as [Hc Hs]. apply negb_true_iff in Hc.
  rewrite Hc, (IH Hs). reflexivity.
Qed.

Lemma split_underscore_app p s :
  no_underscore p = true ->
  split_underscore (p ++ "_" ++ s) = p :: split_underscore s.
Proof.
  induction p as [|c p IH]; [reflexivity|]. cbn [no_underscore].
  intros H. apply andb_prop in H as [Hc Hp]. apply negb_true_iff in Hc.
  change (String c p ++ "_" ++ s)%string with (String c (p ++ "_" ++ s)).
  cbn [split_underscore]. rewrite Hc, (IH Hp). reflexivity.
Qed.

Lemma no_underscore_uint d : no_underscore (NilEmpty.string_of_uint d) = true.
Proof. induction d; cbn; auto. Qed.

Lemma no_underscore_string_of_nat n : no_underscore (string_of_nat n) = true.
Proof.
  unfold string_of_nat, NilZero.string_of_uint.
  destruct (Nat.to_uint n) eqn:E; try reflexivity; rewrite <- E; apply no_underscore_uint.
Qed.

Lemma number_string_succ n :
  number_string ((fun z => z + 1)%Z <$> Some (Z.of_nat n)) = string_of_nat (S n).
Proof.
  cbn [fmap option_fmap option_map number_string].
  destruct (Z.ltb_spec (Z.of_nat n + 1) 0); [lia|].
  f_equal. lia.
Qed.

(** X22: A change of the last .upload-file field, named by a prefix without
    underscore, an underscore and a number n below 2^53, adds right after
    the field's parent a div holding one new file input of class
    upload-file named file_ followed by n + 1, whatever the prefix was. *)
Theorem upload_file_next_number (root : node) (this : path) (e : props)
    (p : string) (n : nat) :
  last (select_paths (sel ".upload-file") root) = Some this ->
  props_at this root = Some e ->
  no_underscore p = true ->
  attr "name" e = Some (p ++ "_" ++ string_of_nat n)%string ->
  (Z.of_nat n < 2 ^ 53)%Z ->
  upload_file this root
  = after (parent this)
      [ elem "div" [] []
          [ elem "input" ["upload-file"]
              [("type", "file"); ("name", ("file_" ++ string_of_nat (S n))%string)] [] ] ]
      root.
Proof.
  intros Hlast He Hp Hname _. unfold upload_file.
  rewrite bool_decide_eq_true_2 by exact Hlast. rewrite He, Hname.
  cbn [default from_option id]. rewrite (split_underscore_app _ _ Hp).
  rewrite (split_underscore_plain _ (no_underscore_string_of_nat n)).
  change ((p :: [string_of_nat n]) !! 1%nat) with (Some (string_of_nat n)).
  change (js_str (Some (string_of_nat n))) with (string_of_nat n).
  rewrite parseInt_string_of_nat, number_string_succ. reflexivity.
Qed.

(** X23: A change of the last .upload-file field whose name holds no
    underscore adds a field named file_NaN; a field without a name
    attribute counts as named by the empty string and gets the same. *)
Theorem upload_file_without_number (root : node) (this : path) (e : props) :
  last (select_paths (sel ".upload-file") root) = Some this ->
  props_at this root = Some e ->
  no_underscore (default "" (attr "name" e)) = true ->
  upload_file this root
  = after (parent this)
      [ elem "div" [] []
          [ elem "input" ["upload-file"] [("type", "file"); ("name", "file_NaN")] [] ] ]
      root.
Proof.
  intros Hlast He Hp. unfold upload_file.
  rewrite bool_decide_eq_true_2 by exact Hlast. rewrite He.
  rewrite (split_underscore_plain _ Hp). reflexivity.
Qed.

(** ** The further properties on the sample documents *)

(** The box in the head of the sample table checks the first column. *)
Lemma check_all_boxes_witness :
  let this := [0; 0; 0; 0]%nat in
  let e := box ["select-all"] [] true "1" in
  props_at this sample_boxes = Some e /\
  select_all this sample_boxes = select_all_1 this sample_boxes.
Proof.
  intros this e.
  assert (H : props_at this sample_boxes = Some e) by reflexivity.
  split; [exact H|].
  exact (proj1 (proj2 (proj2 (proj2 (proj2 (check_all_boxes sample_boxes this e H))))) eq_refl).
Defined.

(** A reply that fills the container of the sample products page twice. *)
Lemma patch_last_pair_wins_witness :
  let s := "#products-inline" in
  let pg := load sample_inline ∅ in
  simple s = true /\
  patch ([] ++ (s, [Text "first"]) :: (s, [Text "second"]) :: []) pg
  = patch ([] ++ (s, [Text "second"]) :: []) pg.
Proof.
  intros s pg.
  assert (H : simple s = true) by reflexivity.
  split; [exact H|].
  exact (patch_last_pair_wins [] [] s [Text "first"] [Text "second"] pg H).
Defined.

(** A reply for a container the sample table does not have. *)
Lemma patch_absent_containers_witness :
  let l := [("#products-inline", [Text "none"])] in
  let pg := load sample_table ∅ in
  Forall (fun pr => simple (fst pr) = true) l /\
  Forall (fun pr => select (sel (fst pr)) (doc pg) = []) l /\
  patch l pg = pg.
Proof.
  intros l pg.
  assert (Hs : Forall (fun pr => simple (fst pr) = true) l)
    by (constructor; [reflexivity | constructor]).
  assert (H : Forall (fun pr => select (sel (fst pr)) (doc pg) = []) l)
    by (constructor; [reflexivity | constructor]).
  split; [exact Hs|]. split; [exact H|]. exact (patch_absent_containers l pg Hs H).
Defined.

(** The equalizer on a page with the left column only. *)
Lemma equalizer_column_missing_witness :
  let f := align_buttons "#featured" in
  let sl := sel "#featured-left" in
  let sr := sel "#featured-right" in
  height_of sr sample_one_column = None /\
  height_of sl (f sample_one_column) = Some 120%Z /\
  height_of sr (f sample_one_column) = None.
Proof.
  intros f sl sr.
  assert (H : height_of sl sample_one_column = None \/ height_of sr sample_one_column = None)
    by (right; reflexivity).
  split; [reflexivity|].
  pose proof (equalizer_column_missing f sl sr sample_one_column
                (equalizer_buttons "#featured") H) as (Hl & Hr & _).
  split; [exact Hl | exact Hr].
Defined.

(** Unchecking the product of the sample export tree. *)
Lemma export_product_toggle_witness :
  let pg := load sample_tree ∅ in
  let this := [0; 0; 2; 0; 2; 0; 0]%nat in
  let e := box ["export-product-input"] [("data", "/export/product/7")] false "" in
  props_at this (doc pg) = Some e /\
  doc (export_product_success this (export_product_input this pg)) = doc pg.
Proof.
  intros pg this e.
  assert (H : props_at this (doc pg) = Some e) by reflexivity.
  split; [exact H|].
  exact (proj1 (proj2 (export_product_toggle pg this e H))).
Defined.

(** The fourth row of the sample table after a click on its box. *)
Lemma row_mark_follows_box_witness :
  let this := [0; 4; 0; 0]%nat in
  let tr := [0; 4]%nat in
  let e := box ["select-1"] [] true "" in
  let te := plain "tr" [] [] in
  let tks := [elem "td" [] [] [input ["select-1"] [] true ""]] in
  props_at this sample_table = Some e /\
  parents_first (sel "tr") this sample_table = Some tr /\
  node_at tr sample_table = Some (Elem te tks) /\
  props_at tr (select_1 this true sample_table) = Some (toggle_mark (checked e) te)
  /\ hasClass "marked" (toggle_mark (checked e) te) = checked e.
Proof.
  intros this tr e te tks.
  assert (H1 : props_at this sample_table = Some e) by reflexivity.
  assert (H2 : parents_first (sel "tr") this sample_table = Some tr) by reflexivity.
  assert (H3 : node_at tr sample_table = Some (Elem te tks)) by reflexivity.
  split; [exact H1|]. split; [exact H2|]. split; [exact H3|].
  exact (row_mark_follows_box sample_table this tr true e te tks H1 H2 H3).
Defined.

(** Two plain clicks on the box of the second row of the sample table. *)
Lemma plain_click_twice_witness :
  let this := [0; 1; 0; 0]%nat in
  let tr := [0; 1]%nat in
  let e := box ["select-1"] [] false "" in
  let te := plain "tr" [] [] in
  let tks := [elem "td" [] [] [input ["select-1"] [] false ""]] in
  props_at this sample_table = Some e /\
  checked e = false /\
  parents_first (sel "tr") this sample_table = Some tr /\
  node_at tr sample_table = Some (Elem te tks) /\
  hasClass "marked" te = false /\
  let click root := select_1 this false (flip this root) in
  click (click sample_table) = sample_table
  /\ props_at tr (click sample_table) = Some (addClass "marked" te).
Proof.
  intros this tr e te tks.
  assert (H1 : props_at this sample_table = Some e) by reflexivity.
  assert (H2 : checked e = false) by reflexivity.
  assert (H3 : parents_first (sel "tr") this sample_table = Some tr) by reflexivity.
  assert (H4 : node_at tr sample_table = Some (Elem te tks)) by reflexivity.
  assert (H5 : hasClass "marked" te = false) by reflexivity.
  split; [exact H1|]. split; [exact H2|]. split; [exact H3|]. split; [exact H4|].
  split; [exact H5|].
  exact (plain_click_twice sample_table this tr e te tks H1 H2 H3 H4 H5).
Defined.

(** Asking and declining three times on the first sample link. *)
Lemma decline_any_number_of_times_witness :
  let pg := load sample_links ∅ in
  let this := [0; 0]%nat in
  let e := sample_anchor "/delete/1" "Delete the first?" in
  let ks := [Text "Delete"] in
  node_at this (doc pg) = Some (Elem e ks) /\
  last this = Some 0%nat /\
  is_link e /\
  exists pg',
    Nat.iter 3 (ask_and_decline this) (Some pg) = Some pg'
    /\ doc pg' = doc pg /\ location pg' = location pg.
Proof.
  intros pg this e ks.
  assert (H1 : node_at this (doc pg) = Some (Elem e ks)) by reflexivity.
  assert (H2 : last this = Some 0%nat) by reflexivity.
  assert (H3 : is_link e) by (split; reflexivity).
  split; [exact H1|]. split; [exact H2|]. split; [exact H3|].
  exact (decline_any_number_of_times pg this e ks 0 H1 H2 H3 3).
Defined.

(** A click on the text of the prompt of the second sample link. *)
Lemma prompt_text_is_a_link_witness :
  let pg := load sample_links ∅ in
  let this := [1; 0]%nat in
  let e := sample_anchor "/delete/2" "Delete the second?" in
  let ks := [Text "Delete"] in
  node_at this (doc pg) = Some (Elem e ks) /\
  last this = Some 0%nat /\
  is_link e /\
  parsed_as_written e /\
  let text := elem "span" (classes e) [] [Text (js_str (attr "data" e))] in
  exists pg1 pg2 pg3,
    click this pg = Some pg1
    /\ click (this ++ [0]%nat) pg1 = Some pg2
    /\ node_at (this ++ [0]%nat) (doc pg2)
       = Some (prompt (classes e) "undefined" "undefined")
    /\ confirmation pg2 = Some (Saved text true)
    /\ click (this ++ [4]%nat) pg2 = Some pg3
    /\ node_at this (doc pg3) = Some text.
Proof.
  intros pg this e ks.
  assert (H1 : node_at this (doc pg) = Some (Elem e ks)) by reflexivity.
  assert (H2 : last this = Some 0%nat) by reflexivity.
  assert (H3 : is_link e) by (split; reflexivity).
  assert (Hp : parsed_as_written e) by (split; [reflexivity | split; reflexivity]).
  split; [exact H1|]. split; [exact H2|]. split; [exact H3|]. split; [exact Hp|].
  exact (prompt_text_is_a_link pg this e ks 0 H1 H2 H3 Hp).
Defined.

(** A key in each of the two sample filters, 100 ms apart. *)
Lemma one_timer_for_all_fields_witness :
  let pg0 := load sample_filters ∅ in
  let a := [0; 0]%nat in
  let fa := [0]%nat in
  let b := [1; 0]%nat in
  let fb := [1]%nat in
  timers pg0 = [] /\
  debounced_field (doc pg0) a fa /\
  debounced_field (doc pg0) b fb /\
  (now pg0 <= 0)%Z /\
  (0 <= 100 < 0 + 500)%Z /\
  (100 + 500 <= 1000)%Z /\
  let pg := run_until 1000 (keyup 100 b "hat" (keyup 0 a "shoe" pg0)) in
  exists fe fks,
    node_at fb (doc pg) = Some (Elem fe fks)
    /\ requests pg = requests pg0 ++ [((100 + 500)%Z, submission fe fks)].
Proof.
  intros pg0 a fa b fb.
  assert (H1 : timers pg0 = []) by reflexivity.
  assert (H2 : debounced_field (doc pg0) a fa)
    by (split; [reflexivity | split; [repeat constructor | reflexivity]]).
  assert (H3 : debounced_field (doc pg0) b fb)
    by (split; [reflexivity | split; [repeat constructor | reflexivity]]).
  assert (H4 : (now pg0 <= 0)%Z) by (vm_compute; discriminate).
  assert (H5 : (0 <= 100 < 0 + 500)%Z) by lia.
  assert (H6 : (100 + 500 <= 1000)%Z) by lia.
  split; [exact H1|]. split; [exact H2|]. split; [exact H3|]. split; [exact H4|].
  split; [exact H5|]. split; [exact H6|].
  exact (one_timer_for_all_fields pg0 a b fa fb 0 100 1000 "shoe" "hat" H1 H2 H3 H4 H5 H6).
Defined.

(** Two bursts of keys in the products overview, a second apart. *)
Lemma one_request_per_burst_witness :
  let pg0 := load sample_overview ∅ in
  let this := [0; 0]%nat in
  let fp := [0]%nat in
  let e := box ["products-name-filter"] [("name", "name")] false "" in
  let rest1 := [(100%Z, "sh")] in
  let rest2 := [(1200%Z, "ha"); (1300%Z, "hat")] in
  timers pg0 = [] /\
  props_at this (doc pg0) = Some e /\
  debounced_field (doc pg0) this fp /\
  (now pg0 <= 0)%Z /\
  spaced 0 rest1 /\
  (100 + 500 < 1100)%Z /\
  spaced 1100 rest2 /\
  (1300 + 500 <= 2000)%Z /\
  let pg := run_until 2000 (keyups this (((0%Z, "s") :: rest1) ++ (1100%Z, "h") :: rest2) pg0) in
  exists r1 r2,
    requests pg = requests pg0 ++ [(600%Z, r1); (1800%Z, r2)]
    /\ (forall name, successful e = [(name, value e)] ->
          In (name, "sh") (params r1) /\ In (name, "hat") (params r2)).
Proof.
  intros pg0 this fp e rest1 rest2.
  assert (H1 : timers pg0 = []) by reflexivity.
  assert (H2 : props_at this (doc pg0) = Some e) by reflexivity.
  assert (H3 : debounced_field (doc pg0) this fp)
    by (split; [reflexivity | split; [repeat constructor | reflexivity]]).
  assert (H4 : (now pg0 <= 0)%Z) by (vm_compute; discriminate).
  assert (H5 : spaced 0 rest1) by (cbn; lia).
  assert (H6 : (100 + 500 < 1100)%Z) by lia.
  assert (H7 : spaced 1100 rest2) by (cbn; lia).
  assert (H8 : (1300 + 500 <= 2000)%Z) by lia.
  split; [exact H1|]. split; [exact H2|]. split; [exact H3|]. split; [exact H4|].
  split; [exact H5|]. split; [exact H6|]. split; [exact H7|]. split; [exact H8|].
  exact (one_request_per_burst pg0 this fp e 0 1100 2000 "s" "h" rest1 rest2
           H1 H2 H3 H4 H5 H6 H7 H8).
Defined.

(** A click on the collapsed link of the sample category tree. *)
Lemma category_ajax_link_alternates_witness :
  let this := [0; 1; 0]%nat in
  let e := plain "a" ["category-ajax-link"; "collapsed"] [("href", "/categories/2")] in
  props_at this sample_categories = Some e /\
  let result := category_ajax_link_click this sample_categories in
  exists e',
    props_at this (fst result) = Some e'
    /\ hasClass "collapsed" e' = negb (hasClass "collapsed" e)
    /\ hasClass "expanded" e' = hasClass "collapsed" e
    /\ attr "href" e' = attr "href" e
    /\ snd result = if hasClass "collapsed" e then [attr "href" e] else [].
Proof.
  intros this e.
  assert (H : props_at this sample_categories = Some e) by reflexivity.
  split; [exact H|].
  exact (category_ajax_link_alternates sample_categories this e H).
Defined.

(** A click on the expanded link of the sample category tree. *)
Lemma category_ajax_link_collapse_witness :
  let q := [0; 0]%nat in
  let e := plain "a" ["category-ajax-link"; "expanded"] [("href", "/categories/1")] in
  let se := plain "div" [] [] in
  let sks := [elem "ul" [] [] [elem "li" [] [] [Text "Boots"]]] in
  props_at (q ++ [0]%nat) sample_categories = Some e /\
  hasClass "collapsed" e = false /\
  0%nat <> 1%nat /\
  node_at (q ++ [1]%nat) sample_categories = Some (Elem se sks) /\
  let result := category_ajax_link_click (q ++ [0]%nat) sample_categories in
  node_at (q ++ [1]%nat) (fst result)
  = Some (if String.eqb (tag se) "div" then Elem se [] else Elem se sks)
  /\ snd result = [].
Proof.
  intros q e se sks.
  assert (H1 : props_at (q ++ [0]%nat) sample_categories = Some e) by reflexivity.
  assert (H2 : hasClass "collapsed" e = false) by reflexivity.
  assert (H3 : 0%nat <> 1%nat) by discriminate.
  assert (H4 : node_at (q ++ [1]%nat) sample_categories = Some (Elem se sks)) by reflexivity.
  split; [exact H1|]. split; [exact H2|]. split; [exact H3|]. split; [exact H4|].
  exact (category_ajax_link_collapse sample_categories q 0 1 e se sks H1 H2 H3 H4).
Defined.

(** The field of [Display no results] on the sample property form. *)
Lemma toggles_reach_the_field_witness :
  let x := [0; 1; 1]%nat in
  let y := [0; 2; 0]%nat in
  let q := [0; 1]%nat in
  head (select_paths (sel "#id_display_no_results") sample_property) = Some x /\
  head (select_paths (sel "#id_required") sample_property) = Some y /\
  props_at q (toggle_no_results false sample_property)
  = (if bool_decide (q ∈ parents_sel (sel ".field") x sample_property)
     then set_hidden (negb false) <$> props_at q sample_property
     else props_at q sample_property)
  /\ props_at q (toggle_required false sample_property)
     = (if bool_decide (q ∈ parents_sel (sel ".field") y sample_property)
        then set_hidden (negb false) <$> props_at q sample_property
        else props_at q sample_property).
Proof.
  intros x y q.
  assert (H1 : head (select_paths (sel "#id_display_no_results") sample_property) = Some x)
    by reflexivity.
  assert (H2 : head (select_paths (sel "#id_required") sample_property) = Some y)
    by reflexivity.
  split; [exact H1|]. split; [exact H2|].
  exact (toggles_reach_the_field false sample_property x y q H1 H2).
Defined.

(** A change of the last upload field of the sample images form. *)
Lemma upload_file_next_number_witness :
  let this := [0; 1; 0]%nat in
  let e := box ["upload-file"] [("name", "file_7")] false "" in
  last (select_paths (sel ".upload-file") sample_images) = Some this /\
  props_at this sample_images = Some e /\
  no_underscore "file" = true /\
  attr "name" e = Some ("file" ++ "_" ++ string_of_nat 7)%string /\
  (Z.of_nat 7 < 2 ^ 53)%Z /\
  upload_file this sample_images
  = after (parent this)
      [ elem "div" [] []
          [ elem "input" ["upload-file"]
              [("type", "file"); ("name", ("file_" ++ string_of_nat 8)%string)] [] ] ]
      sample_images.
Proof.
  intros this e.
  assert (H1 : last (select_paths (sel ".upload-file") sample_images) = Some this)
    by reflexivity.
  assert (H2 : props_at this sample_images = Some e) by reflexivity.
  assert (H3 : no_underscore "file" = true) by reflexivity.
  assert (H4 : attr "name" e = Some ("file" ++ "_" ++ string_of_nat 7)%string) by reflexivity.
  assert (H5 : (Z.of_nat 7 < 2 ^ 53)%Z) by (vm_compute; reflexivity).
  split; [exact H1|]. split; [exact H2|]. split; [exact H3|]. split; [exact H4|].
  split; [exact H5|].
  exact (upload_file_next_number sample_images this e "file" 7 H1 H2 H3 H4 H5).
Defined.

(** A change of an upload field that has no name. *)
Lemma upload_file_without_number_witness :
  let this := [0; 0]%nat in
  let e := box ["upload-file"] [] false "" in
  last (select_paths (sel ".upload-file") sample_unnumbered) = Some this /\
  props_at this sample_unnumbered = Some e /\
  no_underscore (default "" (attr "name" e)) = true /\
  upload_file this sample_unnumbered
  = after (parent this)
      [ elem "div" [] []
          [ elem "input" ["upload-file"] [("type", "file"); ("name", "file_NaN")] [] ] ]
      sample_unnumbered.
Proof.
  intros this e.
  assert (H1 : last (select_paths (sel ".upload-file") sample_unnumbered) = Some this)
    by reflexivity.
  assert (H2 : props_at this sample_unnumbered = Some e) by reflexivity.
  assert (H3 : no_underscore (default "" (attr "name" e)) = true) by reflexivity.
  split; [exact H1|]. split; [exact H2|]. split; [exact H3|].
  exact (upload_file_without_number sample_unnumbered this e H1 H2 H3).
Defined.
